(** * A VLESS-over-WebSocket relay: the session logic of the two entry points

    The repository holds two versions of the same relay.

    - [Part000] embeds the stream-pipe version: the inbound WebSocket frames
      arrive through a readable stream that is piped into a sink, a promise
      gates the second pipe (TCP to WebSocket), and that second pipe throttles
      its chunks by a per-session counter.
    - [Sink2] embeds the [write] of that second pipe's sink once more, turn
      by turn, with the suspension at its delay.
    - [MainTs] embeds [apps/deno-vless/src/main.ts]: the session is driven by
      the raw socket callbacks [onmessage], [onerror], [onclose]; the upgrade
      handler extracts an identifier from the request URL.
    - [UrlSpec] states, without the pattern matcher, which identifier the
      specification gives a request.

    Both import [processVlessHeader], [base64ToArrayBuffer], [closeWebSocket]
    and [delay] from the package [vless-js], which is not among the sources;
    the stream-pipe version also imports [makeReadableWebSocketStream].
    The two decoders are taken as an interface ([VlessJs]); [closeWebSocket]
    is modelled from the specification; [delay] is an effect; the stream
    that [makeReadableWebSocketStream] returns is the source of the events
    of the first sink.  The session code is translated statement by
    statement over these.

    A session is embedded as a transition function over the events the
    platform delivers to it.  Every transition returns the next state and the
    list of effects it performed, in program order. *)

From Stdlib Require Import List Bool Arith NArith Lia.
From Stdlib.Strings Require Import String Ascii Byte.
Import ListNotations.
Local Open Scope N_scope.
Local Open Scope list_scope.

Set Implicit Arguments.

(** ** Data shared by both versions *)

(** The contents of an [ArrayBuffer] or [Uint8Array]. *)
Definition bytes := list byte.

(** A handle on a [Deno.TcpConn]; the platform numbers them. *)
Definition conn := nat.

(** What [processVlessHeader] returns.  Each field that the callers test for
    truthiness is optional: [None] stands for [undefined]. *)
Record vless_header := {
  hasError : bool;
  message : option string;
  portRemote : option N;
  addressRemote : option string;
  rawDataIndex : option N;
  vlessVersion : option bytes;
  isUDP : bool
}.

(** What [base64ToArrayBuffer] returns: [{ earlyData, error }]. *)
Record early_data := {
  earlyData : option bytes;
  error : option string
}.

(** The part of [vless-js] the sessions call and whose code is absent: the
    header decoder, given the first frame and the identifier to authenticate
    against, and the decoder of the [sec-websocket-protocol] header. *)
Class VlessJs := {
  processVlessHeader : bytes -> string -> vless_header;
  base64ToArrayBuffer : string -> early_data
}.

(** [portWithRandomLog]: the empty string until a header was processed, then
    [`${portRemote}--${Math.random()}`].  The random suffix only tells log
    lines of different sessions apart and is left out. *)
Inductive port_log :=
| PortUnset
| PortOf (p : option N).

(** The effects of a session, as the outside sees them. *)
Inductive action :=
| Log (addr : string) (port : port_log) (info : string)
    (* log(info), which prints `[${address}:${portWithRandomLog}] ${info}` *)
| ConsoleError (addr : string) (port : port_log)
    (* console.error(`[...] processWebSocket has exception `, ...) *)
| WsSend (data : bytes)                 (* webSocket.send(data) *)
| WsClose                               (* webSocket.close() *)
| Connect (hostname : string) (port : N) (* Deno.connect({port, hostname}) *)
| TcpWrite (c : conn) (data : bytes)    (* c.write(data) *)
| TcpClose (c : conn)                   (* c.close() *)
| Delay (ms : N)                        (* await delay(ms) *)
| ControllerError.                      (* controller.error(...) of a sink *)

(** How a call of a callback ends: it returns; it is suspended at an
    [await] that an event has to complete; or an exception leaves it and
    nothing catches it (for an [async] callback, the promise it returned is
    rejected and nothing handles the rejection). *)
Inductive outcome := Returned | Suspended | Escaped.

(** JavaScript truthiness of the values the header test negates. *)
Definition truthy_number (x : option N) : bool :=
  match x with Some n => negb (n =? 0) | None => false end.

Definition truthy_string (x : option string) : bool :=
  match x with Some s => negb (String.eqb s EmptyString) | None => false end.

Definition truthy_object {A} (x : option A) : bool :=
  match x with Some _ => true | None => false end.

(** [hasError || !portRemote || !addressRemote || !rawDataIndex
    || !vlessVersion] *)
Definition header_rejected (h : vless_header) : bool :=
  hasError h
  || negb (truthy_number (portRemote h))
  || negb (truthy_string (addressRemote h))
  || negb (truthy_number (rawDataIndex h))
  || negb (truthy_object (vlessVersion h)).

(** [addressRemote || ''] *)
Definition address_or_empty (h : vless_header) : string :=
  match addressRemote h with
  | Some a => a          (* the empty string is falsy and yields '' as well *)
  | None => EmptyString
  end.

(** The port the dial uses; only read after [header_rejected] was false. *)
Definition port_of (h : vless_header) : N :=
  match portRemote h with Some p => p | None => 0 end.

(** [new Uint8Array([vlessVersion[0], 0])]: a missing element converts to 0. *)
Definition response_header (h : vless_header) : bytes :=
  match vlessVersion h with
  | Some (v :: _) => [v; x00]
  | _ => [x00; x00]
  end.

(** [vlessBuffer.slice(rawDataIndex)] for an offset that is a natural number:
    the bytes from that offset to the end, none when it is past the end. *)
Definition slice_from (buf : bytes) (i : option N) : bytes :=
  match i with
  | Some n => skipn (N.to_nat n) buf
  | None => buf
  end.

(** [if (rawClientData.byteLength > 0) await remoteConnection.write(...)] *)
Definition write_raw (c : conn) (raw : bytes) : list action :=
  match raw with
  | [] => []
  | _ :: _ => [TcpWrite c raw]
  end.

(** Modelled from the spec: [closeWebSocket] is imported from [vless-js] and
    its code is absent.  The spec requires that closing a socket that is
    already closed is a no-op and not an error; so it closes a socket whose
    [readyState] is [OPEN] and does nothing otherwise.  The boolean is
    [webSocket.readyState === webSocket.OPEN]; the result pairs its value
    after the call with the effects. *)
Definition closeWebSocket (wsOpen : bool) : bool * list action :=
  if wsOpen then (false, [WsClose]) else (false, []).

(** The effects with the lines of [log] removed. *)
Definition is_log (a : action) : bool :=
  match a with Log _ _ _ => true | _ => false end.

Definition effects (l : list action) : list action :=
  filter (fun a => negb (is_log a)) l.

Definition is_connect (a : action) : bool :=
  match a with Connect _ _ => true | _ => false end.

Definition is_tcp_write (a : action) : bool :=
  match a with TcpWrite _ _ => true | _ => false end.

(** The writes to TCP among some effects, in order. *)
Definition tcp_writes (l : list action) : list action :=
  filter is_tcp_write l.

(** The frames sent to the client, in order. *)
Fixpoint frames (l : list action) : list bytes :=
  match l with
  | [] => []
  | WsSend d :: t => d :: frames t
  | _ :: t => frames t
  end.

(** The delay a list of effects waits for, in milliseconds. *)
Fixpoint total_delay (l : list action) : N :=
  match l with
  | [] => 0
  | Delay ms :: t => ms + total_delay t
  | _ :: t => total_delay t
  end.

(** ** The stream-pipe version *)

Module Part000.

(** The second pipe, [remoteConnection.readable.pipeTo(...)], is created once
    the promise [remoteConnectionReadyPromise] is resolved. *)
Inductive stage := NotStarted | Running | Finished.

(** The variables of one call of [processWebSocket], and what the platform
    holds for it. *)
Record session := {
  userID : string;
  address : string;
  portWithRandomLog : port_log;
  remoteConnection : option conn;
  vlessResponseHeader : option bytes;
  remoteChunkCount : N;
    (* a JavaScript number; it holds every integer below 2^53 exactly *)
  wsOpen : bool;
    (* webSocket.readyState === webSocket.OPEN *)
  dialing : option (bytes * vless_header);
    (* the first sink's write, suspended at [await Deno.connect(...)], with
       the chunk and the decoded header it holds *)
  pipe1 : bool;
    (* readableWebSocketStream.pipeTo(...) is still running *)
  pipe2 : stage
}.

Definition init (uid : string) (open : bool) : session :=
  {| userID := uid; address := EmptyString; portWithRandomLog := PortUnset;
     remoteConnection := None; vlessResponseHeader := None;
     remoteChunkCount := 0; wsOpen := open; dialing := None;
     pipe1 := true; pipe2 := NotStarted |}.

Definition set_context (s : session) (a : string) (p : port_log) : session :=
  {| userID := userID s; address := a; portWithRandomLog := p;
     remoteConnection := remoteConnection s;
     vlessResponseHeader := vlessResponseHeader s;
     remoteChunkCount := remoteChunkCount s; wsOpen := wsOpen s;
     dialing := dialing s; pipe1 := pipe1 s; pipe2 := pipe2 s |}.

Definition set_remote (s : session) (c : conn) (hdr : bytes) : session :=
  {| userID := userID s; address := address s;
     portWithRandomLog := portWithRandomLog s;
     remoteConnection := Some c; vlessResponseHeader := Some hdr;
     remoteChunkCount := remoteChunkCount s; wsOpen := wsOpen s;
     dialing := dialing s; pipe1 := pipe1 s; pipe2 := pipe2 s |}.

Definition set_count (s : session) (n : N) : session :=
  {| userID := userID s; address := address s;
     portWithRandomLog := portWithRandomLog s;
     remoteConnection := remoteConnection s;
     vlessResponseHeader := vlessResponseHeader s;
     remoteChunkCount := n; wsOpen := wsOpen s;
     dialing := dialing s; pipe1 := pipe1 s; pipe2 := pipe2 s |}.

Definition set_ws (s : session) (b : bool) : session :=
  {| userID := userID s; address := address s;
     portWithRandomLog := portWithRandomLog s;
     remoteConnection := remoteConnection s;
     vlessResponseHeader := vlessResponseHeader s;
     remoteChunkCount := remoteChunkCount s; wsOpen := b;
     dialing := dialing s; pipe1 := pipe1 s; pipe2 := pipe2 s |}.

Definition set_dialing (s : session) (d : option (bytes * vless_header))
  : session :=
  {| userID := userID s; address := address s;
     portWithRandomLog := portWithRandomLog s;
     remoteConnection := remoteConnection s;
     vlessResponseHeader := vlessResponseHeader s;
     remoteChunkCount := remoteChunkCount s; wsOpen := wsOpen s;
     dialing := d; pipe1 := pipe1 s; pipe2 := pipe2 s |}.

Definition set_pipe1 (s : session) (b : bool) : session :=
  {| userID := userID s; address := address s;
     portWithRandomLog := portWithRandomLog s;
     remoteConnection := remoteConnection s;
     vlessResponseHeader := vlessResponseHeader s;
     remoteChunkCount := remoteChunkCount s; wsOpen := wsOpen s;
     dialing := dialing s; pipe1 := b; pipe2 := pipe2 s |}.

Definition set_pipe2 (s : session) (g : stage) : session :=
  {| userID := userID s; address := address s;
     portWithRandomLog := portWithRandomLog s;
     remoteConnection := remoteConnection s;
     vlessResponseHeader := vlessResponseHeader s;
     remoteChunkCount := remoteChunkCount s; wsOpen := wsOpen s;
     dialing := dialing s; pipe1 := pipe1 s; pipe2 := g |}.

(** [log(info)] reads [address] and [portWithRandomLog] when it is called. *)
Definition log (s : session) (info : string) : action :=
  Log (address s) (portWithRandomLog s) info.

(** [log(...); closeWebSocket(webSocket); return;] *)
Definition log_and_close (s : session) (info : string)
  : session * list action :=
  let '(open, acts) := closeWebSocket (wsOpen s) in
  (set_ws s open, log s info :: acts).

(** [remoteConnection?.close()] *)
Definition close_remote (s : session) : list action :=
  match remoteConnection s with
  | Some c => [TcpClose c]
  | None => []
  end.

(** The handler given to [.catch] on the first pipe. *)
Definition pipe1_catch (s : session) : session * list action :=
  let '(s1, acts) :=
    log_and_close s "readableWebSocketStream pipeto has exception" in
  (set_pipe1 s1 false, acts ++ close_remote s1).

(** The [catch] block that encloses the body of [processWebSocket]. *)
Definition top_level_catch (s : session) : session * list action :=
  let '(open, acts) := closeWebSocket (wsOpen s) in
  let s1 := set_ws s open in
  (s1, ConsoleError (address s) (portWithRandomLog s) :: acts
         ++ close_remote s1).

(** What the events of this version are: calls that the stream machinery
    makes into the two sinks, the completions of the awaited
    [Deno.connect], and the client going away.  A TCP write and its
    completion are one step; the flag [wr] tells whether the write the step
    awaits (if it awaits one) resolves. *)
Inductive event :=
| Frame (chunk : bytes) (wr : bool)   (* first sink: write(chunk) *)
| Connected (c : conn) (wr : bool)    (* the awaited Deno.connect resolves *)
| ConnectFailed                       (* the awaited Deno.connect rejects *)
| StreamClose                         (* first sink: close() *)
| StreamAbort                         (* first sink: abort(reason) *)
| RemoteChunk (chunk : bytes)         (* second sink: write(chunk) *)
| RemoteClose                         (* second sink: close() *)
| RemoteAbort                         (* second sink: abort(reason) *)
| ClientGone.                         (* readyState leaves OPEN *)

(** The throttle of the second sink's [write], after [remoteChunkCount++]. *)
Definition send_throttled (count : N) (chunk : bytes) : list action :=
  if count <? 20 then [WsSend chunk]
  else if count <? 120 then [Delay 10; WsSend chunk]
  else if count <? 500 then [Delay 20; WsSend chunk]
  else [Delay 50; WsSend chunk].

(** The second sink's [write(chunk, controller)].  When the socket is not
    open the sink is put in error, which rejects the awaited [pipeTo] and
    runs the enclosing [catch]. *)
Definition remote_write (s : session) (chunk : bytes)
  : session * list action :=
  if negb (wsOpen s) then
    let '(s1, acts) := top_level_catch s in
    (set_pipe2 s1 Finished, ControllerError :: close_remote s ++ acts)
  else
    let s1 := set_count s (remoteChunkCount s + 1) in
    (s1, send_throttled (remoteChunkCount s1) chunk).

(** The code after [await remoteConnectionReadyPromise]: the counter starts
    at 0 and the second pipe is built; the sink's [start()] sends the
    response header when the socket is open. *)
Definition start_relay (s : session) : session * list action :=
  match remoteConnection s with
  | None => (s, [log s "Failed to establish remote connection. Aborting."])
  | Some _ =>
      let s1 := set_pipe2 (set_count s 0) Running in
      (s1, if wsOpen s1
           then match vlessResponseHeader s1 with
                | Some hdr => [WsSend hdr]
                | None => [WsSend []]   (* it is set with the connection *)
                end
           else [])
  end.

Section FirstSink.
Context {lib : VlessJs}.

(** The first sink's [write(chunk)] up to its first suspension. *)
Definition sink_write (s : session) (chunk : bytes) (wr : bool)
  : session * list action :=
  match remoteConnection s with
  | Some c =>
      if wr then (s, [TcpWrite c chunk])
      else let '(s1, acts) := pipe1_catch s in (s1, TcpWrite c chunk :: acts)
  | None =>
      let h := processVlessHeader chunk (userID s) in
      let s1 := set_context s (address_or_empty h) (PortOf (portRemote h)) in
      if header_rejected h then
        log_and_close s1 "VLESS header processing error"
      else if isUDP h then
        log_and_close s1 "UDP command is not supported"
      else
        (set_dialing s1 (Some (chunk, h)),
         [log s1 "connecting"; Connect (address s1) (port_of h)])
  end.

End FirstSink.

(** The rest of that [write] once [Deno.connect] resolved with [c]. *)
Definition sink_write_connected (s : session) (chunk : bytes)
  (h : vless_header) (c : conn) (wr : bool) : session * list action :=
  let s1 := set_dialing (set_remote s c (response_header h)) None in
  let raw := slice_from chunk (rawDataIndex h) in
  match raw with
  | [] =>
      start_relay s1
  | _ :: _ =>
      if wr then
        let '(s2, acts) := start_relay s1 in (s2, TcpWrite c raw :: acts)
      else
        let '(s2, acts) := log_and_close s1 "Failed to connect to remote" in
        (s2, TcpWrite c raw :: acts)
  end.

Section Events.
Context {lib : VlessJs}.

(** One event.  An event the platform cannot deliver in the state at hand
    (a chunk for a sink whose pipe has ended or whose previous write has
    not returned, a completion nobody awaits) changes nothing. *)
Definition step (s : session) (e : event) : session * list action :=
  match e with
  | Frame chunk wr =>
      match pipe1 s, dialing s with
      | true, None => sink_write s chunk wr
      | _, _ => (s, [])
      end
  | Connected c wr =>
      match dialing s with
      | Some (chunk, h) => sink_write_connected s chunk h c wr
      | None => (s, [])
      end
  | ConnectFailed =>
      match dialing s with
      | Some _ =>
          log_and_close (set_dialing s None) "Failed to connect to remote"
      | None => (s, [])
      end
  | StreamClose =>
      match pipe1 s, dialing s with
      | true, None =>
          (set_pipe1 s false,
           log s "readableWebSocketStream is close" :: close_remote s)
      | _, _ => (s, [])
      end
  | StreamAbort =>
      match pipe1 s, dialing s with
      | true, None =>
          let '(s1, acts) := pipe1_catch s in
          (s1, log s "readableWebSocketStream is abort"
                 :: close_remote s ++ acts)
      | _, _ => (s, [])
      end
  | RemoteChunk chunk =>
      match pipe2 s with
      | Running => remote_write s chunk
      | _ => (s, [])
      end
  | RemoteClose =>
      match pipe2 s with
      | Running =>
          log_and_close (set_pipe2 s Finished)
            "remoteConnection.readable is close"
      | _ => (s, [])
      end
  | RemoteAbort =>
      match pipe2 s with
      | Running =>
          let '(s1, acts) :=
            log_and_close (set_pipe2 s Finished)
              "remoteConnection.readable abort" in
          let '(s2, acts') := top_level_catch s1 in
          (s2, acts ++ acts')
      | _ => (s, [])
      end
  | ClientGone => (set_ws s false, [])
  end.

(** A session from a state on: the final state and every effect, in order. *)
Fixpoint run (s : session) (es : list event) : session * list action :=
  match es with
  | [] => (s, [])
  | e :: es' =>
      let '(s1, acts) := step s e in
      let '(s2, acts') := run s1 es' in
      (s2, acts ++ acts')
  end.

End Events.

(** Events among which no further chunk is handed to the first sink. *)
Definition quiet (es : list event) : bool :=
  forallb (fun e => match e with Frame _ _ => false | _ => true end) es.

(** Events among which no awaited [Deno.connect] completes. *)
Definition no_completion (es : list event) : bool :=
  forallb
    (fun e => match e with Connected _ _ | ConnectFailed => false
                         | _ => true end) es.

(** What holds of a session of the stream-pipe version and the effects it
    had so far: a dial is only awaited while no connection exists, the
    second pipe only runs once one exists, nothing is sent to the client
    before the second pipe is built, and once it is built either nothing
    was sent and the socket is no longer open, or the first frame sent is
    the stored response header. *)
Definition header_first (s : session) (tr : list action) : Prop :=
  (dialing s <> None -> remoteConnection s = None)
  /\ (remoteConnection s = None ->
      pipe2 s = NotStarted)
  /\ (pipe2 s = NotStarted -> frames tr = [])
  /\ (vlessResponseHeader s = None
      \/ exists h, vlessResponseHeader s = Some (response_header h))
  /\ ((frames tr = [] /\
       (pipe2 s = NotStarted \/ wsOpen s = false))
      \/ exists hdr rest,
           vlessResponseHeader s = Some hdr
           /\ frames tr = hdr :: rest).

End Part000.

(** ** The second sink of the stream-pipe version, turn by turn *)

(** [Part000.remote_write] takes a call of the second sink's [write] (lines
    191 to 215) as one step.  From the 20th chunk on the call has an [await]
    in it, between the test of [readyState] and the send, and the socket may
    close there.  In this model a call is made of the turns it really has:
    the one that tests, counts and either sends or starts the delay, and the
    one that sends when the delay is over.  The sink's [close] and [abort]
    neither count nor send and are left out; the stream calls them when no
    call of [write] is under way, and calls [write] no more afterwards. *)
Module Sink2.

(** What a call of [write] reads and changes, and what the stream knows of
    the sink. *)
Record sink := {
  readyOpen : bool;            (* webSocket.readyState === webSocket.OPEN *)
  remoteChunkCount : N;
  waiting : option bytes;      (* the chunk of the call suspended at delay *)
  errored : bool               (* the sink was put in error *)
}.

Definition init (open : bool) : sink :=
  {| readyOpen := open; remoteChunkCount := 0; waiting := None;
     errored := false |}.

Definition set_open (s : sink) (b : bool) : sink :=
  {| readyOpen := b; remoteChunkCount := remoteChunkCount s;
     waiting := waiting s; errored := errored s |}.

Definition set_count (s : sink) (n : N) : sink :=
  {| readyOpen := readyOpen s; remoteChunkCount := n;
     waiting := waiting s; errored := errored s |}.

Definition set_waiting (s : sink) (w : option bytes) : sink :=
  {| readyOpen := readyOpen s; remoteChunkCount := remoteChunkCount s;
     waiting := w; errored := errored s |}.

Definition set_errored (s : sink) : sink :=
  {| readyOpen := readyOpen s; remoteChunkCount := remoteChunkCount s;
     waiting := waiting s; errored := true |}.

(** The stream calls [write] with the next chunk, once the call before has
    returned and unless the sink is in error; the delay that a call awaits
    is over, and [webSocket.send] then returns ([sent]) or throws; the
    socket leaves the state [OPEN], at any time. *)
Inductive event :=
| Write (chunk : bytes)
| Elapsed (sent : bool)
| SocketNotOpen.

Section Sink.
(** [remoteConnection], which is not null here (lines 176 to 179). *)
Variable c : conn.

(** A call of [write], up to its [await] or, for the first 19 chunks, to its
    end: the only test of [readyState], then [remoteChunkCount++], then the
    three comparisons.  What the [catch] around the pipe does once the sink
    is in error is in [Part000.remote_write]. *)
Definition write (s : sink) (chunk : bytes) : sink * list action :=
  if negb (readyOpen s) then
    (set_errored s, [ControllerError; TcpClose c])
  else
    let s1 := set_count s (remoteChunkCount s + 1) in
    if remoteChunkCount s1 <? 20 then (s1, [WsSend chunk])
    else if remoteChunkCount s1 <? 120
    then (set_waiting s1 (Some chunk), [Delay 10])
    else if remoteChunkCount s1 <? 500
    then (set_waiting s1 (Some chunk), [Delay 20])
    else (set_waiting s1 (Some chunk), [Delay 50]).

(** The rest of a call after its [await delay(..)]: [send2WebSocket()],
    with no second test of [readyState]. *)
Definition resumed (s : sink) (chunk : bytes) (sent : bool)
  : sink * list action :=
  let s1 := set_waiting s None in
  (if sent then s1 else set_errored s1, [WsSend chunk]).

(** One event; [None] when it cannot occur in the state at hand. *)
Definition step (s : sink) (e : event) : option (sink * list action) :=
  match e with
  | Write chunk =>
      match waiting s with
      | Some _ => None
      | None => if errored s then None else Some (write s chunk)
      end
  | Elapsed sent =>
      match waiting s with
      | Some chunk => Some (resumed s chunk sent)
      | None => None
      end
  | SocketNotOpen => Some (set_open s false, [])
  end.

Fixpoint run (s : sink) (es : list event) : option (sink * list action) :=
  match es with
  | [] => Some (s, [])
  | e :: es' =>
      match step s e with
      | None => None
      | Some (s1, acts) =>
          match run s1 es' with
          | None => None
          | Some (s2, acts') => Some (s2, acts ++ acts')
          end
      end
  end.

End Sink.

(** The number of calls of [write] suspended at their delay: one or none. *)
Definition in_delay (s : sink) : N :=
  match waiting s with Some _ => 1 | None => 0 end.

End Sink2.

(** ** The callback version, [apps/deno-vless/src/main.ts] *)

Module MainTs.

(** *** [getVlessUUID] *)

(** The regular expression
    [/([a-f0-9]{8}-[a-f0-9]{4}-[a-f0-9]{4}-[a-f0-9]{4}-[a-f0-9]{12})/i]
    is a sequence of 36 single-character atoms. *)
Inductive atom := Hex | Dash.

(** [[a-f0-9]] under the flag [i]: a digit or a letter a to f of either
    case. *)
Definition is_hex (c : ascii) : bool :=
  let n := N_of_ascii c in
  ((48 <=? n) && (n <=? 57))
  || ((97 <=? n) && (n <=? 102))
  || ((65 <=? n) && (n <=? 70)).

Definition atom_matches (a : atom) (c : ascii) : bool :=
  match a with
  | Hex => is_hex c
  | Dash => Ascii.eqb c "-"
  end.

Definition uuid_pattern : list atom :=
  repeat Hex 8 ++ [Dash] ++ repeat Hex 4 ++ [Dash] ++ repeat Hex 4
  ++ [Dash] ++ repeat Hex 4 ++ [Dash] ++ repeat Hex 12.

(** The text the pattern matches at the start of [s], if it matches there. *)
Fixpoint match_here (p : list atom) (s : string) : option string :=
  match p with
  | [] => Some EmptyString
  | a :: p' =>
      match s with
      | EmptyString => None
      | String c s' =>
          if atom_matches a c
          then option_map (String c) (match_here p' s')
          else None
      end
  end.

(** [s.match(re)]: the match that starts leftmost. *)
Fixpoint first_match (p : list atom) (s : string) : option string :=
  match match_here p s with
  | Some m => Some m
  | None =>
      match s with
      | EmptyString => None
      | String _ s' => first_match p s'
      end
  end.

Definition default_uuid : string := "6c131438-da48-459f-a236-9a45374e9a45".

(** The request URL is a serialised URL, hence ASCII. *)
Definition getVlessUUID (url : string) : string :=
  match first_match uuid_pattern url with
  | Some m => m              (* uuidMatch[1] *)
  | None => default_uuid
  end.

(** A string is UUID-shaped when the pattern matches all of it. *)
Definition uuid_shaped (u : string) : bool :=
  match match_here uuid_pattern u with
  | Some m => String.eqb m u
  | None => false
  end.

(** No dash in the string; no dash among its first [n] characters. *)
Fixpoint no_dash (s : string) : bool :=
  match s with
  | EmptyString => true
  | String c s' => negb (Ascii.eqb c "-") && no_dash s'
  end.

Fixpoint dash_free_upto (n : nat) (s : string) : bool :=
  match n, s with
  | O, _ => true
  | S _, EmptyString => true
  | S n', String c s' => negb (Ascii.eqb c "-") && dash_free_upto n' s'
  end.

(** *** The upgrade handler *)

(** The argument object of a call of [processWebSocket], less the socket. *)
Record session_args := {
  arg_userID : string;
  arg_earlyDataHeader : string
}.

(** [c.req.header('sec-websocket-protocol') || ''] *)
Definition protocol_or_empty (h : option string) : string :=
  match h with Some v => v | None => EmptyString end.

(** The call made by [socket.onopen], for a process configured with
    [userID], a request for [url] and its [sec-websocket-protocol] header. *)
Definition socket_onopen_args (userID url : string) (protocol : option string)
  : session_args :=
  let vlessUUID := getVlessUUID url in
  let earlyDataHeader := protocol_or_empty protocol in
  {| arg_userID := vlessUUID; arg_earlyDataHeader := earlyDataHeader |}.

(** The call made by the [onOpen] callback returned to Hono. *)
Definition hono_onOpen_args (userID url : string) (protocol : option string)
  : session_args :=
  let earlyDataHeader := protocol_or_empty protocol in
  {| arg_userID := userID; arg_earlyDataHeader := earlyDataHeader |}.

(** *** [processWebSocket] *)

(** The variables of one call, and what the platform holds for it. *)
Record session := {
  userID : string;
  address : string;
  portWithRandomLog : port_log;
  remoteConnection : option conn;
  readableStreamCancel : bool;
  wsOpen : bool;
    (* webSocket.readyState === webSocket.OPEN *)
  pending : list (option (bytes * vless_header));
    (* the calls of [onmessage] suspended at [await Deno.connect(...)], in
       the order they were made, each with the frame and the decoded header
       it holds; a call that was resumed leaves [None] *)
  pipes : list conn
    (* the connections whose [readable] is being piped to the socket *)
}.

Definition init (uid : string) (open : bool) : session :=
  {| userID := uid; address := EmptyString; portWithRandomLog := PortUnset;
     remoteConnection := None; readableStreamCancel := false;
     wsOpen := open; pending := []; pipes := [] |}.

Definition set_context (s : session) (a : string) (p : port_log) : session :=
  {| userID := userID s; address := a; portWithRandomLog := p;
     remoteConnection := remoteConnection s;
     readableStreamCancel := readableStreamCancel s; wsOpen := wsOpen s;
     pending := pending s; pipes := pipes s |}.

Definition set_remote (s : session) (c : conn) : session :=
  {| userID := userID s; address := address s;
     portWithRandomLog := portWithRandomLog s;
     remoteConnection := Some c;
     readableStreamCancel := readableStreamCancel s; wsOpen := wsOpen s;
     pending := pending s; pipes := pipes s |}.

Definition set_cancel (s : session) (b : bool) : session :=
  {| userID := userID s; address := address s;
     portWithRandomLog := portWithRandomLog s;
     remoteConnection := remoteConnection s;
     readableStreamCancel := b; wsOpen := wsOpen s;
     pending := pending s; pipes := pipes s |}.

Definition set_ws (s : session) (b : bool) : session :=
  {| userID := userID s; address := address s;
     portWithRandomLog := portWithRandomLog s;
     remoteConnection := remoteConnection s;
     readableStreamCancel := readableStreamCancel s; wsOpen := b;
     pending := pending s; pipes := pipes s |}.

Definition set_pending (s : session)
  (l : list (option (bytes * vless_header))) : session :=
  {| userID := userID s; address := address s;
     portWithRandomLog := portWithRandomLog s;
     remoteConnection := remoteConnection s;
     readableStreamCancel := readableStreamCancel s; wsOpen := wsOpen s;
     pending := l; pipes := pipes s |}.

Definition set_pipes (s : session) (l : list conn) : session :=
  {| userID := userID s; address := address s;
     portWithRandomLog := portWithRandomLog s;
     remoteConnection := remoteConnection s;
     readableStreamCancel := readableStreamCancel s; wsOpen := wsOpen s;
     pending := pending s; pipes := l |}.

Definition log (s : session) (info : string) : action :=
  Log (address s) (portWithRandomLog s) info.

(** [log(...); closeWebSocket(webSocket);] *)
Definition log_and_close (s : session) (info : string)
  : session * list action :=
  let '(open, acts) := closeWebSocket (wsOpen s) in
  (set_ws s open, log s info :: acts).

(** [remoteConnection?.close()] *)
Definition close_remote (s : session) : list action :=
  match remoteConnection s with
  | Some c => [TcpClose c]
  | None => []
  end.

(** The [catch] block that encloses the body of [processWebSocket]. *)
Definition top_level_catch (s : session) : session * list action :=
  let '(open, acts) := closeWebSocket (wsOpen s) in
  let s1 := set_ws s open in
  (s1, ConsoleError (address s) (portWithRandomLog s) :: acts
         ++ close_remote s1).

(** The suspended call number [k], and the list once it was resumed. *)
Definition suspended (s : session) (k : nat) : option (bytes * vless_header) :=
  nth k (pending s) None.

Fixpoint resume (l : list (option (bytes * vless_header))) (k : nat)
  : list (option (bytes * vless_header)) :=
  match l, k with
  | [], _ => []
  | _ :: t, O => None :: t
  | x :: t, S k' => x :: resume t k'
  end.

Definition is_piped (s : session) (c : conn) : bool :=
  existsb (Nat.eqb c) (pipes s).

Definition unpipe (s : session) (c : conn) : session :=
  set_pipes s (filter (fun c' => negb (Nat.eqb c c')) (pipes s)).

(** The events of this version: the socket's callbacks, the completions of
    the awaited [Deno.connect] of a suspended [onmessage] call, and the
    calls the stream machinery makes into the sink of a connection's pipe.
    A TCP write and its completion are one step; the flag [wr] tells whether
    the write the step awaits (if it awaits one) resolves. *)
Inductive event :=
| Message (data : bytes) (wr : bool)           (* webSocket.onmessage *)
| Connected (k : nat) (c : conn) (wr : bool)   (* call k: connect resolves *)
| ConnectFailed (k : nat)                      (* call k: connect rejects *)
| WsError                                      (* webSocket.onerror *)
| WsClosed                                     (* webSocket.onclose *)
| RemoteChunk (c : conn) (chunk : bytes)       (* sink of c: write(chunk) *)
| RemoteClose (c : conn)                       (* sink of c: close() *)
| RemoteAbort (c : conn).                      (* sink of c: abort(reason) *)

Definition result : Type := session * list action * outcome.

Definition returned (r : session * list action) : result :=
  (fst r, snd r, Returned).

Section Callbacks.
Context {lib : VlessJs}.

(** [webSocket.onmessage], up to its first suspension.  It is an [async]
    function that nothing awaits and that has no [try] around its first
    [await]: a rejected write leaves it. *)
Definition onmessage (s : session) (data : bytes) (wr : bool) : result :=
  if readableStreamCancel s then (s, [], Returned)
  else
    match remoteConnection s with
    | Some c =>
        (s, [TcpWrite c data], if wr then Returned else Escaped)
    | None =>
        let h := processVlessHeader data (userID s) in
        let s1 :=
          set_context s (address_or_empty h) (PortOf (portRemote h)) in
        if header_rejected h then
          returned (log_and_close s1 "VLESS header processing error")
        else if isUDP h then
          returned (log_and_close s1 "UDP command is not supported")
        else
          (set_pending s1 (pending s1 ++ [Some (data, h)]),
           [log s1 "connecting"; Connect (address s1) (port_of h)],
           Suspended)
    end.

(** The rest of call [k] of [onmessage] once [Deno.connect] resolved with
    [c]: inside its [try].  The response header is built and not used. *)
Definition onmessage_connected (s : session) (k : nat) (data : bytes)
  (h : vless_header) (c : conn) (wr : bool) : result :=
  let s1 := set_remote (set_pending s (resume (pending s) k)) c in
  let vlessResponseHeader := response_header h in
  let raw := slice_from data (rawDataIndex h) in
  match raw with
  | [] =>
      (set_pipes s1 (c :: pipes s1), [], Returned)
  | _ :: _ =>
      if wr then
        (set_pipes s1 (c :: pipes s1), [TcpWrite c raw], Returned)
      else
        let '(s2, acts) := log_and_close s1 "Failed to connect to remote" in
        (s2, TcpWrite c raw :: acts, Returned)
  end.

(** The [catch] of that [try] when [Deno.connect] rejected. *)
Definition onmessage_connect_failed (s : session) (k : nat) : result :=
  returned
    (log_and_close (set_pending s (resume (pending s) k))
       "Failed to connect to remote").

(** [webSocket.onerror] *)
Definition onerror (s : session) : result :=
  let s1 := set_cancel s true in
  (s1, log s "socket has error" :: close_remote s1, Returned).

(** [webSocket.onclose]; the socket is closed when it is called. *)
Definition onclose (s : session) : result :=
  let s1 := set_ws s false in
  if readableStreamCancel s1 then
    (s1, [log s1 "webSocket is close"], Returned)
  else
    (s1, log s1 "webSocket is close" :: close_remote s1, Returned).

(** The handler given to [.catch] on a connection's pipe. *)
Definition pipe_catch (s : session) : session * list action :=
  log_and_close s "remoteConnection readable stream pipeto has exception".

(** The sink's [write(chunk, controller)] for the pipe of [c].  Putting the
    sink in error rejects [pipeTo], which runs [pipe_catch]. *)
Definition remote_write (s : session) (c : conn) (chunk : bytes) : result :=
  if wsOpen s then (s, [WsSend chunk], Returned)
  else
    let '(s1, acts) := pipe_catch (unpipe s c) in
    (s1, ControllerError :: close_remote s ++ acts, Returned).

(** The sink's [close()]. *)
Definition remote_close (s : session) (c : conn) : result :=
  returned
    (log_and_close (unpipe s c) "remoteConnection readable stream is close").

(** The sink's [abort(reason)], then the rejection of [pipeTo]. *)
Definition remote_abort (s : session) (c : conn) : result :=
  let '(s1, acts) :=
    log_and_close (unpipe s c) "remoteConnection readable stream is abort" in
  let '(s2, acts') := pipe_catch s1 in
  (s2, acts ++ acts', Returned).

(** One event.  An event the platform cannot deliver in the state at hand
    (a completion nobody awaits, a chunk of a connection that is not piped)
    changes nothing. *)
Definition step (s : session) (e : event) : result :=
  match e with
  | Message data wr => onmessage s data wr
  | Connected k c wr =>
      match suspended s k with
      | Some (data, h) => onmessage_connected s k data h c wr
      | None => (s, [], Returned)
      end
  | ConnectFailed k =>
      match suspended s k with
      | Some _ => onmessage_connect_failed s k
      | None => (s, [], Returned)
      end
  | WsError => onerror s
  | WsClosed => onclose s
  | RemoteChunk c chunk =>
      if is_piped s c then remote_write s c chunk else (s, [], Returned)
  | RemoteClose c =>
      if is_piped s c then remote_close s c else (s, [], Returned)
  | RemoteAbort c =>
      if is_piped s c then remote_abort s c else (s, [], Returned)
  end.

(** The events of a session from a state on: the final state and every
    effect, in order. *)
Fixpoint run (s : session) (es : list event) : session * list action :=
  match es with
  | [] => (s, [])
  | e :: es' =>
      let '(s1, acts, _) := step s e in
      let '(s2, acts') := run s1 es' in
      (s2, acts ++ acts')
  end.

(** The body of [processWebSocket]: the callbacks are assigned, then the
    early-data header is decoded, all inside the [try].  [open] is the
    socket's state at the call and [wr] tells whether the write of the early
    data, if the body performs it, resolves. *)
Definition processWebSocket (uid : string) (open : bool)
  (earlyDataHeader : string) (wr : bool) : result :=
  let s := init uid open in
  let r := base64ToArrayBuffer earlyDataHeader in
  match error r with
  | Some _ =>
      returned (log_and_close s "earlyDataHeader has invaild base64")
  | None =>
      match earlyData r with
      | Some d =>
          match remoteConnection s with
          | Some c =>
              if wr then (s, [TcpWrite c d], Returned)
              else
                let '(s1, acts) := top_level_catch s in
                (s1, TcpWrite c d :: acts, Returned)
          | None => (s, [], Returned)   (* the branch is empty *)
          end
      | None => (s, [], Returned)
      end
  end.

(** A whole session: the body, then the events that follow. *)
Definition session_run (uid : string) (open : bool) (earlyDataHeader : string)
  (es : list event) : session * list action :=
  let '(s, acts, _) := processWebSocket uid open earlyDataHeader true in
  let '(s', acts') := run s es in
  (s', acts ++ acts').

(** The platform fires [message] events only while the socket's
    [readyState] is [OPEN]: the events of a list can be delivered one after
    the other from [s] on when every [Message] among them finds the socket
    open. *)
Fixpoint deliverable (s : session) (es : list event) : bool :=
  match es with
  | [] => true
  | e :: es' =>
      match e with Message _ _ => wsOpen s | _ => true end
      && deliverable (fst (fst (step s e))) es'
  end.

End Callbacks.

(** Events among which no awaited [Deno.connect] completes. *)
Definition no_completion (es : list event) : bool :=
  forallb
    (fun e => match e with Connected _ _ _ | ConnectFailed _ => false
                         | _ => true end) es.

(** Events that are inbound frames or the close of the socket. *)
Definition frames_and_close (es : list event) : bool :=
  forallb
    (fun e => match e with Message _ _ | WsClosed => true | _ => false end)
    es.

End MainTs.

(** ** The identifier of a request, in the words of the specification *)

(** "The first UUID-shaped substring, or a hardcoded default when none is
    present", written without the pattern matcher of [MainTs]: a UUID-shaped
    text is five groups of 8, 4, 4, 4 and 12 hexadecimal digits of either
    case, joined by dashes; the first one in a URL is the one that occurs at
    the least offset. *)
Module UrlSpec.
Local Open Scope string_scope.

(** The digits a group is made of. *)
Definition hex_digits : list ascii :=
  list_ascii_of_string "0123456789abcdefABCDEF".

Definition hex_digit (c : ascii) : bool := existsb (Ascii.eqb c) hex_digits.

Fixpoint hex_string (s : string) : bool :=
  match s with
  | EmptyString => true
  | String c s' => hex_digit c && hex_string s'
  end.

Definition hex_group (k : nat) (s : string) : bool :=
  Nat.eqb (String.length s) k && hex_string s.

(** The text of five groups, and the test that they have the lengths 8, 4, 4,
    4 and 12. *)
Definition uuid_text (a b c d e : string) : string :=
  a ++ "-" ++ b ++ "-" ++ c ++ "-" ++ d ++ "-" ++ e.

Definition hex_groups (a b c d e : string) : bool :=
  hex_group 8 a && hex_group 4 b && hex_group 4 c && hex_group 4 d
  && hex_group 12 e.

(** The UUID-shaped strings; an occurrence of a string at an offset of a
    URL; the UUID-shaped substring of a URL that occurs leftmost; a URL
    without any. *)
Definition UuidShaped (u : string) : Prop :=
  exists a b c d e, hex_groups a b c d e = true /\ u = uuid_text a b c d e.

Definition occurs_at (n : nat) (u url : string) : Prop :=
  exists pre post, url = pre ++ u ++ post /\ String.length pre = n.

Definition FirstUuidShaped (url u : string) : Prop :=
  UuidShaped u
  /\ exists n,
       occurs_at n u url
       /\ forall n' u',
            UuidShaped u' -> occurs_at n' u' url -> (n <= n')%nat.

Definition NoUuidShaped (url : string) : Prop :=
  forall n u, UuidShaped u -> ~ occurs_at n u url.

(** The identifier that the specification gives the session of a request
    for [url]. *)
Definition identifier (url id : string) : Prop :=
  FirstUuidShaped url id
  \/ (NoUuidShaped url /\ id = MainTs.default_uuid).

End UrlSpec.

(** ** A library instance and frames to run the sessions on *)

Module Sample.

Definition starts_with (p buf : bytes) : bool :=
  forallb (fun x => x) (map (fun '(a, b) => Byte.eqb a b) (combine p buf))
  && Nat.leb (List.length p) (List.length buf).

(** The 16 bytes of [MainTs.default_uuid]. *)
Definition uuid_bytes : bytes :=
  [x6c; x13; x14; x38; xda; x48; x45; x9f;
   xa2; x36; x9a; x45; x37; x4e; x9a; x45].

(** Version 0, the identifier, no options, a command, port 80, a domain
    name of 11 bytes: 34 bytes in all. *)
Definition header_bytes (command : byte) : bytes :=
  [x00] ++ uuid_bytes ++ [x00; command; x00; x50; x02; x0b]
  ++ list_byte_of_string "example.com".

Definition payload : bytes :=
  list_byte_of_string "GET / HTTP/1.0" ++ [x0d; x0a; x0d; x0a].

(** A first frame that asks for TCP to example.com:80, with a payload; one
    without payload; one that asks for UDP; one of another user. *)
Definition tcp_frame : bytes := header_bytes x01 ++ payload.
Definition bare_tcp_frame : bytes := header_bytes x01.
Definition udp_frame : bytes := header_bytes x02 ++ payload.
Definition foreign_frame : bytes := [x00] ++ repeat xff 16 ++ [x00; x01].

Definition decoded (udp : bool) : vless_header :=
  {| hasError := false; message := None; portRemote := Some 80;
     addressRemote := Some "example.com"%string; rawDataIndex := Some 34;
     vlessVersion := Some [x00]; isUDP := udp |}.

Definition failed (why : string) : vless_header :=
  {| hasError := true; message := Some why; portRemote := None;
     addressRemote := None; rawDataIndex := None; vlessVersion := None;
     isUDP := false |}.

(** A decoder that knows the frames above when the session authenticates
    against [MainTs.default_uuid], and reports an error otherwise. *)
Definition decode (buf : bytes) (uid : string) : vless_header :=
  if negb (String.eqb uid MainTs.default_uuid) then failed "invalid user"
  else if starts_with (header_bytes x01) buf then decoded false
  else if starts_with (header_bytes x02) buf then decoded true
  else failed "invalid user".

(** A decoder of the early-data header that knows three strings. *)
Definition decode_early (s : string) : early_data :=
  if String.eqb s EmptyString then {| earlyData := None; error := None |}
  else if String.eqb s "aGVsbG8"
  then {| earlyData := Some (list_byte_of_string "hello"); error := None |}
  else {| earlyData := None; error := Some "invalid base64"%string |}.

Definition library : VlessJs :=
  {| processVlessHeader := decode; base64ToArrayBuffer := decode_early |}.

(** A session in which the first frame is accepted, the dial succeeds, and
    the socket then reports an error. *)
Definition error_events_main : list MainTs.event :=
  [MainTs.Message tcp_frame true; MainTs.Connected 0 7%nat true;
   MainTs.WsError].

(** What the remote side answers, and the connection the dial yields. *)
Definition reply : bytes := list_byte_of_string "HTTP/1.0 200 OK".
Definition remote : conn := 7%nat.

(** A session in which the first frame is accepted, the dial succeeds and
    the remote side answers with one chunk: as events of each version. *)
Definition relay_events_part000 : list Part000.event :=
  [Part000.Frame tcp_frame true; Part000.Connected remote true;
   Part000.RemoteChunk reply].

Definition relay_events_main : list MainTs.event :=
  [MainTs.Message tcp_frame true; MainTs.Connected 0 remote true;
   MainTs.RemoteChunk remote reply].

End Sample.

(** ** Measures on effects and events *)

(** The delay that the throttle of the stream-pipe version has imposed in
    all once the counter has reached [n]: nothing for the first 19 chunks,
    10 ms for each of the next 100, 20 ms for each of the next 380, 50 ms
    for every chunk from the 500th on. *)
Definition cumulative_delay (n : N) : N :=
  if n <? 20 then 0
  else if n <? 120 then 10 * (n - 19)
  else if n <? 500 then 1000 + 20 * (n - 119)
  else 8600 + 50 * (n - 499).

(** The targets of the dials among some effects, in order. *)
Fixpoint dials (l : list action) : list (string * N) :=
  match l with
  | [] => []
  | Connect host port :: t => (host, port) :: dials t
  | _ :: t => dials t
  end.

(** The connections that some effects write to or close. *)
Fixpoint tcp_conns (l : list action) : list conn :=
  match l with
  | [] => []
  | TcpWrite c _ :: t => c :: tcp_conns t
  | TcpClose c :: t => c :: tcp_conns t
  | _ :: t => tcp_conns t
  end.

(** The connections that the platform hands to a session of either version:
    those of the completions of [Deno.connect] among its events. *)
Fixpoint Part000_dialled (es : list Part000.event) : list conn :=
  match es with
  | [] => []
  | Part000.Connected c _ :: t => c :: Part000_dialled t
  | _ :: t => Part000_dialled t
  end.

Fixpoint MainTs_dialled (es : list MainTs.event) : list conn :=
  match es with
  | [] => []
  | MainTs.Connected _ c _ :: t => c :: MainTs_dialled t
  | _ :: t => MainTs_dialled t
  end.

(** * Properties *)

(** ** The throttle *)

Section Throttle.
Import Part000.

Lemma send_throttled_delay (n : N) (chunk : bytes) :
  total_delay (send_throttled n chunk)
  = if n <? 20 then 0 else if n <? 120 then 10
    else if n <? 500 then 20 else 50.
Proof.
  unfold send_throttled.
  destruct (n <? 20); [reflexivity|].
  destruct (n <? 120); [reflexivity|].
  destruct (n <? 500); reflexivity.
Qed.

Lemma send_throttled_shape (n : N) (chunk : bytes) :
  send_throttled n chunk
  = (if total_delay (send_throttled n chunk) =? 0 then []
     else [Delay (total_delay (send_throttled n chunk))]) ++ [WsSend chunk].
Proof.
  unfold send_throttled.
  destruct (n <? 20); [reflexivity|].
  destruct (n <? 120); [reflexivity|].
  destruct (n <? 500); reflexivity.
Qed.

Lemma send_throttled_monotone (m n : N) (c1 c2 : bytes) :
  m <= n ->
  total_delay (send_throttled m c1) <= total_delay (send_throttled n c2).
Proof.
  intros Hmn. rewrite !send_throttled_delay.
  destruct (N.ltb_spec m 20), (N.ltb_spec n 20),
    (N.ltb_spec m 120), (N.ltb_spec n 120),
    (N.ltb_spec m 500), (N.ltb_spec n 500); lia.
Qed.

Lemma remote_write_open (s : session) (chunk : bytes) :
  wsOpen s = true ->
  remote_write s chunk
  = (set_count s (remoteChunkCount s + 1),
     send_throttled (remoteChunkCount s + 1) chunk).
Proof. intros Hopen. unfold remote_write. rewrite Hopen. reflexivity. Qed.

(** Chunks that the remote side delivers one after the other while the
    socket stays open. *)
Lemma count_after_chunks {lib : VlessJs} (chunks : list bytes) :
  forall s : session,
    wsOpen s = true -> pipe2 s = Running ->
    remoteChunkCount (fst (run s (map RemoteChunk chunks)))
    = remoteChunkCount s + N.of_nat (List.length chunks).
Proof.
  induction chunks as [|chunk chunks IH]; intros s Hopen Hrun.
  - simpl. lia.
  - cbn [map run step]. rewrite Hrun, (remote_write_open _ _ Hopen).
    specialize (IH (set_count s (remoteChunkCount s + 1)) Hopen Hrun).
    destruct (run _ (map RemoteChunk chunks)) as [s2 acts'].
    cbn [fst] in *. rewrite IH. cbn [remoteChunkCount set_count List.length].
    lia.
Qed.

End Throttle.

(** C1.  In the stream-pipe version the sink that forwards TCP chunks to the
    WebSocket increments the session's counter once for a chunk it accepts
    (the socket being open) and only then decides the delay: nothing for a
    count below 20, then 10 ms up to 119, 20 ms up to 499 and 50 ms from 500
    on.  The delay depends on the count alone, never decreases when the
    count grows, precedes the send, and takes the stated values at the six
    boundaries.  Chunks delivered in a row are counted one by one. *)
Theorem throttle_is_monotone_step_function {lib : VlessJs}
  (s : Part000.session) (chunk other : bytes) (chunks : list bytes)
  (m n : N) :
  Part000.wsOpen s = true ->
  Part000.pipe2 s = Part000.Running ->
  m <= n ->
  let d k := total_delay (Part000.send_throttled k chunk) in
  let '(s', acts) := Part000.step s (Part000.RemoteChunk chunk) in
  Part000.remoteChunkCount s' = Part000.remoteChunkCount s + 1
  /\ acts = (if d (Part000.remoteChunkCount s') =? 0 then []
             else [Delay (d (Part000.remoteChunkCount s'))])
            ++ [WsSend chunk]
  /\ Part000.remoteChunkCount
       (fst (Part000.run s (map Part000.RemoteChunk chunks)))
     = Part000.remoteChunkCount s + N.of_nat (List.length chunks)
  /\ d n = total_delay (Part000.send_throttled n other)
  /\ d m <= d n
  /\ (n < 20 -> d n = 0)
  /\ (20 <= n <= 119 -> d n = 10)
  /\ (120 <= n <= 499 -> d n = 20)
  /\ (500 <= n -> d n = 50)
  /\ d 19 = 0 /\ d 20 = 10 /\ d 119 = 10
  /\ d 120 = 20 /\ d 499 = 20 /\ d 500 = 50.
Proof.
  intros Hopen Hrun Hmn d.
  cbn [Part000.step]. rewrite Hrun, (remote_write_open _ _ Hopen).
  cbn [Part000.remoteChunkCount Part000.set_count].
  split; [reflexivity|].
  split; [apply send_throttled_shape|].
  split; [apply count_after_chunks; assumption|].
  split; [unfold d; now rewrite !send_throttled_delay|].
  split; [apply send_throttled_monotone; assumption|].
  unfold d. rewrite send_throttled_delay.
  repeat split; try reflexivity; intros H;
    destruct (N.ltb_spec n 20), (N.ltb_spec n 120), (N.ltb_spec n 500); lia.
Qed.

(** ** Closing the socket *)

Lemma closeWebSocket_spec (open : bool) :
  closeWebSocket open = (false, if open then [WsClose] else []).
Proof. destruct open; reflexivity. Qed.

Lemma Part000_log_and_close (s : Part000.session) (info : string) :
  Part000.log_and_close s info
  = (Part000.set_ws s false,
     Part000.log s info :: if Part000.wsOpen s then [WsClose] else []).
Proof.
  unfold Part000.log_and_close. rewrite closeWebSocket_spec. reflexivity.
Qed.

Lemma MainTs_log_and_close (s : MainTs.session) (info : string) :
  MainTs.log_and_close s info
  = (MainTs.set_ws s false,
     MainTs.log s info :: if MainTs.wsOpen s then [WsClose] else []).
Proof.
  unfold MainTs.log_and_close. rewrite closeWebSocket_spec. reflexivity.
Qed.

(** The callback version has no throttle: none of its events waits. *)
Lemma MainTs_never_delays {lib : VlessJs} (s : MainTs.session)
  (e : MainTs.event) :
  total_delay (snd (fst (MainTs.step s e))) = 0.
Proof.
  destruct e; cbn [MainTs.step].
  - unfold MainTs.onmessage, MainTs.returned.
    rewrite !MainTs_log_and_close.
    destruct (MainTs.readableStreamCancel s); [reflexivity|].
    destruct (MainTs.remoteConnection s); [reflexivity|].
    destruct (header_rejected _); [|destruct (isUDP _)]; cbn;
      now destruct (MainTs.wsOpen s).
  - destruct (MainTs.suspended s k) as [[data h]|]; [|reflexivity].
    unfold MainTs.onmessage_connected. rewrite MainTs_log_and_close.
    destruct (slice_from data (rawDataIndex h)); [|destruct wr]; cbn;
      now destruct (MainTs.wsOpen s).
  - destruct (MainTs.suspended s k); [|reflexivity].
    unfold MainTs.onmessage_connect_failed, MainTs.returned.
    rewrite MainTs_log_and_close. cbn. now destruct (MainTs.wsOpen s).
  - unfold MainTs.onerror, MainTs.close_remote. cbn.
    now destruct (MainTs.remoteConnection s).
  - unfold MainTs.onclose, MainTs.close_remote. cbn.
    now destruct (MainTs.readableStreamCancel s),
      (MainTs.remoteConnection s).
  - destruct (MainTs.is_piped s c); [|reflexivity].
    unfold MainTs.remote_write, MainTs.pipe_catch, MainTs.close_remote.
    rewrite MainTs_log_and_close. cbn.
    now destruct (MainTs.wsOpen s), (MainTs.remoteConnection s).
  - destruct (MainTs.is_piped s c); [|reflexivity].
    unfold MainTs.remote_close, MainTs.returned.
    rewrite MainTs_log_and_close. cbn. now destruct (MainTs.wsOpen s).
  - destruct (MainTs.is_piped s c); [|reflexivity].
    unfold MainTs.remote_abort, MainTs.pipe_catch.
    rewrite !MainTs_log_and_close. cbn. now destruct (MainTs.wsOpen s).
Qed.

(** Every way in which the test of the decoded header fails. *)
Lemma header_rejected_cases (h : vless_header) :
  hasError h = true \/ portRemote h = None \/ portRemote h = Some 0
  \/ addressRemote h = None \/ addressRemote h = Some EmptyString
  \/ rawDataIndex h = None \/ rawDataIndex h = Some 0
  \/ vlessVersion h = None ->
  header_rejected h = true.
Proof.
  unfold header_rejected.
  intros [H | [H | [H | [H | [H | [H | [H | H]]]]]]]; rewrite H; cbn;
    rewrite ?orb_true_r; reflexivity.
Qed.

(** ** Who dials *)

Lemma existsb_is_connect_app (l1 l2 : list action) :
  existsb is_connect (l1 ++ l2)
  = existsb is_connect l1 || existsb is_connect l2.
Proof. apply existsb_app. Qed.

Lemma Part000_close_remote_no_connect (s : Part000.session) :
  existsb is_connect (Part000.close_remote s) = false.
Proof.
  unfold Part000.close_remote. now destruct (Part000.remoteConnection s).
Qed.

Lemma Part000_step_quiet {lib : VlessJs} (s : Part000.session)
  (e : Part000.event) :
  Part000.quiet [e] = true ->
  existsb is_connect (snd (Part000.step s e)) = false.
Proof.
  destruct e; cbn [Part000.quiet forallb]; try discriminate; intros _;
    cbn [Part000.step].
  - destruct (Part000.dialing s) as [[chunk h]|]; [|reflexivity].
    unfold Part000.sink_write_connected, Part000.start_relay.
    cbn [Part000.remoteConnection Part000.set_dialing Part000.set_remote].
    rewrite !Part000_log_and_close.
    destruct (slice_from chunk (rawDataIndex h)); [|destruct wr];
      cbn; now destruct (Part000.wsOpen s).
  - destruct (Part000.dialing s); [|reflexivity].
    rewrite Part000_log_and_close. cbn. now destruct (Part000.wsOpen s).
  - destruct (Part000.pipe1 s), (Part000.dialing s); try reflexivity.
    cbn. apply Part000_close_remote_no_connect.
  - destruct (Part000.pipe1 s), (Part000.dialing s); try reflexivity.
    unfold Part000.pipe1_catch. rewrite Part000_log_and_close.
    unfold Part000.close_remote. cbn.
    destruct (Part000.remoteConnection s), (Part000.wsOpen s); reflexivity.
  - destruct (Part000.pipe2 s); try reflexivity.
    unfold Part000.remote_write, Part000.top_level_catch,
      Part000.send_throttled, Part000.close_remote.
    rewrite closeWebSocket_spec. cbn.
    destruct (Part000.wsOpen s); cbn.
    + destruct (_ <? 20); [reflexivity|].
      destruct (_ <? 120); [reflexivity|].
      destruct (_ <? 500); reflexivity.
    + destruct (Part000.remoteConnection s); reflexivity.
  - destruct (Part000.pipe2 s); try reflexivity.
    rewrite Part000_log_and_close. cbn. now destruct (Part000.wsOpen s).
  - destruct (Part000.pipe2 s); try reflexivity.
    rewrite Part000_log_and_close. unfold Part000.top_level_catch.
    rewrite closeWebSocket_spec. unfold Part000.close_remote. cbn.
    destruct (Part000.remoteConnection s), (Part000.wsOpen s); reflexivity.
  - reflexivity.
Qed.

Lemma Part000_run_quiet {lib : VlessJs} (es : list Part000.event) :
  forall s : Part000.session,
    Part000.quiet es = true ->
    existsb is_connect (snd (Part000.run s es)) = false.
Proof.
  induction es as [|e es IH]; intros s Hq; [reflexivity|].
  cbn [Part000.quiet forallb] in Hq. apply andb_true_iff in Hq as [He Hes].
  pose proof (Part000_step_quiet s e) as Hstep.
  cbn [Part000.quiet forallb] in Hstep. rewrite He in Hstep.
  specialize (Hstep eq_refl).
  cbn [Part000.run]. destruct (Part000.step s e) as [s1 acts].
  specialize (IH s1 Hes). destruct (Part000.run s1 es) as [s2 acts'].
  cbn [snd] in *. now rewrite existsb_is_connect_app, Hstep, IH.
Qed.

Lemma MainTs_close_remote_no_connect (s : MainTs.session) :
  existsb is_connect (MainTs.close_remote s) = false.
Proof.
  unfold MainTs.close_remote. now destruct (MainTs.remoteConnection s).
Qed.

(** In the callback version an event other than an inbound frame does not
    dial, and it does not reopen the socket. *)
Lemma MainTs_step_other {lib : VlessJs} (s : MainTs.session)
  (e : MainTs.event) :
  match e with MainTs.Message _ _ => False | _ => True end ->
  existsb is_connect (snd (fst (MainTs.step s e))) = false
  /\ (MainTs.wsOpen s = false ->
      MainTs.wsOpen (fst (fst (MainTs.step s e))) = false).
Proof.
  destruct e; intros He; try contradiction; clear He; cbn [MainTs.step].
  - destruct (MainTs.suspended s k) as [[data h]|]; [|now split].
    unfold MainTs.onmessage_connected. rewrite MainTs_log_and_close.
    destruct (slice_from data (rawDataIndex h)); [|destruct wr]; cbn;
      destruct (MainTs.wsOpen s); now split.
  - destruct (MainTs.suspended s k); [|now split].
    unfold MainTs.onmessage_connect_failed, MainTs.returned.
    rewrite MainTs_log_and_close. cbn. destruct (MainTs.wsOpen s); now split.
  - unfold MainTs.onerror, MainTs.close_remote. cbn.
    destruct (MainTs.remoteConnection s); now split.
  - unfold MainTs.onclose, MainTs.close_remote. cbn.
    destruct (MainTs.readableStreamCancel s), (MainTs.remoteConnection s);
      now split.
  - destruct (MainTs.is_piped s c); [|now split].
    unfold MainTs.remote_write, MainTs.pipe_catch, MainTs.close_remote.
    rewrite MainTs_log_and_close. cbn.
    destruct (MainTs.wsOpen s), (MainTs.remoteConnection s); now split.
  - destruct (MainTs.is_piped s c); [|now split].
    unfold MainTs.remote_close, MainTs.returned.
    rewrite MainTs_log_and_close. cbn. destruct (MainTs.wsOpen s); now split.
  - destruct (MainTs.is_piped s c); [|now split].
    unfold MainTs.remote_abort, MainTs.pipe_catch.
    rewrite !MainTs_log_and_close. cbn.
    destruct (MainTs.wsOpen s); now split.
Qed.

(** Once the socket is closed, no event that the platform can still deliver
    makes the session dial. *)
Lemma MainTs_closed_never_dials {lib : VlessJs} (es : list MainTs.event) :
  forall s : MainTs.session,
    MainTs.wsOpen s = false ->
    MainTs.deliverable s es = true ->
    existsb is_connect (snd (MainTs.run s es)) = false.
Proof.
  induction es as [|e es IH]; intros s Hclosed Hd; [reflexivity|].
  cbn [MainTs.deliverable] in Hd. apply andb_true_iff in Hd as [He Hes].
  assert (Hother : match e with MainTs.Message _ _ => False | _ => True end).
  { destruct e; auto. rewrite Hclosed in He. discriminate. }
  destruct (MainTs_step_other s e Hother) as [Hno Hws].
  specialize (Hws Hclosed).
  cbn [MainTs.run]. destruct (MainTs.step s e) as [[s1 acts] out].
  cbn [fst snd] in *. specialize (IH s1 Hws Hes).
  destruct (MainTs.run s1 es) as [s2 acts']. cbn [snd] in *.
  now rewrite existsb_is_connect_app, Hno, IH.
Qed.

(** ** A first frame that is turned down *)

(** The state in which [processWebSocket] of the callback version leaves
    the session: no connection, nothing suspended, nothing cancelled. *)
Lemma MainTs_processWebSocket_state {lib : VlessJs} (uid : string)
  (open : bool) (earlyDataHeader : string) (wr : bool) :
  let s := fst (fst (MainTs.processWebSocket uid open earlyDataHeader wr)) in
  MainTs.userID s = uid
  /\ MainTs.remoteConnection s = None
  /\ MainTs.readableStreamCancel s = false
  /\ MainTs.pending s = []
  /\ MainTs.pipes s = [].
Proof.
  unfold MainTs.processWebSocket, MainTs.returned.
  rewrite MainTs_log_and_close.
  destruct (error (base64ToArrayBuffer earlyDataHeader));
    [cbn; now repeat split|].
  destruct (earlyData (base64ToArrayBuffer earlyDataHeader));
    cbn; now repeat split.
Qed.

(** What both versions do with a frame that arrives before any connection
    exists and whose header fails the test, or asks for UDP: one log line,
    [closeWebSocket], return. *)
Lemma Part000_turned_down {lib : VlessJs} (s : Part000.session)
  (frame : bytes) (wr : bool) :
  Part000.remoteConnection s = None ->
  Part000.pipe1 s = true ->
  Part000.dialing s = None ->
  let h := processVlessHeader frame (Part000.userID s) in
  header_rejected h = true \/ isUDP h = true ->
  let '(s', acts) := Part000.step s (Part000.Frame frame wr) in
  effects acts = (if Part000.wsOpen s then [WsClose] else [])
  /\ existsb is_connect acts = false
  /\ existsb is_tcp_write acts = false
  /\ Part000.wsOpen s' = false
  /\ Part000.remoteConnection s' = None
  /\ Part000.dialing s' = None
  /\ Part000.pipe2 s' = Part000.pipe2 s.
Proof.
  intros Hnone Hpipe Hdial h Hh. cbn [Part000.step].
  rewrite Hpipe, Hdial. unfold Part000.sink_write. rewrite Hnone.
  fold h. rewrite !Part000_log_and_close.
  destruct (header_rejected h) eqn:Hrej.
  - cbn. rewrite Hnone, Hdial. destruct (Part000.wsOpen s); now repeat split.
  - destruct Hh as [Hh | Hh]; [discriminate|]. rewrite Hh.
    cbn. rewrite Hnone, Hdial. destruct (Part000.wsOpen s); now repeat split.
Qed.

Lemma MainTs_turned_down {lib : VlessJs} (s : MainTs.session)
  (frame : bytes) (wr : bool) :
  MainTs.remoteConnection s = None ->
  MainTs.readableStreamCancel s = false ->
  let h := processVlessHeader frame (MainTs.userID s) in
  header_rejected h = true \/ isUDP h = true ->
  let '(s', acts, out) := MainTs.step s (MainTs.Message frame wr) in
  effects acts = (if MainTs.wsOpen s then [WsClose] else [])
  /\ existsb is_connect acts = false
  /\ existsb is_tcp_write acts = false
  /\ out = Returned
  /\ MainTs.wsOpen s' = false
  /\ MainTs.remoteConnection s' = None
  /\ MainTs.pending s' = MainTs.pending s
  /\ MainTs.pipes s' = MainTs.pipes s.
Proof.
  intros Hnone Hcancel h Hh. cbn [MainTs.step]. unfold MainTs.onmessage.
  rewrite Hcancel, Hnone. fold h. unfold MainTs.returned.
  rewrite !MainTs_log_and_close.
  destruct (header_rejected h) eqn:Hrej.
  - cbn. rewrite Hnone. destruct (MainTs.wsOpen s); now repeat split.
  - destruct Hh as [Hh | Hh]; [discriminate|]. rewrite Hh.
    cbn. rewrite Hnone. destruct (MainTs.wsOpen s); now repeat split.
Qed.




(** C6.  When the first inbound frame decodes to a header that passes the
    test and asks for UDP, the session of either version logs that UDP is
    not supported, closes the WebSocket (if it is still open) and returns
    normally: besides the log line the close is its only effect, no
    exception leaves the callback, the socket is closed afterwards, no
    connection exists, no dial is attempted or left suspended, and none is
    attempted later (as for a frame that is turned down for an error). *)
Theorem udp_first_frame_closes_without_dial {lib : VlessJs}
  (uid : string) (open : bool) (earlyDataHeader : string) (frame : bytes)
  (wr wr' : bool) (es1 : list Part000.event) (es2 : list MainTs.event) :
  header_rejected (processVlessHeader frame uid) = false ->
  isUDP (processVlessHeader frame uid) = true ->
  let '(p1, pacts) :=
    Part000.step (Part000.init uid open) (Part000.Frame frame wr) in
  let '(m0, _, _) := MainTs.processWebSocket uid open earlyDataHeader wr' in
  let '(m1, macts, out) := MainTs.step m0 (MainTs.Message frame wr) in
  (effects pacts = if open then [WsClose] else [])
  /\ existsb is_connect pacts = false
  /\ Part000.wsOpen p1 = false
  /\ Part000.remoteConnection p1 = None
  /\ Part000.dialing p1 = None
  /\ Part000.pipe2 p1 = Part000.NotStarted
  /\ (Part000.quiet es1 = true ->
      existsb is_connect (snd (Part000.run p1 es1)) = false)
  /\ (effects macts = if MainTs.wsOpen m0 then [WsClose] else [])
  /\ existsb is_connect macts = false
  /\ out = Returned
  /\ MainTs.wsOpen m1 = false
  /\ MainTs.remoteConnection m1 = None
  /\ MainTs.pending m1 = []
  /\ MainTs.pipes m1 = []
  /\ (MainTs.deliverable m1 es2 = true ->
      existsb is_connect (snd (MainTs.run m1 es2)) = false).
Proof.
  intros _ Hudp.
  pose proof (Part000_turned_down (Part000.init uid open) frame wr
                eq_refl eq_refl eq_refl (or_intror Hudp)) as HP.
  destruct (Part000.step _ _) as [p1 pacts].
  destruct HP as (HP1 & HP2 & HP3 & HP4 & HP5 & HP6 & HP7).
  pose proof (MainTs_processWebSocket_state uid open earlyDataHeader wr')
    as (Hu & Hn & Hc & Hp & Hq).
  destruct (MainTs.processWebSocket _ _ _ _) as [[m0 acts0] out0].
  cbn [fst] in Hu, Hn, Hc, Hp, Hq.
  pose proof (MainTs_turned_down m0 frame wr Hn Hc) as HM.
  cbv zeta in HM. rewrite Hu in HM. specialize (HM (or_intror Hudp)).
  destruct (MainTs.step _ _) as [[m1 macts] out].
  destruct HM as (HM1 & HM2 & HM3 & HM4 & HM5 & HM6 & HM7 & HM8).
  repeat split; try assumption; try congruence.
  - intros Hquiet. now apply Part000_run_quiet.
  - intros Hd. now apply MainTs_closed_never_dials.
Qed.

Lemma udp_first_frame_witness :
  header_rejected
    (@processVlessHeader Sample.library Sample.udp_frame MainTs.default_uuid)
  = false
  /\ isUDP
       (@processVlessHeader Sample.library Sample.udp_frame
          MainTs.default_uuid) = true
  /\ effects
       (snd (@Part000.step Sample.library
               (Part000.init MainTs.default_uuid true)
               (Part000.Frame Sample.udp_frame true))) = [WsClose]
  /\ effects
       (snd (fst (@MainTs.step Sample.library
                    (MainTs.init MainTs.default_uuid true)
                    (MainTs.Message Sample.udp_frame true)))) = [WsClose].
Proof.
  assert (Hok : header_rejected
            (@processVlessHeader Sample.library Sample.udp_frame
               MainTs.default_uuid) = false) by reflexivity.
  assert (Hudp : isUDP
            (@processVlessHeader Sample.library Sample.udp_frame
               MainTs.default_uuid) = true) by reflexivity.
  split; [exact Hok|]. split; [exact Hudp|].
  pose proof (@udp_first_frame_closes_without_dial Sample.library
                MainTs.default_uuid true EmptyString Sample.udp_frame true true
                [Part000.StreamClose] [MainTs.WsClosed] Hok Hudp) as H.
  vm_compute in H.
  destruct H as (H1 & _ & _ & _ & _ & _ & _ & H8 & _).
  split; [exact H1 | exact H8].
Defined.

(** ** Runs compose *)

Lemma Part000_run_app {lib : VlessJs} (es1 es2 : list Part000.event) :
  forall s : Part000.session,
    Part000.run s (es1 ++ es2)
    = (fst (Part000.run (fst (Part000.run s es1)) es2),
       snd (Part000.run s es1)
       ++ snd (Part000.run (fst (Part000.run s es1)) es2)).
Proof.
  induction es1 as [|e es1 IH]; intros s.
  - cbn. now destruct (Part000.run s es2).
  - cbn [app Part000.run]. destruct (Part000.step s e) as [s1 acts].
    rewrite IH. destruct (Part000.run s1 es1) as [s2 acts2]. cbn [fst snd].
    destruct (Part000.run s2 es2) as [s3 acts3]. cbn [fst snd].
    now rewrite app_assoc.
Qed.

Lemma MainTs_run_app {lib : VlessJs} (es1 es2 : list MainTs.event) :
  forall s : MainTs.session,
    MainTs.run s (es1 ++ es2)
    = (fst (MainTs.run (fst (MainTs.run s es1)) es2),
       snd (MainTs.run s es1)
       ++ snd (MainTs.run (fst (MainTs.run s es1)) es2)).
Proof.
  induction es1 as [|e es1 IH]; intros s.
  - cbn. now destruct (MainTs.run s es2).
  - cbn [app MainTs.run]. destruct (MainTs.step s e) as [[s1 acts] out].
    rewrite IH. destruct (MainTs.run s1 es1) as [s2 acts2]. cbn [fst snd].
    destruct (MainTs.run s2 es2) as [s3 acts3]. cbn [fst snd].
    now rewrite app_assoc.
Qed.

(** ** Before a connection exists *)

Lemma tcp_writes_app (l1 l2 : list action) :
  tcp_writes (l1 ++ l2) = tcp_writes l1 ++ tcp_writes l2.
Proof. apply filter_app. Qed.

(** While the session has no connection and no dial completes, nothing is
    written to TCP, and a suspended dial stays suspended. *)
Lemma Part000_step_unconnected {lib : VlessJs} (s : Part000.session)
  (e : Part000.event) :
  Part000.remoteConnection s = None ->
  Part000.no_completion [e] = true ->
  tcp_writes (snd (Part000.step s e)) = []
  /\ Part000.remoteConnection (fst (Part000.step s e)) = None
  /\ (Part000.dialing s <> None ->
      Part000.dialing (fst (Part000.step s e)) = Part000.dialing s).
Proof.
  intros Hnone. destruct e; cbn [Part000.no_completion forallb];
    try discriminate; intros _; cbn [Part000.step].
  - destruct (Part000.pipe1 s), (Part000.dialing s) eqn:Hd;
      try (cbn; now repeat split).
    unfold Part000.sink_write. rewrite Hnone, !Part000_log_and_close.
    destruct (header_rejected _); [|destruct (isUDP _)]; cbn;
      rewrite ?Hnone, ?Hd; destruct (Part000.wsOpen s);
      repeat split; congruence.
  - destruct (Part000.pipe1 s), (Part000.dialing s) eqn:Hd;
      try (cbn; now repeat split).
    unfold Part000.close_remote. rewrite Hnone. cbn. now repeat split.
  - destruct (Part000.pipe1 s), (Part000.dialing s) eqn:Hd;
      try (cbn; now repeat split).
    unfold Part000.pipe1_catch. rewrite Part000_log_and_close.
    unfold Part000.close_remote. cbn. rewrite Hnone. cbn.
    destruct (Part000.wsOpen s); now repeat split.
  - destruct (Part000.pipe2 s); try (cbn; now repeat split).
    unfold Part000.remote_write, Part000.top_level_catch,
      Part000.send_throttled, Part000.close_remote.
    rewrite closeWebSocket_spec. cbn. rewrite Hnone.
    destruct (Part000.wsOpen s); cbn; [|now repeat split].
    destruct (_ <? 20); [now repeat split|].
    destruct (_ <? 120); [now repeat split|].
    destruct (_ <? 500); now repeat split.
  - destruct (Part000.pipe2 s); try (cbn; now repeat split).
    rewrite Part000_log_and_close. cbn.
    destruct (Part000.wsOpen s); now repeat split.
  - destruct (Part000.pipe2 s); try (cbn; now repeat split).
    rewrite Part000_log_and_close. unfold Part000.top_level_catch.
    rewrite closeWebSocket_spec. unfold Part000.close_remote. cbn.
    rewrite Hnone. destruct (Part000.wsOpen s); now repeat split.
  - cbn. now repeat split.
Qed.

Lemma Part000_run_unconnected {lib : VlessJs} (es : list Part000.event) :
  forall s : Part000.session,
    Part000.remoteConnection s = None ->
    Part000.no_completion es = true ->
    tcp_writes (snd (Part000.run s es)) = []
    /\ Part000.remoteConnection (fst (Part000.run s es)) = None
    /\ (Part000.dialing s <> None ->
        Part000.dialing (fst (Part000.run s es)) = Part000.dialing s).
Proof.
  induction es as [|e es IH]; intros s Hnone Hnc; [now repeat split|].
  cbn [Part000.no_completion forallb] in Hnc.
  apply andb_true_iff in Hnc as [He Hes].
  pose proof (Part000_step_unconnected s e Hnone) as Hstep.
  cbn [Part000.no_completion forallb] in Hstep. rewrite He in Hstep.
  destruct (Hstep eq_refl) as (Hw & Hr & Hd). clear Hstep.
  cbn [Part000.run]. destruct (Part000.step s e) as [s1 acts].
  cbn [fst snd] in *. destruct (IH s1 Hr Hes) as (Hw' & Hr' & Hd').
  destruct (Part000.run s1 es) as [s2 acts']. cbn [fst snd] in *.
  rewrite tcp_writes_app, Hw, Hw'. repeat split; try assumption.
  intros Hne. rewrite <- (Hd Hne). apply Hd'. now rewrite (Hd Hne).
Qed.

Lemma MainTs_step_unconnected {lib : VlessJs} (s : MainTs.session)
  (e : MainTs.event) :
  MainTs.remoteConnection s = None ->
  MainTs.no_completion [e] = true ->
  tcp_writes (snd (fst (MainTs.step s e))) = []
  /\ MainTs.remoteConnection (fst (fst (MainTs.step s e))) = None
  /\ exists more,
       MainTs.pending (fst (fst (MainTs.step s e)))
       = MainTs.pending s ++ more.
Proof.
  intros Hnone. destruct e; cbn [MainTs.no_completion forallb];
    try discriminate; intros _; cbn [MainTs.step].
  - unfold MainTs.onmessage, MainTs.returned. rewrite Hnone.
    rewrite !MainTs_log_and_close.
    destruct (MainTs.readableStreamCancel s).
    { cbn. repeat split; [assumption|]. exists []. now rewrite app_nil_r. }
    destruct (header_rejected _); [|destruct (isUDP _)]; cbn;
      rewrite ?Hnone; destruct (MainTs.wsOpen s); repeat split;
      try (exists []; now rewrite app_nil_r); eexists; reflexivity.
  - unfold MainTs.onerror, MainTs.close_remote. cbn. rewrite Hnone.
    repeat split. exists []. now rewrite app_nil_r.
  - unfold MainTs.onclose, MainTs.close_remote. cbn. rewrite Hnone.
    destruct (MainTs.readableStreamCancel s); repeat split; try assumption;
      exists []; now rewrite app_nil_r.
  - destruct (MainTs.is_piped s c).
    2:{ cbn. repeat split; [assumption|]. exists []. now rewrite app_nil_r. }
    unfold MainTs.remote_write, MainTs.pipe_catch, MainTs.close_remote.
    rewrite MainTs_log_and_close, Hnone. cbn.
    destruct (MainTs.wsOpen s); cbn; repeat split; try assumption;
      exists []; now rewrite app_nil_r.
  - destruct (MainTs.is_piped s c).
    2:{ cbn. repeat split; [assumption|]. exists []. now rewrite app_nil_r. }
    unfold MainTs.remote_close, MainTs.returned.
    rewrite MainTs_log_and_close. cbn.
    destruct (MainTs.wsOpen s); cbn; repeat split; try assumption;
      exists []; now rewrite app_nil_r.
  - destruct (MainTs.is_piped s c).
    2:{ cbn. repeat split; [assumption|]. exists []. now rewrite app_nil_r. }
    unfold MainTs.remote_abort, MainTs.pipe_catch.
    rewrite !MainTs_log_and_close. cbn.
    destruct (MainTs.wsOpen s); cbn; repeat split; try assumption;
      exists []; now rewrite app_nil_r.
Qed.

Lemma MainTs_run_unconnected {lib : VlessJs} (es : list MainTs.event) :
  forall s : MainTs.session,
    MainTs.remoteConnection s = None ->
    MainTs.no_completion es = true ->
    tcp_writes (snd (MainTs.run s es)) = []
    /\ MainTs.remoteConnection (fst (MainTs.run s es)) = None
    /\ exists more,
         MainTs.pending (fst (MainTs.run s es)) = MainTs.pending s ++ more.
Proof.
  induction es as [|e es IH]; intros s Hnone Hnc.
  { cbn. repeat split; [assumption|]. exists []. now rewrite app_nil_r. }
  cbn [MainTs.no_completion forallb] in Hnc.
  apply andb_true_iff in Hnc as [He Hes].
  pose proof (MainTs_step_unconnected s e Hnone) as Hstep.
  cbn [MainTs.no_completion forallb] in Hstep. rewrite He in Hstep.
  destruct (Hstep eq_refl) as (Hw & Hr & more & Hp). clear Hstep.
  cbn [MainTs.run]. destruct (MainTs.step s e) as [[s1 acts] out].
  cbn [fst snd] in *. destruct (IH s1 Hr Hes) as (Hw' & Hr' & more' & Hp').
  destruct (MainTs.run s1 es) as [s2 acts']. cbn [fst snd] in *.
  rewrite tcp_writes_app, Hw, Hw'. repeat split; try assumption.
  exists (more ++ more'). now rewrite Hp', Hp, app_assoc.
Qed.

Lemma suspended_app (s s' : MainTs.session) (k : nat)
  (x : bytes * vless_header) (more : list (option (bytes * vless_header))) :
  MainTs.pending s' = MainTs.pending s ++ more ->
  MainTs.suspended s k = Some x ->
  MainTs.suspended s' k = Some x.
Proof.
  unfold MainTs.suspended. intros -> Hk.
  destruct (Nat.lt_ge_cases k (List.length (MainTs.pending s))) as [Hlt | Hge].
  - now rewrite app_nth1.
  - rewrite nth_overflow in Hk by assumption. discriminate.
Qed.

(** ** The first frame, accepted *)

Lemma Part000_accepted {lib : VlessJs} (s : Part000.session) (frame : bytes)
  (wr : bool) :
  Part000.remoteConnection s = None ->
  Part000.pipe1 s = true ->
  Part000.dialing s = None ->
  let h := processVlessHeader frame (Part000.userID s) in
  header_rejected h = false ->
  isUDP h = false ->
  tcp_writes (snd (Part000.step s (Part000.Frame frame wr))) = []
  /\ frames (snd (Part000.step s (Part000.Frame frame wr))) = []
  /\ Part000.remoteConnection (fst (Part000.step s (Part000.Frame frame wr)))
     = None
  /\ Part000.dialing (fst (Part000.step s (Part000.Frame frame wr)))
     = Some (frame, h).
Proof.
  intros Hnone Hpipe Hdial h Hok Hudp. cbn [Part000.step].
  rewrite Hpipe, Hdial. unfold Part000.sink_write. rewrite Hnone.
  fold h. rewrite Hok, Hudp. cbn. now rewrite Hnone.
Qed.

Lemma Part000_connected {lib : VlessJs} (s : Part000.session) (frame : bytes)
  (h : vless_header) (c : conn) (w : bool) :
  Part000.dialing s = Some (frame, h) ->
  tcp_writes (snd (Part000.step s (Part000.Connected c w)))
  = write_raw c (slice_from frame (rawDataIndex h))
  /\ Part000.remoteConnection (fst (Part000.step s (Part000.Connected c w)))
     = Some c.
Proof.
  intros Hd. cbn [Part000.step]. rewrite Hd.
  unfold Part000.sink_write_connected, Part000.start_relay.
  rewrite Part000_log_and_close.
  cbn [Part000.remoteConnection Part000.set_dialing Part000.set_remote
       Part000.wsOpen Part000.set_pipe2 Part000.set_count
       Part000.vlessResponseHeader].
  destruct (slice_from frame (rawDataIndex h)) as [|b raw]; [|destruct w];
    destruct (Part000.wsOpen s); cbn; now split.
Qed.

Lemma MainTs_accepted {lib : VlessJs} (s : MainTs.session) (frame : bytes)
  (wr : bool) :
  MainTs.remoteConnection s = None ->
  MainTs.readableStreamCancel s = false ->
  let h := processVlessHeader frame (MainTs.userID s) in
  header_rejected h = false ->
  isUDP h = false ->
  tcp_writes (snd (fst (MainTs.step s (MainTs.Message frame wr)))) = []
  /\ frames (snd (fst (MainTs.step s (MainTs.Message frame wr)))) = []
  /\ MainTs.remoteConnection
       (fst (fst (MainTs.step s (MainTs.Message frame wr)))) = None
  /\ MainTs.pending (fst (fst (MainTs.step s (MainTs.Message frame wr))))
     = MainTs.pending s ++ [Some (frame, h)]
  /\ snd (MainTs.step s (MainTs.Message frame wr)) = Suspended.
Proof.
  intros Hnone Hcancel h Hok Hudp. cbn [MainTs.step].
  unfold MainTs.onmessage. rewrite Hcancel, Hnone. fold h.
  rewrite Hok, Hudp. cbn. now rewrite Hnone.
Qed.

Lemma MainTs_connected {lib : VlessJs} (s : MainTs.session) (k : nat)
  (frame : bytes) (h : vless_header) (c : conn) (w : bool) :
  MainTs.suspended s k = Some (frame, h) ->
  tcp_writes (snd (fst (MainTs.step s (MainTs.Connected k c w))))
  = write_raw c (slice_from frame (rawDataIndex h))
  /\ frames (snd (fst (MainTs.step s (MainTs.Connected k c w)))) = []
  /\ MainTs.remoteConnection
       (fst (fst (MainTs.step s (MainTs.Connected k c w)))) = Some c.
Proof.
  intros Hk. cbn [MainTs.step]. rewrite Hk.
  unfold MainTs.onmessage_connected. rewrite MainTs_log_and_close.
  destruct (slice_from frame (rawDataIndex h)) as [|b raw]; [|destruct w];
    cbn; destruct (MainTs.wsOpen s); now repeat split.
Qed.

(** With one dial.  Let the first inbound frame decode to a header that
    passes the test and asks for TCP, with [rawDataIndex] the offset [idx],
    and let its dial be the first to complete, with the connection [c].  The
    writes to TCP of the whole session are then: the bytes of the frame from
    offset [idx] to its end, unchanged, in one write to [c] when there is at
    least one such byte; followed by the writes of the events that come
    after the connection.  In the stream-pipe version one dial is awaited at
    a time, so the first completion is that of the first frame's dial; in the
    callback version it is an assumption. *)
Lemma raw_bytes_first_with_one_dial {lib : VlessJs}
  (uid : string) (open : bool) (earlyDataHeader : string) (frame : bytes)
  (wr wr' w : bool) (idx : N) (c : conn)
  (mid1 es1 : list Part000.event) (mid2 es2 : list MainTs.event) :
  header_rejected (processVlessHeader frame uid) = false ->
  isUDP (processVlessHeader frame uid) = false ->
  rawDataIndex (processVlessHeader frame uid) = Some idx ->
  Part000.no_completion mid1 = true ->
  MainTs.no_completion mid2 = true ->
  let raw := skipn (N.to_nat idx) frame in
  let p0 := Part000.init uid open in
  let p := fst (Part000.run p0 (Part000.Frame frame wr :: mid1)) in
  let p' := fst (Part000.step p (Part000.Connected c w)) in
  let m0 := fst (fst (MainTs.processWebSocket uid open earlyDataHeader wr')) in
  let m := fst (MainTs.run m0 (MainTs.Message frame wr :: mid2)) in
  let m' := fst (fst (MainTs.step m (MainTs.Connected 0 c w))) in
  tcp_writes
    (snd (Part000.run p0
            (Part000.Frame frame wr :: mid1
             ++ Part000.Connected c w :: es1)))
  = write_raw c raw ++ tcp_writes (snd (Part000.run p' es1))
  /\ Part000.remoteConnection p' = Some c
  /\ tcp_writes
       (snd (MainTs.run m0
               (MainTs.Message frame wr :: mid2
                ++ MainTs.Connected 0 c w :: es2)))
     = write_raw c raw ++ tcp_writes (snd (MainTs.run m' es2))
  /\ MainTs.remoteConnection m' = Some c
  /\ (raw <> [] -> write_raw c raw = [TcpWrite c raw]).
Proof.
  intros Hok Hudp Hidx Hnc1 Hnc2 raw p0 p p' m0 m m'.
  assert (Hraw : slice_from frame
                   (rawDataIndex (processVlessHeader frame uid)) = raw).
  { rewrite Hidx. reflexivity. }
  repeat split.
  - (* the stream-pipe version *)
    destruct (Part000_accepted p0 frame wr eq_refl eq_refl eq_refl Hok Hudp)
      as (Ha & _ & Hn & Hd).
    change (Part000.userID p0) with uid in Hd.
    subst p' p. cbn [Part000.run].
    destruct (Part000.step p0 (Part000.Frame frame wr)) as [s1 a1].
    cbn [fst snd] in *.
    assert (Hne : Part000.dialing s1 <> None) by congruence.
    destruct (Part000_run_unconnected mid1 s1 Hn Hnc1) as (Hw & Hr & Hk).
    specialize (Hk Hne). rewrite Hd in Hk.
    rewrite Part000_run_app.
    destruct (Part000.run s1 mid1) as [s2 a2]. cbn [fst snd] in *.
    cbn [Part000.run].
    destruct (Part000_connected s2 c w Hk) as (Hc & _).
    destruct (Part000.step s2 (Part000.Connected c w)) as [s3 a3].
    cbn [fst snd] in *.
    destruct (Part000.run s3 es1) as [s4 a4]. cbn [fst snd].
    rewrite !tcp_writes_app, Ha, Hw, Hc, Hraw. reflexivity.
  - subst p' p. cbn [Part000.run].
    destruct (Part000_accepted p0 frame wr eq_refl eq_refl eq_refl Hok Hudp)
      as (_ & _ & Hn & Hd).
    change (Part000.userID p0) with uid in Hd.
    destruct (Part000.step p0 (Part000.Frame frame wr)) as [s1 a1].
    cbn [fst snd] in *.
    assert (Hne : Part000.dialing s1 <> None) by congruence.
    destruct (Part000_run_unconnected mid1 s1 Hn Hnc1) as (_ & _ & Hk).
    specialize (Hk Hne). rewrite Hd in Hk.
    destruct (Part000.run s1 mid1) as [s2 a2]. cbn [fst snd] in *.
    now destruct (Part000_connected s2 c w Hk).
  - (* the callback version *)
    pose proof (MainTs_processWebSocket_state uid open earlyDataHeader wr')
      as (Hu & Hn0 & Hc0 & Hp0 & _).
    fold m0 in Hu, Hn0, Hc0, Hp0.
    pose proof (MainTs_accepted m0 frame wr Hn0 Hc0) as Hacc.
    cbv zeta in Hacc. rewrite Hu in Hacc.
    destruct (Hacc Hok Hudp) as (Ha & _ & Hn & Hp & _). clear Hacc.
    subst m' m. cbn [MainTs.run].
    destruct (MainTs.step m0 (MainTs.Message frame wr)) as [[s1 a1] o1].
    cbn [fst snd] in *.
    destruct (MainTs_run_unconnected mid2 s1 Hn Hnc2)
      as (Hw & Hr & more & Hmore).
    assert (Hs1 : MainTs.suspended s1 0
                  = Some (frame, processVlessHeader frame uid)).
    { unfold MainTs.suspended. rewrite Hp, Hp0. reflexivity. }
    pose proof (@suspended_app _ _ _ _ _ Hmore Hs1) as Hk.
    rewrite MainTs_run_app.
    destruct (MainTs.run s1 mid2) as [s2 a2]. cbn [fst snd] in *.
    cbn [MainTs.run].
    destruct (MainTs_connected s2 0 c w Hk) as (Hc & _).
    destruct (MainTs.step s2 (MainTs.Connected 0 c w)) as [[s3 a3] o3].
    cbn [fst snd] in *.
    destruct (MainTs.run s3 es2) as [s4 a4]. cbn [fst snd].
    rewrite !tcp_writes_app, Ha, Hw, Hc, Hraw. reflexivity.
  - pose proof (MainTs_processWebSocket_state uid open earlyDataHeader wr')
      as (Hu & Hn0 & Hc0 & Hp0 & _).
    fold m0 in Hu, Hn0, Hc0, Hp0.
    pose proof (MainTs_accepted m0 frame wr Hn0 Hc0) as Hacc.
    cbv zeta in Hacc. rewrite Hu in Hacc.
    destruct (Hacc Hok Hudp) as (_ & _ & Hn & Hp & _). clear Hacc.
    subst m' m. cbn [MainTs.run].
    destruct (MainTs.step m0 (MainTs.Message frame wr)) as [[s1 a1] o1].
    cbn [fst snd] in *.
    destruct (MainTs_run_unconnected mid2 s1 Hn Hnc2)
      as (_ & _ & more & Hmore).
    assert (Hs1 : MainTs.suspended s1 0
                  = Some (frame, processVlessHeader frame uid)).
    { unfold MainTs.suspended. rewrite Hp, Hp0. reflexivity. }
    pose proof (@suspended_app _ _ _ _ _ Hmore Hs1) as Hk.
    destruct (MainTs.run s1 mid2) as [s2 a2]. cbn [fst snd] in *.
    now destruct (MainTs_connected s2 0 c w Hk) as (_ & _ & ?).
  - intros Hne. destruct raw; [contradiction|reflexivity].
Qed.

(** C9.  The callback version does not hold frames back while a dial is
    pending: a frame that arrives before a connection exists is decoded as a
    first frame and dials on its own account (lines 123 to 128 and 156 to
    165), and the dials may complete in any order.  On the session in which
    the first frame, with raw bytes, is followed by a second accepted frame
    without raw bytes, the dial of the second completes, a further frame
    arrives and only then the dial of the first completes, the further frame
    is relayed to TCP before the raw bytes of the first frame are written.
    The stream-pipe version, whose sink is given one chunk at a time, keeps
    the order in every session whose dial succeeds: the raw bytes of the
    first frame, when there are any, are the first write to TCP. *)
Theorem callback_version_may_relay_before_raw_bytes :
  (let es :=
     [MainTs.Message Sample.tcp_frame true;
      MainTs.Message Sample.bare_tcp_frame true;
      MainTs.Connected 1 9%nat true;
      MainTs.Message Sample.reply true;
      MainTs.Connected 0 Sample.remote true] in
   let h :=
     @processVlessHeader Sample.library Sample.tcp_frame
       MainTs.default_uuid in
   header_rejected h = false
   /\ isUDP h = false
   /\ slice_from Sample.tcp_frame (rawDataIndex h) = Sample.payload
   /\ @MainTs.deliverable Sample.library
        (MainTs.init MainTs.default_uuid true) es = true
   /\ effects
        (snd (@MainTs.session_run Sample.library MainTs.default_uuid true
                EmptyString es))
      = [Connect "example.com" 80; Connect "example.com" 80;
         TcpWrite 9%nat Sample.reply;
         TcpWrite Sample.remote Sample.payload])
  /\ (forall (lib : VlessJs) (uid : string) (open : bool) (frame : bytes)
             (wr w : bool) (idx : N) (c : conn)
             (mid es : list Part000.event),
         header_rejected (processVlessHeader frame uid) = false ->
         isUDP (processVlessHeader frame uid) = false ->
         rawDataIndex (processVlessHeader frame uid) = Some idx ->
         Part000.no_completion mid = true ->
         let raw := skipn (N.to_nat idx) frame in
         let p0 := Part000.init uid open in
         let p := fst (Part000.run p0 (Part000.Frame frame wr :: mid)) in
         let p' := fst (Part000.step p (Part000.Connected c w)) in
         tcp_writes
           (snd (Part000.run p0
                   (Part000.Frame frame wr :: mid
                    ++ Part000.Connected c w :: es)))
         = write_raw c raw ++ tcp_writes (snd (Part000.run p' es))
         /\ (raw <> [] -> write_raw c raw = [TcpWrite c raw]))
  /\ tcp_writes
       (snd (@Part000.run Sample.library
               (Part000.init MainTs.default_uuid true)
               [Part000.Frame Sample.tcp_frame true;
                Part000.Connected Sample.remote true;
                Part000.Frame Sample.reply true]))
     = [TcpWrite Sample.remote Sample.payload;
        TcpWrite Sample.remote Sample.reply].
Proof.
  split; [cbv zeta; repeat split; vm_compute; reflexivity|].
  split; [|vm_compute; reflexivity].
  intros lib uid open frame wr w idx c mid es Hok Hudp Hidx Hmid.
  pose proof (@raw_bytes_first_with_one_dial lib uid open EmptyString frame
                wr true w idx c mid es [] [] Hok Hudp Hidx Hmid eq_refl)
    as H.
  cbv zeta in *. destruct H as (H1 & _ & _ & _ & H5). split; assumption.
Qed.

(** ** The response header in the stream-pipe version *)

Lemma frames_app (l1 l2 : list action) :
  frames (l1 ++ l2) = frames l1 ++ frames l2.
Proof.
  induction l1 as [|a l1 IH]; [reflexivity|].
  destruct a; cbn; now rewrite ?IH.
Qed.

Lemma response_header_shape (h : vless_header) :
  exists v : byte, response_header h = [v; x00].
Proof.
  unfold response_header. destruct (vlessVersion h) as [[|v l]|]; eauto.
Qed.

Lemma header_first_init (uid : string) (open : bool) :
  Part000.header_first (Part000.init uid open) [].
Proof.
  unfold Part000.header_first. cbn. repeat split; auto; congruence.
Qed.

(** Closes the cases of [header_first_step] once the state is concrete. *)
Ltac header_first_case I2 I5 :=
  rewrite ?frames_app; cbn; rewrite ?app_nil_r;
  repeat split; try assumption; try congruence; auto;
  try (exfalso; specialize (I2 eq_refl); discriminate);
  try (let H := fresh in intro H; apply I2 in H; discriminate);
  try (destruct I5 as [[? [?|?]]|?]; auto; congruence).

Lemma send_throttled_frames (n : N) (chunk : bytes) :
  frames (Part000.send_throttled n chunk) = [chunk].
Proof.
  unfold Part000.send_throttled.
  destruct (n <? 20); [reflexivity|].
  destruct (n <? 120); [reflexivity|].
  destruct (n <? 500); reflexivity.
Qed.

Lemma header_first_step {lib : VlessJs} (s : Part000.session)
  (e : Part000.event) (tr : list action) :
  Part000.header_first s tr ->
  Part000.header_first (fst (Part000.step s e)) (tr ++ snd (Part000.step s e)).
Proof.
  unfold Part000.header_first.
  destruct s as [uid addr port rc hdr cnt ws dl p1 p2].
  cbn [Part000.dialing Part000.remoteConnection Part000.pipe2
       Part000.vlessResponseHeader Part000.wsOpen].
  intros (I1 & I2 & I3 & I4 & I5).
  destruct e; cbn [Part000.step Part000.pipe1 Part000.dialing Part000.pipe2].
  - (* Frame *)
    destruct p1, dl as [[? ?]|]; cbn [fst snd]; rewrite ?app_nil_r;
      try (repeat split; assumption).
    unfold Part000.sink_write, Part000.pipe1_catch.
    cbn [Part000.remoteConnection Part000.userID].
    rewrite !Part000_log_and_close.
    destruct rc as [c|].
    + destruct wr, ws; header_first_case I2 I5.
    + destruct (header_rejected _); [|destruct (isUDP _)];
        destruct ws; header_first_case I2 I5.
  - (* Connected *)
    destruct dl as [[chunk h]|]; cbn [fst snd]; rewrite ?app_nil_r;
      try (repeat split; assumption).
    assert (Hrc : rc = None) by (apply I1; congruence). subst rc.
    specialize (I2 eq_refl). subst p2. specialize (I3 eq_refl).
    unfold Part000.sink_write_connected, Part000.start_relay.
    rewrite Part000_log_and_close.
    destruct (slice_from chunk (rawDataIndex h)); [|destruct wr];
      cbn; rewrite frames_app, I3; destruct ws; cbn;
      repeat split; try congruence; eauto 6.
  - (* ConnectFailed *)
    destruct dl as [[chunk h]|]; cbn [fst snd]; rewrite ?app_nil_r;
      try (repeat split; assumption).
    rewrite Part000_log_and_close.
    destruct ws; header_first_case I2 I5.
  - (* StreamClose *)
    destruct p1, dl as [[? ?]|]; cbn [fst snd]; rewrite ?app_nil_r;
      try (repeat split; assumption).
    unfold Part000.close_remote.
    destruct rc; header_first_case I2 I5.
  - (* StreamAbort *)
    destruct p1, dl as [[? ?]|]; cbn [fst snd]; rewrite ?app_nil_r;
      try (repeat split; assumption).
    unfold Part000.pipe1_catch. rewrite Part000_log_and_close.
    unfold Part000.close_remote.
    destruct rc, ws; header_first_case I2 I5.
  - (* RemoteChunk *)
    destruct p2; cbn [fst snd]; rewrite ?app_nil_r;
      try (repeat split; assumption).
    unfold Part000.remote_write, Part000.top_level_catch,
      Part000.close_remote.
    rewrite closeWebSocket_spec. cbn.
    destruct ws; cbn.
    + destruct I5 as [[? [?|?]]|(hd & rest & Hh & Hf)]; try discriminate.
      rewrite frames_app, Hf, send_throttled_frames.
      repeat split; try assumption; try congruence.
      right. exists hd, (rest ++ [chunk]). now split.
    + destruct rc; header_first_case I2 I5.
  - (* RemoteClose *)
    destruct p2; cbn [fst snd]; rewrite ?app_nil_r;
      try (repeat split; assumption).
    rewrite Part000_log_and_close.
    destruct ws; header_first_case I2 I5.
  - (* RemoteAbort *)
    destruct p2; cbn [fst snd]; rewrite ?app_nil_r;
      try (repeat split; assumption).
    rewrite Part000_log_and_close. unfold Part000.top_level_catch.
    rewrite closeWebSocket_spec. unfold Part000.close_remote.
    destruct rc, ws; header_first_case I2 I5.
  - (* ClientGone *)
    header_first_case I2 I5.
Qed.

Lemma header_first_run {lib : VlessJs} (es : list Part000.event) :
  forall (s : Part000.session) (tr : list action),
    Part000.header_first s tr ->
    Part000.header_first (fst (Part000.run s es))
      (tr ++ snd (Part000.run s es)).
Proof.
  induction es as [|e es IH]; intros s tr Hinv.
  - cbn. now rewrite app_nil_r.
  - cbn [Part000.run]. pose proof (header_first_step e Hinv) as Hstep.
    destruct (Part000.step s e) as [s1 acts]. cbn [fst snd] in Hstep.
    specialize (IH s1 _ Hstep).
    destruct (Part000.run s1 es) as [s2 acts']. cbn [fst snd] in *.
    now rewrite app_assoc.
Qed.

(** Once a connection exists in the stream-pipe version, it stays, no dial
    is awaited any more, and the stored response header is not replaced. *)
Lemma Part000_connected_stable {lib : VlessJs} (es : list Part000.event) :
  forall (s : Part000.session) (c : conn) (hdr : bytes),
    Part000.remoteConnection s = Some c ->
    Part000.dialing s = None ->
    Part000.vlessResponseHeader s = Some hdr ->
    Part000.remoteConnection (fst (Part000.run s es)) = Some c
    /\ Part000.dialing (fst (Part000.run s es)) = None
    /\ Part000.vlessResponseHeader (fst (Part000.run s es)) = Some hdr.
Proof.
  induction es as [|e es IH]; intros s c hdr Hc Hd Hh; [now repeat split|].
  cbn [Part000.run].
  assert (Hstep : Part000.remoteConnection (fst (Part000.step s e)) = Some c
                  /\ Part000.dialing (fst (Part000.step s e)) = None
                  /\ Part000.vlessResponseHeader (fst (Part000.step s e))
                     = Some hdr).
  { destruct s as [uid addr port rc h0 cnt ws dl p1 p2]. cbn in Hc, Hd, Hh.
    subst rc dl h0.
    destruct e; cbn [Part000.step Part000.pipe1 Part000.dialing Part000.pipe2];
      try (destruct p1); try (destruct p2); try (destruct wr);
      unfold Part000.sink_write, Part000.pipe1_catch, Part000.remote_write,
        Part000.top_level_catch;
      rewrite ?Part000_log_and_close, ?closeWebSocket_spec;
      cbn; try (destruct ws); cbn; now repeat split. }
  destruct (Part000.step s e) as [s1 acts]. cbn [fst] in Hstep.
  destruct Hstep as (Hc1 & Hd1 & Hh1).
  specialize (IH s1 c hdr Hc1 Hd1 Hh1).
  now destruct (Part000.run s1 es) as [s2 acts'].
Qed.

(** In the stream-pipe version the client never receives anything before
    the response header: at any point of any session, either no frame was
    sent, or the first frame sent is [[version, 0]] for the version of a
    decoded header. *)
Lemma Part000_response_header_first {lib : VlessJs} (uid : string)
  (open : bool) (es : list Part000.event) :
  frames (snd (Part000.run (Part000.init uid open) es)) = []
  \/ exists (h : vless_header) (rest : list bytes),
       frames (snd (Part000.run (Part000.init uid open) es))
       = response_header h :: rest.
Proof.
  pose proof (header_first_run es (header_first_init uid open)) as H.
  cbn [app] in H. destruct H as (_ & _ & _ & I4 & I5).
  destruct I5 as [[Hnil _] | (hdr & rest & Hh & Hf)]; [now left|].
  right. destruct I4 as [Hn | [h Hs]]; [congruence|].
  exists h, rest. congruence.
Qed.

(** ** The response header in the callback version *)

(** The only frames the callback version ever sends are the chunks read
    from TCP: no event makes it send the response header. *)
Lemma MainTs_frames_of_step {lib : VlessJs} (s : MainTs.session)
  (e : MainTs.event) :
  frames (snd (fst (MainTs.step s e)))
  = match e with
    | MainTs.RemoteChunk c chunk =>
        if MainTs.is_piped s c && MainTs.wsOpen s then [chunk] else []
    | _ => []
    end.
Proof.
  destruct e; cbn [MainTs.step].
  - unfold MainTs.onmessage, MainTs.returned.
    rewrite !MainTs_log_and_close.
    destruct (MainTs.readableStreamCancel s); [reflexivity|].
    destruct (MainTs.remoteConnection s); [reflexivity|].
    destruct (header_rejected _); [|destruct (isUDP _)]; cbn;
      now destruct (MainTs.wsOpen s).
  - destruct (MainTs.suspended s k) as [[data h]|]; [|reflexivity].
    unfold MainTs.onmessage_connected. rewrite MainTs_log_and_close.
    destruct (slice_from data (rawDataIndex h)); [|destruct wr]; cbn;
      now destruct (MainTs.wsOpen s).
  - destruct (MainTs.suspended s k); [|reflexivity].
    unfold MainTs.onmessage_connect_failed, MainTs.returned.
    rewrite MainTs_log_and_close. cbn. now destruct (MainTs.wsOpen s).
  - unfold MainTs.onerror, MainTs.close_remote. cbn.
    now destruct (MainTs.remoteConnection s).
  - unfold MainTs.onclose, MainTs.close_remote. cbn.
    now destruct (MainTs.readableStreamCancel s),
      (MainTs.remoteConnection s).
  - destruct (MainTs.is_piped s c); [|reflexivity].
    unfold MainTs.remote_write, MainTs.pipe_catch, MainTs.close_remote.
    rewrite MainTs_log_and_close. cbn.
    now destruct (MainTs.wsOpen s), (MainTs.remoteConnection s).
  - destruct (MainTs.is_piped s c); [|reflexivity].
    unfold MainTs.remote_close, MainTs.returned.
    rewrite MainTs_log_and_close. cbn. now destruct (MainTs.wsOpen s).
  - destruct (MainTs.is_piped s c); [|reflexivity].
    unfold MainTs.remote_abort, MainTs.pipe_catch.
    rewrite !MainTs_log_and_close. cbn. now destruct (MainTs.wsOpen s).
Qed.

Lemma MainTs_frames_are_chunks {lib : VlessJs} (es : list MainTs.event) :
  forall (s : MainTs.session) (f : bytes),
    In f (frames (snd (MainTs.run s es))) ->
    exists c, In (MainTs.RemoteChunk c f) es.
Proof.
  induction es as [|e es IH]; intros s f Hin; [contradiction|].
  cbn [MainTs.run] in Hin. pose proof (MainTs_frames_of_step s e) as Hstep.
  destruct (MainTs.step s e) as [[s1 acts] out]. cbn [fst snd] in Hstep.
  specialize (IH s1 f). destruct (MainTs.run s1 es) as [s2 acts'].
  cbn [snd] in *. rewrite frames_app, Hstep in Hin.
  apply in_app_or in Hin as [Hin | Hin].
  - destruct e; try contradiction.
    destruct (MainTs.is_piped s c && MainTs.wsOpen s); [|contradiction].
    destruct Hin as [<- | []]. exists c. now left.
  - destruct (IH Hin) as [c Hc]. exists c. now right.
Qed.

Lemma MainTs_processWebSocket_frames {lib : VlessJs} (uid : string)
  (open : bool) (earlyDataHeader : string) (wr : bool) :
  frames (snd (fst (MainTs.processWebSocket uid open earlyDataHeader wr)))
  = [].
Proof.
  unfold MainTs.processWebSocket, MainTs.returned.
  rewrite MainTs_log_and_close.
  destruct (error _); [cbn; now destruct open|].
  destruct (earlyData _); reflexivity.
Qed.

(** C2.  The callback version builds the response header [[version, 0]]
    when the dial has succeeded and never sends it: every frame that a
    session of that version sends to the client, whatever the events, is a
    chunk that was read from TCP.  On the session in which the first frame
    is accepted, the dial succeeds and the remote side answers with one
    chunk, the client receives that chunk alone, where the stream-pipe
    version sends [[0, 0]] and then the chunk. *)
Theorem callback_version_omits_response_header :
  (forall (lib : VlessJs) (uid : string) (open : bool)
          (earlyDataHeader : string) (es : list MainTs.event) (f : bytes),
      In f (frames (snd (MainTs.session_run uid open earlyDataHeader es))) ->
      exists c, In (MainTs.RemoteChunk c f) es)
  /\ response_header
       (@processVlessHeader Sample.library Sample.tcp_frame
          MainTs.default_uuid) = [x00; x00]
  /\ frames
       (snd (@MainTs.session_run Sample.library MainTs.default_uuid true
               EmptyString
               Sample.relay_events_main))
     = [Sample.reply]
  /\ frames
       (snd (@Part000.run Sample.library
               (Part000.init MainTs.default_uuid true)
               Sample.relay_events_part000))
     = [[x00; x00]; Sample.reply].
Proof.
  split; [|repeat split; vm_compute; reflexivity].
  intros lib uid open earlyDataHeader es f.
  unfold MainTs.session_run.
  pose proof (MainTs_processWebSocket_frames uid open earlyDataHeader true)
    as Hbody.
  destruct (MainTs.processWebSocket _ _ _ _) as [[s acts] out].
  cbn [fst snd] in Hbody.
  pose proof (@MainTs_frames_are_chunks lib es s f) as Hrun.
  destruct (MainTs.run s es) as [s' acts']. cbn [snd] in *.
  now rewrite frames_app, Hbody.
Qed.

(** ** Early data in the callback version *)

(** C5.  The callback version decodes the early-data header inside
    [processWebSocket], where no connection exists yet, and the branch for
    that case is empty: a decoded payload is neither written nor kept.
    Whenever the header decodes without error the body has no effect and
    leaves the initial state, so the whole session is the one that a request
    without early data gets.  On the session in which the header carries
    [hello], the first frame is accepted and the dial succeeds, the only
    write to TCP is the payload of the first frame. *)
Theorem callback_version_drops_early_data :
  (forall (lib : VlessJs) (uid : string) (open wr : bool)
          (earlyDataHeader : string),
      error (base64ToArrayBuffer earlyDataHeader) = None ->
      MainTs.processWebSocket uid open earlyDataHeader wr
      = (MainTs.init uid open, [], Returned))
  /\ (forall (lib : VlessJs) (uid : string) (open : bool)
             (earlyDataHeader : string) (es : list MainTs.event),
         error (base64ToArrayBuffer earlyDataHeader) = None ->
         MainTs.session_run uid open earlyDataHeader es
         = MainTs.run (MainTs.init uid open) es)
  /\ @base64ToArrayBuffer Sample.library "aGVsbG8"
     = {| earlyData := Some (list_byte_of_string "hello"); error := None |}
  /\ tcp_writes
       (snd (@MainTs.session_run Sample.library MainTs.default_uuid true
               "aGVsbG8" Sample.relay_events_main))
     = [TcpWrite Sample.remote Sample.payload]
  /\ @MainTs.session_run Sample.library MainTs.default_uuid true "aGVsbG8"
       Sample.relay_events_main
     = @MainTs.session_run Sample.library MainTs.default_uuid true EmptyString
         Sample.relay_events_main.
Proof.
  assert (Hbody : forall (lib : VlessJs) (uid : string) (open wr : bool)
                         (earlyDataHeader : string),
             error (base64ToArrayBuffer earlyDataHeader) = None ->
             MainTs.processWebSocket uid open earlyDataHeader wr
             = (MainTs.init uid open, [], Returned)).
  { intros lib uid open wr earlyDataHeader Herr.
    unfold MainTs.processWebSocket. rewrite Herr.
    now destruct (earlyData (base64ToArrayBuffer earlyDataHeader)). }
  split; [exact Hbody|].
  split.
  - intros lib uid open earlyDataHeader es Herr.
    unfold MainTs.session_run. rewrite (Hbody _ _ _ _ _ Herr).
    now destruct (MainTs.run (MainTs.init uid open) es).
  - repeat split; vm_compute; reflexivity.
Qed.

(** C8.  When the early-data header fails to decode, [processWebSocket] of
    the callback version logs, closes the WebSocket (if it is open) and
    returns normally: besides the log line the close is its only effect (no
    error is reported to the console, no exception leaves the call), the
    socket is closed afterwards, no connection exists, nothing is dialled
    or written, and no event that the platform can still deliver makes the
    session dial.  That is what it does for a first frame whose header is
    turned down: the same effects, the same state of the socket. *)
Theorem early_data_decode_error_closes {lib : VlessJs}
  (uid : string) (open wr w : bool) (earlyDataHeader why : string)
  (frame : bytes) (es : list MainTs.event) :
  error (base64ToArrayBuffer earlyDataHeader) = Some why ->
  let s := fst (fst (MainTs.processWebSocket uid open earlyDataHeader wr)) in
  let acts := snd (fst (MainTs.processWebSocket uid open earlyDataHeader wr)) in
  let out := snd (MainTs.processWebSocket uid open earlyDataHeader wr) in
  let turned_down :=
    MainTs.step (MainTs.init uid open) (MainTs.Message frame w) in
  (effects acts = if open then [WsClose] else [])
  /\ out = Returned
  /\ existsb is_connect acts = false
  /\ existsb is_tcp_write acts = false
  /\ MainTs.wsOpen s = false
  /\ MainTs.remoteConnection s = None
  /\ MainTs.pending s = []
  /\ (MainTs.deliverable s es = true ->
      existsb is_connect (snd (MainTs.run s es)) = false)
  /\ (header_rejected (processVlessHeader frame uid) = true ->
      effects acts = effects (snd (fst turned_down))
      /\ out = snd turned_down
      /\ MainTs.wsOpen s = MainTs.wsOpen (fst (fst turned_down))
      /\ MainTs.remoteConnection s
         = MainTs.remoteConnection (fst (fst turned_down))
      /\ MainTs.pending s = MainTs.pending (fst (fst turned_down))).
Proof.
  intros Herr s acts out turned_down.
  assert (Hbody : MainTs.processWebSocket uid open earlyDataHeader wr
                  = (MainTs.set_ws (MainTs.init uid open) false,
                     MainTs.log (MainTs.init uid open)
                       "earlyDataHeader has invaild base64"
                     :: (if open then [WsClose] else []),
                     Returned)).
  { unfold MainTs.processWebSocket, MainTs.returned.
    rewrite Herr, MainTs_log_and_close. reflexivity. }
  subst s acts out. rewrite Hbody. cbn [fst snd].
  repeat split; try (now destruct open).
  - intros Hd. now apply MainTs_closed_never_dials.
  - pose proof (MainTs_turned_down (MainTs.init uid open) frame w
                  eq_refl eq_refl (or_introl H)) as Ht.
    subst turned_down. destruct (MainTs.step _ _) as [[s1 a1] o1].
    cbn [fst snd]. destruct Ht as (-> & _). now destruct open.
  - pose proof (MainTs_turned_down (MainTs.init uid open) frame w
                  eq_refl eq_refl (or_introl H)) as Ht.
    subst turned_down. destruct (MainTs.step _ _) as [[s1 a1] o1].
    cbn [fst snd]. now destruct Ht as (_ & _ & _ & -> & _).
  - pose proof (MainTs_turned_down (MainTs.init uid open) frame w
                  eq_refl eq_refl (or_introl H)) as Ht.
    subst turned_down. destruct (MainTs.step _ _) as [[s1 a1] o1].
    cbn [fst snd]. now destruct Ht as (_ & _ & _ & _ & -> & _).
  - pose proof (MainTs_turned_down (MainTs.init uid open) frame w
                  eq_refl eq_refl (or_introl H)) as Ht.
    subst turned_down. destruct (MainTs.step _ _) as [[s1 a1] o1].
    cbn [fst snd]. now destruct Ht as (_ & _ & _ & _ & _ & -> & _).
  - pose proof (MainTs_turned_down (MainTs.init uid open) frame w
                  eq_refl eq_refl (or_introl H)) as Ht.
    subst turned_down. destruct (MainTs.step _ _) as [[s1 a1] o1].
    cbn [fst snd]. now destruct Ht as (_ & _ & _ & _ & _ & _ & -> & _).
Qed.

Lemma early_data_decode_error_witness :
  error (@base64ToArrayBuffer Sample.library "!!!")
  = Some "invalid base64"%string
  /\ effects
       (snd (fst (@MainTs.processWebSocket Sample.library
                    MainTs.default_uuid true "!!!" true))) = [WsClose]
  /\ snd (@MainTs.processWebSocket Sample.library MainTs.default_uuid true
            "!!!" true) = Returned.
Proof.
  assert (Herr : error (@base64ToArrayBuffer Sample.library "!!!")
                 = Some "invalid base64"%string) by reflexivity.
  split; [exact Herr|].
  pose proof (@early_data_decode_error_closes Sample.library
                MainTs.default_uuid true true true "!!!" "invalid base64"
                Sample.foreign_frame [MainTs.WsClosed] Herr) as H.
  cbv zeta in H. destruct H as (H1 & H2 & _).
  split; [exact H1 | exact H2].
Defined.

(** ** An exception in the session logic *)

(** C10.  In the callback version the [try] of [processWebSocket] encloses
    the assignment of the callbacks, not their calls.  When a relayed frame
    is written to a TCP connection and the write is rejected, the exception
    leaves [onmessage]: nothing is logged, neither socket is closed, the
    state is as before.  The stream-pipe version handles the same failure:
    it logs with the address and port of the session and closes the
    WebSocket and the connection.  Both are shown for every state in
    which a connection exists, and on the session in which the first frame
    is accepted and the dial succeeds. *)
Theorem callback_version_lets_exception_escape :
  (forall (lib : VlessJs) (s : MainTs.session) (c : conn) (data : bytes),
      MainTs.readableStreamCancel s = false ->
      MainTs.remoteConnection s = Some c ->
      MainTs.step s (MainTs.Message data false)
      = (s, [TcpWrite c data], Escaped))
  /\ (forall (lib : VlessJs) (s : Part000.session) (c : conn) (data : bytes),
         Part000.pipe1 s = true ->
         Part000.dialing s = None ->
         Part000.remoteConnection s = Some c ->
         Part000.step s (Part000.Frame data false)
         = (Part000.set_pipe1 (Part000.set_ws s false) false,
            TcpWrite c data
            :: Log (Part000.address s) (Part000.portWithRandomLog s)
                 "readableWebSocketStream pipeto has exception"
            :: (if Part000.wsOpen s then [WsClose] else [])
            ++ [TcpClose c]))
  /\ (let s := fst (@MainTs.session_run Sample.library MainTs.default_uuid
                      true EmptyString Sample.relay_events_main) in
      MainTs.remoteConnection s = Some Sample.remote
      /\ MainTs.wsOpen s = true
      /\ @MainTs.step Sample.library s (MainTs.Message Sample.payload false)
         = (s, [TcpWrite Sample.remote Sample.payload], Escaped))
  /\ (let s := fst (@Part000.run Sample.library
                      (Part000.init MainTs.default_uuid true)
                      Sample.relay_events_part000) in
      effects
        (snd (@Part000.step Sample.library s
                (Part000.Frame Sample.payload false)))
      = [TcpWrite Sample.remote Sample.payload; WsClose;
         TcpClose Sample.remote]).
Proof.
  split; [|split; [|split]].
  - intros lib s c data Hcancel Hc. cbn [MainTs.step].
    unfold MainTs.onmessage. now rewrite Hcancel, Hc.
  - intros lib s c data Hpipe Hdial Hc. cbn [Part000.step].
    rewrite Hpipe, Hdial. unfold Part000.sink_write, Part000.pipe1_catch.
    rewrite Hc, Part000_log_and_close. unfold Part000.close_remote.
    cbn. now rewrite Hc.
  - vm_compute. repeat split.
  - vm_compute. reflexivity.
Qed.

(** ** The cancelled flag of the callback version *)

Lemma MainTs_cancel_sticky {lib : VlessJs} (s : MainTs.session)
  (e : MainTs.event) :
  MainTs.readableStreamCancel s = true ->
  MainTs.readableStreamCancel (fst (fst (MainTs.step s e))) = true.
Proof.
  intros Hc. destruct e; cbn [MainTs.step].
  - unfold MainTs.onmessage. now rewrite Hc.
  - destruct (MainTs.suspended s k) as [[data h]|]; [|assumption].
    unfold MainTs.onmessage_connected. rewrite MainTs_log_and_close.
    now destruct (slice_from data (rawDataIndex h)); [|destruct wr].
  - destruct (MainTs.suspended s k); [|assumption].
    unfold MainTs.onmessage_connect_failed, MainTs.returned.
    now rewrite MainTs_log_and_close.
  - reflexivity.
  - unfold MainTs.onclose. cbn. now rewrite Hc.
  - destruct (MainTs.is_piped s c); [|assumption].
    unfold MainTs.remote_write, MainTs.pipe_catch.
    rewrite MainTs_log_and_close. now destruct (MainTs.wsOpen s).
  - destruct (MainTs.is_piped s c); [|assumption].
    unfold MainTs.remote_close, MainTs.returned.
    now rewrite MainTs_log_and_close.
  - destruct (MainTs.is_piped s c); [|assumption].
    unfold MainTs.remote_abort, MainTs.pipe_catch.
    now rewrite !MainTs_log_and_close.
Qed.

Lemma MainTs_cancelled_frames_and_close {lib : VlessJs}
  (es : list MainTs.event) :
  forall s : MainTs.session,
    MainTs.readableStreamCancel s = true ->
    MainTs.frames_and_close es = true ->
    effects (snd (MainTs.run s es)) = []
    /\ MainTs.readableStreamCancel (fst (MainTs.run s es)) = true
    /\ MainTs.remoteConnection (fst (MainTs.run s es))
       = MainTs.remoteConnection s
    /\ MainTs.pending (fst (MainTs.run s es)) = MainTs.pending s
    /\ MainTs.pipes (fst (MainTs.run s es)) = MainTs.pipes s.
Proof.
  induction es as [|e es IH]; intros s Hc Hes; [now repeat split|].
  cbn [MainTs.frames_and_close forallb] in Hes.
  apply andb_true_iff in Hes as [He Hes].
  cbn [MainTs.run]. destruct e; try discriminate; cbn [MainTs.step].
  - unfold MainTs.onmessage. rewrite Hc.
    specialize (IH s Hc Hes). destruct (MainTs.run s es) as [s2 acts'].
    exact IH.
  - unfold MainTs.onclose. cbn [MainTs.readableStreamCancel MainTs.set_ws].
    rewrite Hc.
    specialize (IH (MainTs.set_ws s false) Hc Hes).
    destruct (MainTs.run (MainTs.set_ws s false) es) as [s2 acts'].
    exact IH.
Qed.

(** C7, as stated, fails.  The flag is tested by [onmessage] and, after its
    log line, by [onclose]; the continuation of a call suspended at its dial
    and the sink of the TCP pipe do not test it.  On the session in which
    the first frame is accepted and the socket reports an error and closes
    while the dial is pending, the flag is set and the socket closed; when
    the dial then completes, the session stores the connection, writes the
    raw bytes of the frame to it and pipes it; the chunk that the remote
    side answers with puts the sink in error and closes the connection. *)
Lemma cancelled_session_still_acts :
  let before :=
    [MainTs.Message Sample.tcp_frame true; MainTs.WsError; MainTs.WsClosed] in
  let after :=
    [MainTs.Connected 0 Sample.remote true;
     MainTs.RemoteChunk Sample.remote Sample.reply] in
  let s :=
    fst (@MainTs.session_run Sample.library MainTs.default_uuid true
           EmptyString before) in
  MainTs.readableStreamCancel s = true
  /\ MainTs.wsOpen s = false
  /\ @MainTs.deliverable Sample.library
       (MainTs.init MainTs.default_uuid true) (before ++ after) = true
  /\ effects
       (snd (@MainTs.session_run Sample.library MainTs.default_uuid true
               EmptyString before))
     = [Connect "example.com" 80]
  /\ snd (fst (@MainTs.step Sample.library s
                 (MainTs.Connected 0 Sample.remote true)))
     = [TcpWrite Sample.remote Sample.payload]
  /\ MainTs.remoteConnection
       (fst (fst (@MainTs.step Sample.library s
                    (MainTs.Connected 0 Sample.remote true))))
     = Some Sample.remote
  /\ effects (snd (@MainTs.run Sample.library s after))
     = [TcpWrite Sample.remote Sample.payload; ControllerError;
        TcpClose Sample.remote]
  /\ ~ (forall e : MainTs.event,
          @MainTs.step Sample.library s e = (s, [], Returned)).
Proof.
  cbv zeta. repeat split; try (vm_compute; reflexivity).
  intros Hall. specialize (Hall (MainTs.Connected 0 Sample.remote true)).
  vm_compute in Hall. discriminate.
Qed.

(** C7, amended.  Once the flag [readableStreamCancel] is set (the error
    callback of the socket sets it) it stays set, and from then on an
    inbound frame is a no-op: the flag is tested first, the frame is not
    decoded, nothing is dialled, nothing is written to TCP, the state is
    unchanged.  The close callback then only logs and leaves the TCP
    connection alone.  So any sequence of frames and close events has no
    effect but log lines. *)
Theorem cancelled_session_ignores_frames {lib : VlessJs}
  (s : MainTs.session) (data : bytes) (wr : bool) (e : MainTs.event)
  (es : list MainTs.event) :
  MainTs.readableStreamCancel s = true ->
  MainTs.step s (MainTs.Message data wr) = (s, [], Returned)
  /\ MainTs.step s MainTs.WsClosed
     = (MainTs.set_ws s false,
        [Log (MainTs.address s) (MainTs.portWithRandomLog s)
           "webSocket is close"],
        Returned)
  /\ MainTs.readableStreamCancel (fst (fst (MainTs.step s e))) = true
  /\ (MainTs.frames_and_close es = true ->
      effects (snd (MainTs.run s es)) = []
      /\ MainTs.readableStreamCancel (fst (MainTs.run s es)) = true
      /\ MainTs.remoteConnection (fst (MainTs.run s es))
         = MainTs.remoteConnection s
      /\ MainTs.pending (fst (MainTs.run s es)) = MainTs.pending s).
Proof.
  intros Hc. repeat split.
  - cbn [MainTs.step]. unfold MainTs.onmessage. now rewrite Hc.
  - cbn [MainTs.step]. unfold MainTs.onclose.
    cbn [MainTs.readableStreamCancel MainTs.set_ws]. now rewrite Hc.
  - now apply MainTs_cancel_sticky.
  - now apply MainTs_cancelled_frames_and_close.
  - now apply MainTs_cancelled_frames_and_close.
  - now apply MainTs_cancelled_frames_and_close.
  - now apply MainTs_cancelled_frames_and_close.
Qed.

Lemma cancelled_session_witness :
  let s := fst (@MainTs.session_run Sample.library MainTs.default_uuid true
                  EmptyString Sample.error_events_main) in
  MainTs.readableStreamCancel s = true
  /\ @MainTs.step Sample.library s (MainTs.Message Sample.payload true)
     = (s, [], Returned).
Proof.
  cbv zeta.
  assert (Hc : MainTs.readableStreamCancel
                 (fst (@MainTs.session_run Sample.library MainTs.default_uuid
                         true EmptyString Sample.error_events_main)) = true)
    by (vm_compute; reflexivity).
  split; [exact Hc|].
  exact (proj1 (@cancelled_session_ignores_frames Sample.library _
                  Sample.payload true MainTs.WsClosed
                  [MainTs.Message Sample.payload true; MainTs.WsClosed] Hc)).
Defined.

(** ** The identifier taken from the request URL *)

Section Matching.
Import MainTs.
Local Open Scope string_scope.

Lemma match_here_app (p : list atom) (rest : string) :
  forall s m : string,
    match_here p s = Some m -> match_here p (s ++ rest) = Some m.
Proof.
  induction p as [|a p IH]; intros s m H.
  - exact H.
  - destruct s as [|c s]; [discriminate|]. cbn in *.
    destruct (atom_matches a c); [|discriminate].
    destruct (match_here p s) as [m'|] eqn:Hm; [|discriminate].
    now rewrite (IH _ _ Hm).
Qed.

Lemma match_here_sound (p : list atom) :
  forall s m : string,
    match_here p s = Some m ->
    match_here p m = Some m
    /\ String.length m = List.length p
    /\ exists post, s = m ++ post.
Proof.
  induction p as [|a p IH]; intros s m H.
  - cbn in H. inversion H; subst. repeat split. now exists s.
  - destruct s as [|c s]; [discriminate|]. cbn in H.
    destruct (atom_matches a c) eqn:Ha; [|discriminate].
    destruct (match_here p s) as [m'|] eqn:Hm; [|discriminate].
    cbn in H. inversion H; subst. clear H.
    destruct (IH _ _ Hm) as (Hi & Hl & post & ->).
    cbn. rewrite Ha, Hi, Hl. repeat split. now exists post.
Qed.

Lemma first_match_sound (p : list atom) :
  forall s m : string,
    first_match p s = Some m ->
    match_here p m = Some m
    /\ String.length m = List.length p
    /\ exists pre post, s = pre ++ m ++ post.
Proof.
  induction s as [|c s IH]; intros m H; cbn [first_match] in H.
  - destruct (match_here p EmptyString) as [m'|] eqn:Hm; [|discriminate].
    inversion H; subst.
    destruct (match_here_sound _ _ Hm) as (Hi & Hl & post & Hs).
    repeat split; try assumption. now exists EmptyString, post.
  - destruct (match_here p (String c s)) as [m'|] eqn:Hm.
    + inversion H; subst.
      destruct (match_here_sound _ _ Hm) as (Hi & Hl & post & Hs).
      repeat split; try assumption. now exists EmptyString, post.
    + destruct (IH _ H) as (Hi & Hl & pre & post & ->).
      repeat split; try assumption. now exists (String c pre), post.
Qed.

Lemma uuid_shaped_match (u : string) :
  uuid_shaped u = true -> match_here uuid_pattern u = Some u.
Proof.
  unfold uuid_shaped. destruct (match_here uuid_pattern u) as [m|];
    [|discriminate].
  intros H. apply String.eqb_eq in H. now subst.
Qed.

Lemma is_hex_not_dash (c : ascii) :
  is_hex c = true -> Ascii.eqb c "-" = false.
Proof.
  intros H. destruct (Ascii.eqb c "-") eqn:E; [|reflexivity].
  apply Ascii.eqb_eq in E. subst. discriminate.
Qed.

Lemma dash_free_mono (n : nat) :
  forall (k : nat) (s : string),
    (k <= n)%nat -> dash_free_upto n s = true -> dash_free_upto k s = true.
Proof.
  induction n as [|n IH]; intros k s Hk H.
  - now replace k with 0%nat by lia.
  - destruct k as [|k]; [reflexivity|].
    destruct s as [|c s]; [reflexivity|]. cbn in *.
    apply andb_true_iff in H as [-> H]. cbn. apply (IH k s); [lia|assumption].
Qed.

Lemma dash_free_app (pre : string) :
  forall (n : nat) (t : string),
    no_dash pre = true ->
    dash_free_upto (n - String.length pre) t = true ->
    dash_free_upto n (pre ++ t) = true.
Proof.
  induction pre as [|c pre IH]; intros n t Hpre Ht.
  - cbn in *. now rewrite Nat.sub_0_r in Ht.
  - destruct n as [|n]; [reflexivity|]. cbn in *.
    apply andb_true_iff in Hpre as [-> Hpre]. cbn. now apply IH.
Qed.

Lemma hex_run_needs_dash (q : list atom) (k : nat) :
  forall s : string,
    dash_free_upto (S k) s = true ->
    match_here (repeat Hex k ++ Dash :: q) s = None.
Proof.
  induction k as [|k IH]; intros s H; destruct s as [|c s]; try reflexivity.
  - cbn in *. apply andb_true_iff in H as [H _].
    apply negb_true_iff in H. now rewrite H.
  - cbn [repeat app match_here]. cbn [dash_free_upto] in H.
    apply andb_true_iff in H as [_ H].
    destruct (atom_matches Hex c); [|reflexivity]. now rewrite (IH s H).
Qed.

Lemma hex_run_is_dash_free (q : list atom) (rest : string) (k : nat) :
  forall s m : string,
    match_here (repeat Hex k ++ q) s = Some m ->
    dash_free_upto k (s ++ rest) = true.
Proof.
  induction k as [|k IH]; intros s m H; [reflexivity|].
  destruct s as [|c s]; [discriminate|]. cbn [repeat app match_here] in H.
  destruct (atom_matches Hex c) eqn:Hc; [|discriminate].
  destruct (match_here (repeat Hex k ++ q) s) as [m'|] eqn:Hm;
    [|discriminate].
  cbn. cbn in Hc. rewrite (is_hex_not_dash _ Hc). cbn. now apply (IH s m').
Qed.

(** A UUID-shaped string that follows a prefix without dash is the first
    match: no match can start inside the prefix. *)
Lemma first_match_after_prefix (u rest : string) :
  uuid_shaped u = true ->
  forall pre : string,
    no_dash pre = true ->
    first_match uuid_pattern (pre ++ u ++ rest) = Some u.
Proof.
  intros Hu. apply uuid_shaped_match in Hu.
  induction pre as [|c pre IH]; intros Hpre.
  - cbn [append]. destruct (u ++ rest) eqn:E;
      cbn [first_match]; rewrite <- ?E;
      now rewrite (match_here_app _ rest _ Hu).
  - cbn [append first_match].
    assert (Hnone : match_here uuid_pattern (String c (pre ++ u ++ rest))
                    = None).
    { apply (hex_run_needs_dash _ 8).
      change (String c (pre ++ u ++ rest))
        with ((String c pre) ++ (u ++ rest)).
      apply dash_free_app; [assumption|].
      apply (dash_free_mono (n := 8)); [cbn [String.length]; lia|].
      apply (hex_run_is_dash_free _ rest 8 u Hu). }
    rewrite Hnone. apply IH. cbn in Hpre.
    now apply andb_true_iff in Hpre as [_ Hpre].
Qed.

End Matching.

(** The pattern matcher against the words of the specification. *)

Unset Implicit Arguments.

Section UrlSpecFacts.
Import MainTs UrlSpec.
Local Open Scope string_scope.

Lemma string_app_assoc (a b c : string) : (a ++ b) ++ c = a ++ b ++ c.
Proof. induction a as [|x a IH]; cbn; [reflexivity|now rewrite IH]. Qed.

Lemma string_app_nil_r (a : string) : a ++ EmptyString = a.
Proof. induction a as [|x a IH]; cbn; [reflexivity|now rewrite IH]. Qed.

Lemma string_app_inv_head (p : string) :
  forall q x y : string,
    p ++ x = q ++ y -> String.length p = String.length q -> x = y.
Proof.
  induction p as [|c p IH]; intros [|d q] x y H Hl; cbn in *;
    try discriminate; [exact H|].
  inversion H; subst. apply (IH q); [assumption|lia].
Qed.

(** The character class of the pattern, [[a-f0-9]] under the flag [i], is
    the set of the 22 hexadecimal digits. *)
Lemma hex_digit_is_hex (c : ascii) : is_hex c = hex_digit c.
Proof.
  destruct c as [[] [] [] [] [] [] [] []]; reflexivity.
Qed.

Lemma match_hex_run (q : list atom) (r m : string) (k : nat) :
  match_here q r = Some m ->
  forall g : string,
    hex_group k g = true ->
    match_here (repeat Hex k ++ q)%list (g ++ r) = Some (g ++ m).
Proof.
  intros Hq. induction k as [|k IH]; intros [|c g] Hg;
    unfold hex_group in Hg; cbn [String.length Nat.eqb hex_string andb] in Hg;
    try discriminate.
  - exact Hq.
  - apply andb_true_iff in Hg as [Hl Hg].
    apply andb_true_iff in Hg as [Hc Hg].
    cbn [repeat app append match_here atom_matches].
    rewrite hex_digit_is_hex, Hc, IH; [reflexivity|].
    unfold hex_group. now rewrite Hl, Hg.
Qed.

Lemma match_hex_run_inv (q : list atom) (k : nat) :
  forall s m : string,
    match_here (repeat Hex k ++ q)%list s = Some m ->
    exists g r m',
      s = g ++ r /\ hex_group k g = true
      /\ match_here q r = Some m' /\ m = g ++ m'.
Proof.
  induction k as [|k IH]; intros s m H.
  - exists EmptyString, s, m. now repeat split.
  - destruct s as [|c s]; [discriminate|].
    cbn [repeat app match_here atom_matches] in H.
    destruct (is_hex c) eqn:Hc; [|discriminate].
    destruct (match_here (repeat Hex k ++ q)%list s) as [m0|] eqn:Hm;
      [|discriminate].
    cbn in H. inversion H; subst. clear H.
    destruct (IH _ _ Hm) as (g & r & m' & -> & Hg & Hq & ->).
    exists (String c g), r, m'. repeat split; try assumption.
    unfold hex_group in *. cbn [String.length append Nat.eqb hex_string].
    apply andb_true_iff in Hg as [Hl Hg].
    now rewrite Hl, <- hex_digit_is_hex, Hc, Hg.
Qed.

Lemma match_dash_inv (q : list atom) (s m : string) :
  match_here (Dash :: q) s = Some m ->
  exists r m', s = "-" ++ r /\ match_here q r = Some m' /\ m = "-" ++ m'.
Proof.
  intros H. destruct s as [|c s]; [discriminate|].
  cbn [match_here atom_matches] in H.
  destruct (Ascii.eqb c "-") eqn:Hc; [|discriminate].
  apply Ascii.eqb_eq in Hc. subst c.
  destruct (match_here q s) as [m0|] eqn:Hm; [|discriminate].
  cbn in H. inversion H; subst. now exists s, m0.
Qed.

(** The pattern matches at the start of a string exactly when the string
    starts with a UUID-shaped text, and that text is the match. *)
Lemma uuid_text_matches (a b c d e rest : string) :
  hex_groups a b c d e = true ->
  match_here uuid_pattern (uuid_text a b c d e ++ rest)
  = Some (uuid_text a b c d e).
Proof.
  unfold hex_groups. intros H.
  apply andb_true_iff in H as [H He]. apply andb_true_iff in H as [H Hd].
  apply andb_true_iff in H as [H Hc]. apply andb_true_iff in H as [Ha Hb].
  unfold uuid_text. rewrite !string_app_assoc.
  rewrite <- (string_app_nil_r e) at 2.
  change uuid_pattern
    with (repeat Hex 8 ++ Dash :: repeat Hex 4 ++ Dash :: repeat Hex 4
          ++ Dash :: repeat Hex 4 ++ Dash :: repeat Hex 12 ++ [])%list.
  apply match_hex_run; [|exact Ha]. cbn [append match_here atom_matches Ascii.eqb Bool.eqb option_map].
  erewrite match_hex_run; [reflexivity| |exact Hb].
  cbn [append match_here atom_matches Ascii.eqb Bool.eqb option_map].
  erewrite match_hex_run; [reflexivity| |exact Hc].
  cbn [append match_here atom_matches Ascii.eqb Bool.eqb option_map].
  erewrite match_hex_run; [reflexivity| |exact Hd].
  cbn [append match_here atom_matches Ascii.eqb Bool.eqb option_map].
  erewrite match_hex_run; [reflexivity| |exact He].
  reflexivity.
Qed.

Lemma match_is_uuid_text (s m : string) :
  match_here uuid_pattern s = Some m -> UuidShaped m.
Proof.
  change uuid_pattern
    with (repeat Hex 8 ++ Dash :: repeat Hex 4 ++ Dash :: repeat Hex 4
          ++ Dash :: repeat Hex 4 ++ Dash :: repeat Hex 12 ++ [])%list.
  intros H.
  apply match_hex_run_inv in H as (a & r1 & m1 & -> & Ha & H & ->).
  apply match_dash_inv in H as (r & m' & -> & H & ->).
  apply match_hex_run_inv in H as (b & r2 & m2 & -> & Hb & H & ->).
  apply match_dash_inv in H as (r & m' & -> & H & ->).
  apply match_hex_run_inv in H as (c & r3 & m3 & -> & Hc & H & ->).
  apply match_dash_inv in H as (r & m' & -> & H & ->).
  apply match_hex_run_inv in H as (d & r4 & m4 & -> & Hd & H & ->).
  apply match_dash_inv in H as (r & m' & -> & H & ->).
  apply match_hex_run_inv in H as (e & r5 & m5 & -> & He & H & ->).
  cbn in H. inversion H; subst.
  exists a, b, c, d, e. split.
  - unfold hex_groups. now rewrite Ha, Hb, Hc, Hd, He.
  - unfold uuid_text. now rewrite string_app_nil_r.
Qed.

(** When [first_match] finds nothing the pattern matches at no offset; when
    it finds a match, the pattern matches at no offset further left. *)
Lemma first_match_none (p : list atom) :
  forall s : string,
    first_match p s = None ->
    forall pre t : string, s = pre ++ t -> match_here p t = None.
Proof.
  induction s as [|c s IH]; intros H pre t E; cbn [first_match] in H.
  - destruct pre; [|discriminate]. cbn in E. subst t.
    now destruct (match_here p EmptyString).
  - destruct (match_here p (String c s)) eqn:Hm; [discriminate|].
    destruct pre as [|c' pre]; cbn in E.
    + now subst t.
    + inversion E; subst. now apply (IH H pre).
Qed.

Lemma first_match_first (p : list atom) :
  forall s m : string,
    first_match p s = Some m ->
    exists pre post,
      s = pre ++ m ++ post
      /\ match_here p (m ++ post) = Some m
      /\ forall pre2 t : string,
           s = pre2 ++ t ->
           (String.length pre2 < String.length pre)%nat ->
           match_here p t = None.
Proof.
  induction s as [|c s IH]; intros m H; cbn [first_match] in H.
  - destruct (match_here p EmptyString) as [m'|] eqn:Hm; [|discriminate].
    inversion H; subst.
    destruct (match_here_sound _ _ Hm) as (_ & _ & post & Hs).
    exists EmptyString, post. cbn [append]. rewrite <- Hs.
    repeat split; try assumption. cbn. intros; lia.
  - destruct (match_here p (String c s)) as [m'|] eqn:Hm.
    + inversion H; subst.
      destruct (match_here_sound _ _ Hm) as (_ & _ & post & Hs).
      exists EmptyString, post. cbn [append]. rewrite <- Hs.
      repeat split; try assumption. cbn. intros; lia.
    + destruct (IH _ H) as (pre & post & -> & Hh & Hmin).
      exists (String c pre), post. repeat split; try assumption.
      intros [|c2 pre2] t E Hl; cbn in E.
      * now subst t.
      * inversion E; subst. apply (Hmin pre2); [assumption|]. cbn in Hl. lia.
Qed.

(** [getVlessUUID] computes the identifier of the specification, which is
    unique. *)
Lemma getVlessUUID_meets_spec (url : string) :
  identifier url (getVlessUUID url).
Proof.
  unfold getVlessUUID.
  destruct (first_match uuid_pattern url) as [m|] eqn:Hm.
  - left. destruct (first_match_first _ _ _ Hm) as (pre & post & E & Hh & Hmin).
    split; [exact (match_is_uuid_text _ _ Hh)|].
    exists (String.length pre). split; [now exists pre, post|].
    intros n' u' (a & b & c & d & e & Hg & ->) (pre2 & post2 & E2 & <-).
    destruct (Nat.lt_ge_cases (String.length pre2) (String.length pre))
      as [Hlt|Hge]; [|exact Hge].
    pose proof (uuid_text_matches a b c d e post2 Hg) as Hx.
    rewrite (Hmin pre2 _ E2 Hlt) in Hx. discriminate.
  - right. split; [|reflexivity].
    intros n u (a & b & c & d & e & Hg & ->) (pre & post & E & _).
    pose proof (uuid_text_matches a b c d e post Hg) as Hx.
    rewrite (first_match_none _ _ Hm pre _ E) in Hx. discriminate.
Qed.

Lemma identifier_is_getVlessUUID (url id : string) :
  identifier url id -> getVlessUUID url = id.
Proof.
  intros Hid. destruct (getVlessUUID_meets_spec url) as [Hf | [Hn Hd]];
    destruct Hid as [Hf' | [Hn' Hd']].
  - destruct Hf as ((a & b & c & d & e & Hg & Eu) & n & Ho & Hmin).
    destruct Hf' as ((a' & b' & c' & d' & e' & Hg' & Eu') & n' & Ho' & Hmin').
    assert (Hnn : n = n').
    { apply Nat.le_antisymm.
      - apply (Hmin n' id); [now exists a', b', c', d', e'|assumption].
      - apply (Hmin' n (getVlessUUID url));
          [now exists a, b, c, d, e|assumption]. }
    subst n'. destruct Ho as (pre & post & E & Hl).
    destruct Ho' as (pre' & post' & E' & Hl').
    rewrite E in E' at 1.
    apply string_app_inv_head in E'; [|congruence].
    pose proof (uuid_text_matches a b c d e post Hg) as Hx.
    pose proof (uuid_text_matches a' b' c' d' e' post' Hg') as Hx'.
    rewrite <- Eu in Hx. rewrite <- Eu' in Hx'. rewrite E' in Hx.
    congruence.
  - destruct Hf as (Hu & n & Ho & _). now destruct (Hn' n _ Hu).
  - destruct Hf' as (Hu & n & Ho & _). now destruct (Hn n _ Hu).
  - congruence.
Qed.

End UrlSpecFacts.

Lemma uuid_text_is_shaped (a b c d e : string) :
  UrlSpec.hex_groups a b c d e = true ->
  MainTs.uuid_shaped (UrlSpec.uuid_text a b c d e) = true.
Proof.
  intros Hg. pose proof (uuid_text_matches a b c d e EmptyString Hg) as H.
  rewrite string_app_nil_r in H. unfold MainTs.uuid_shaped. rewrite H.
  apply String.eqb_refl.
Qed.

Set Implicit Arguments.

(** C4.  The session that [socket.onopen] starts in the upgrade handler of
    the callback version is given the identifier that [getVlessUUID]
    extracts from the request URL, whatever identifier the process is
    configured with, and that is the identifier its header decoder is
    called with.  A client that puts five groups of 8, 4, 4, 4 and 12
    hexadecimal digits of its choice, joined by dashes, after a prefix
    without dash obtains exactly that text as the identifier, and two
    requests that do so with different texts are authenticated against
    different identifiers.  For every URL the identifier is the one the
    specification describes, and no other: the UUID-shaped substring that
    occurs leftmost in the URL, or the built-in default when the URL has no
    UUID-shaped substring; so two requests whose leftmost UUID-shaped
    substrings differ are authenticated against different identifiers.  The
    session that the [onOpen] callback of the router starts is given the
    configured identifier. *)
Theorem url_identifier_authenticates_socket_onopen_session {lib : VlessJs}
  (configured configured' : string) (protocol : option string)
  (open wr : bool) (frame : bytes)
  (pre post pre' post' a b c d e a' b' c' d' e' : string) :
  UrlSpec.hex_groups a b c d e = true ->
  UrlSpec.hex_groups a' b' c' d' e' = true ->
  MainTs.no_dash pre = true ->
  MainTs.no_dash pre' = true ->
  let u := UrlSpec.uuid_text a b c d e in
  let u' := UrlSpec.uuid_text a' b' c' d' e' in
  let url := (pre ++ u ++ post)%string in
  let url' := (pre' ++ u' ++ post')%string in
  let args := MainTs.socket_onopen_args configured url protocol in
  let s := fst (fst (MainTs.processWebSocket (MainTs.arg_userID args) open
                       (MainTs.arg_earlyDataHeader args) wr)) in
  MainTs.arg_userID args = u
  /\ MainTs.arg_userID (MainTs.socket_onopen_args configured' url protocol)
     = u
  /\ MainTs.userID s = u
  /\ (MainTs.wsOpen s = true ->
      MainTs.step s (MainTs.Message frame wr)
      = MainTs.onmessage s frame wr
      /\ (header_rejected (processVlessHeader frame u) = true ->
          effects (snd (fst (MainTs.step s (MainTs.Message frame wr))))
          = [WsClose])
      /\ (header_rejected (processVlessHeader frame u) = false ->
          isUDP (processVlessHeader frame u) = false ->
          existsb is_connect
            (snd (fst (MainTs.step s (MainTs.Message frame wr)))) = true))
  /\ (u <> u' ->
      MainTs.arg_userID args
      <> MainTs.arg_userID
           (MainTs.socket_onopen_args configured url' protocol))
  /\ (forall url0 : string,
         UrlSpec.identifier url0
           (MainTs.arg_userID
              (MainTs.socket_onopen_args configured url0 protocol)))
  /\ (forall url0 id : string,
         UrlSpec.identifier url0 id ->
         MainTs.arg_userID
           (MainTs.socket_onopen_args configured url0 protocol) = id)
  /\ (forall url0 url1 v0 v1 : string,
         UrlSpec.FirstUuidShaped url0 v0 ->
         UrlSpec.FirstUuidShaped url1 v1 ->
         v0 <> v1 ->
         MainTs.arg_userID
           (MainTs.socket_onopen_args configured url0 protocol)
         <> MainTs.arg_userID
              (MainTs.socket_onopen_args configured url1 protocol))
  /\ MainTs.arg_userID (MainTs.hono_onOpen_args configured url protocol)
     = configured.
Proof.
  intros Hg Hg' Hpre Hpre' u u' url url' args s.
  assert (Hid : forall cfg, MainTs.arg_userID
                  (MainTs.socket_onopen_args cfg url protocol) = u).
  { intros cfg. cbn. unfold MainTs.getVlessUUID, url.
    now rewrite (first_match_after_prefix u post
                   (uuid_text_is_shaped a b c d e Hg) pre Hpre). }
  assert (Hid' : MainTs.arg_userID
                   (MainTs.socket_onopen_args configured url' protocol) = u').
  { cbn. unfold MainTs.getVlessUUID, url'.
    now rewrite (first_match_after_prefix u' post'
                   (uuid_text_is_shaped a' b' c' d' e' Hg') pre' Hpre'). }
  pose proof (MainTs_processWebSocket_state (MainTs.arg_userID args) open
                (MainTs.arg_earlyDataHeader args) wr)
    as (Hu & Hn & Hc & Hp & Hq).
  fold s in Hu, Hn, Hc, Hp, Hq. unfold args in Hu. rewrite Hid in Hu.
  split; [apply Hid|]. split; [apply Hid|]. split; [exact Hu|].
  split.
  { intros Hopen. split; [reflexivity|]. split.
    - intros Hrej.
      pose proof (MainTs_turned_down s frame wr Hn Hc) as Ht.
      cbv zeta in Ht. rewrite Hu in Ht.
      specialize (Ht (or_introl Hrej)).
      destruct (MainTs.step s (MainTs.Message frame wr)) as [[s1 a1] o1].
      cbn [fst snd]. destruct Ht as (-> & _). now rewrite Hopen.
    - intros Hok Hudp. cbn [MainTs.step]. unfold MainTs.onmessage.
      rewrite Hc, Hn, Hu, Hok, Hudp. reflexivity. }
  split; [intros Hne; unfold args; now rewrite Hid, Hid'|].
  split; [intros url0; apply getVlessUUID_meets_spec|].
  split; [intros url0 id Hspec; now apply identifier_is_getVlessUUID|].
  split; [|reflexivity].
  intros url0 url1 v0 v1 H0 H1 Hne. cbn.
  rewrite (identifier_is_getVlessUUID _ _ (or_introl H0)).
  rewrite (identifier_is_getVlessUUID _ _ (or_introl H1)). exact Hne.
Qed.

Lemma url_identifier_witness :
  UrlSpec.hex_groups "AAAAAAAA" "bbbb" "4ccc" "8ddd" "eeeeeeeeeeee" = true
  /\ UrlSpec.hex_groups "12345678" "1234" "1234" "1234" "123456789abc" = true
  /\ MainTs.no_dash "http://localhost:8080/?id=" = true
  /\ MainTs.no_dash "ws://relay.example/" = true
  /\ MainTs.arg_userID
       (MainTs.socket_onopen_args "configured"
          "http://localhost:8080/?id=AAAAAAAA-bbbb-4ccc-8ddd-eeeeeeeeeeee&x=1"
          None)
     = "AAAAAAAA-bbbb-4ccc-8ddd-eeeeeeeeeeee"%string
  /\ MainTs.arg_userID
       (MainTs.socket_onopen_args "configured"
          "http://localhost:8080/?id=AAAAAAAA-bbbb-4ccc-8ddd-eeeeeeeeeeee&x=1"
          None)
     <> MainTs.arg_userID
          (MainTs.socket_onopen_args "configured"
             "ws://relay.example/12345678-1234-1234-1234-123456789abc"
             None).
Proof.
  assert (Hg : UrlSpec.hex_groups "AAAAAAAA" "bbbb" "4ccc" "8ddd"
                 "eeeeeeeeeeee" = true) by reflexivity.
  assert (Hg' : UrlSpec.hex_groups "12345678" "1234" "1234" "1234"
                  "123456789abc" = true) by reflexivity.
  assert (Hp : MainTs.no_dash "http://localhost:8080/?id=" = true)
    by reflexivity.
  assert (Hp' : MainTs.no_dash "ws://relay.example/" = true) by reflexivity.
  pose proof (@url_identifier_authenticates_socket_onopen_session
                Sample.library "configured" "configured" None true true
                Sample.tcp_frame
                "http://localhost:8080/?id=" "&x=1" "ws://relay.example/"
                EmptyString
                "AAAAAAAA" "bbbb" "4ccc" "8ddd" "eeeeeeeeeeee"
                "12345678" "1234" "1234" "1234" "123456789abc"
                Hg Hg' Hp Hp') as H.
  cbv zeta in H. destruct H as (H1 & _ & _ & _ & H5 & _).
  repeat split; try assumption.
  apply H5. vm_compute. discriminate.
Defined.

(** ** The properties on the sample session *)

Example getVlessUUID_from_query :
  MainTs.getVlessUUID
    "http://localhost:8080/?id=AAAAAAAA-bbbb-4ccc-8ddd-eeeeeeeeeeee&x=1"
  = "AAAAAAAA-bbbb-4ccc-8ddd-eeeeeeeeeeee"%string.
Proof. reflexivity. Qed.

Example getVlessUUID_without_match :
  MainTs.getVlessUUID "http://localhost:8080/" = MainTs.default_uuid.
Proof. reflexivity. Qed.

Lemma throttle_witness :
  let s := fst (@Part000.run Sample.library
                  (Part000.init MainTs.default_uuid true)
                  Sample.relay_events_part000) in
  Part000.wsOpen s = true
  /\ Part000.pipe2 s = Part000.Running
  /\ 19 <= 20
  /\ Part000.remoteChunkCount s = 1
  /\ Part000.remoteChunkCount
       (fst (@Part000.step Sample.library s
               (Part000.RemoteChunk Sample.reply))) = 2.
Proof.
  cbv zeta.
  assert (Hopen : Part000.wsOpen
                    (fst (@Part000.run Sample.library
                            (Part000.init MainTs.default_uuid true)
                            Sample.relay_events_part000)) = true)
    by (vm_compute; reflexivity).
  assert (Hrun : Part000.pipe2
                   (fst (@Part000.run Sample.library
                           (Part000.init MainTs.default_uuid true)
                           Sample.relay_events_part000)) = Part000.Running)
    by (vm_compute; reflexivity).
  assert (Hle : 19 <= 20) by lia.
  pose proof (@throttle_is_monotone_step_function Sample.library _
                Sample.reply Sample.payload [Sample.reply] 19 20
                Hopen Hrun Hle) as H.
  cbv zeta in H.
  destruct (Part000.step _ (Part000.RemoteChunk Sample.reply)) as [s' acts].
  destruct H as (H1 & _).
  split; [exact Hopen|]. split; [exact Hrun|]. split; [exact Hle|].
  split; [vm_compute; reflexivity|].
  cbn [fst]. rewrite H1. vm_compute. reflexivity.
Defined.

Lemma raw_bytes_first_with_one_dial_example :
  header_rejected
    (@processVlessHeader Sample.library Sample.tcp_frame MainTs.default_uuid)
  = false
  /\ tcp_writes
       (snd (@Part000.run Sample.library
               (Part000.init MainTs.default_uuid true)
               [Part000.Frame Sample.tcp_frame true; Part000.ClientGone;
                Part000.Connected Sample.remote true;
                Part000.Frame Sample.reply true]))
     = [TcpWrite Sample.remote Sample.payload;
        TcpWrite Sample.remote Sample.reply]
  /\ tcp_writes
       (snd (@MainTs.run Sample.library
               (MainTs.init MainTs.default_uuid true)
               [MainTs.Message Sample.tcp_frame true;
                MainTs.Message Sample.foreign_frame true;
                MainTs.Connected 0 Sample.remote true;
                MainTs.Message Sample.reply true]))
     = [TcpWrite Sample.remote Sample.payload;
        TcpWrite Sample.remote Sample.reply].
Proof.
  assert (Hok : header_rejected
            (@processVlessHeader Sample.library Sample.tcp_frame
               MainTs.default_uuid) = false) by reflexivity.
  split; [exact Hok|].
  pose proof (@raw_bytes_first_with_one_dial Sample.library
                MainTs.default_uuid true EmptyString Sample.tcp_frame
                true true true
                34 Sample.remote
                [Part000.ClientGone] [Part000.Frame Sample.reply true]
                [MainTs.Message Sample.foreign_frame true]
                [MainTs.Message Sample.reply true]
                Hok eq_refl eq_refl eq_refl eq_refl) as H.
  cbv zeta in H. destruct H as (H1 & _ & H3 & _).
  split.
  - etransitivity; [exact H1|]. vm_compute. reflexivity.
  - etransitivity; [exact H3|]. vm_compute. reflexivity.
Defined.

(** A first frame that ends with its header has no raw bytes: nothing is
    written when the dial succeeds. *)
Example bare_frame_writes_nothing :
  tcp_writes
    (snd (@Part000.run Sample.library
            (Part000.init MainTs.default_uuid true)
            [Part000.Frame Sample.bare_tcp_frame true;
             Part000.Connected Sample.remote true])) = []
  /\ tcp_writes
       (snd (@MainTs.run Sample.library
               (MainTs.init MainTs.default_uuid true)
               [MainTs.Message Sample.bare_tcp_frame true;
                MainTs.Connected 0 Sample.remote true])) = [].
Proof. split; vm_compute; reflexivity. Qed.

(** The sixth hundredth chunk and every later one waits 50 ms. *)
Example late_chunks_wait_50 (k : N) (chunk : bytes) :
  total_delay (Part000.send_throttled (600 + k) chunk) = 50.
Proof.
  rewrite send_throttled_delay.
  destruct (N.ltb_spec (600 + k) 20), (N.ltb_spec (600 + k) 120),
    (N.ltb_spec (600 + k) 500); lia.
Qed.

(** * Further properties *)

(** ** [getVlessUUID] *)

Lemma first_match_here (p : list MainTs.atom) (s m : string) :
  MainTs.match_here p s = Some m -> MainTs.first_match p s = Some m.
Proof.
  intros H. destruct s; cbn [MainTs.first_match]; now rewrite H.
Qed.

(** X1.  Whatever the URL, [getVlessUUID] returns a string of 36 characters
    that has the shape of a UUID: the text it matched, or the default.
    Applied to its own result it returns that result. *)
Theorem getVlessUUID_returns_a_uuid (url : string) :
  MainTs.uuid_shaped (MainTs.getVlessUUID url) = true
  /\ String.length (MainTs.getVlessUUID url) = 36%nat
  /\ MainTs.getVlessUUID (MainTs.getVlessUUID url) = MainTs.getVlessUUID url.
Proof.
  unfold MainTs.getVlessUUID at 1 2 4 5.
  destruct (MainTs.first_match MainTs.uuid_pattern url) as [m|] eqn:Hm.
  - destruct (first_match_sound _ _ Hm) as (Hi & Hl & _).
    repeat split.
    + unfold MainTs.uuid_shaped. rewrite Hi. apply String.eqb_refl.
    + exact Hl.
    + unfold MainTs.getVlessUUID. now rewrite (first_match_here _ _ Hi).
  - repeat split.
Qed.

(** The leftmost match: a string that holds a match of the pattern at some
    offset has a first match, which starts at that offset or before. *)
Lemma first_match_leftmost (p : list MainTs.atom) (u post : string) :
  forall (pre m0 : string),
    MainTs.match_here p (u ++ post)%string = Some m0 ->
    exists m pre' post',
      MainTs.first_match p (pre ++ u ++ post)%string = Some m
      /\ (pre ++ u ++ post = pre' ++ m ++ post')%string
      /\ (String.length pre' <= String.length pre)%nat.
Proof.
  induction pre as [|c pre IH]; intros m0 H.
  - destruct (match_here_sound _ _ H) as (_ & _ & post' & Hs).
    exists m0, EmptyString, post'. cbn [append].
    split; [now apply first_match_here|]. split; [exact Hs|]. cbn. lia.
  - cbn [append MainTs.first_match].
    destruct (MainTs.match_here p (String c (pre ++ u ++ post)))
      as [m|] eqn:Hm.
    + destruct (match_here_sound _ _ Hm) as (_ & _ & post' & Hs).
      exists m, EmptyString, post'. cbn [append].
      split; [reflexivity|]. split; [exact Hs|]. cbn. lia.
    + destruct (IH m0 H) as (m & pre' & post' & Hf & Hs & Hl).
      exists m, (String c pre'), post'. cbn [append].
      split; [exact Hf|]. split; [now rewrite Hs|]. cbn. lia.
Qed.

(** X2.  When the URL holds a UUID-shaped string anywhere, [getVlessUUID]
    does not fall back on the default: it returns a UUID-shaped part of the
    URL that starts where that string starts or further left. *)
Theorem getVlessUUID_finds_leftmost (pre u post : string) :
  MainTs.uuid_shaped u = true ->
  exists pre' post',
    (pre ++ u ++ post
     = pre' ++ MainTs.getVlessUUID (pre ++ u ++ post) ++ post')%string
    /\ (String.length pre' <= String.length pre)%nat
    /\ MainTs.first_match MainTs.uuid_pattern (pre ++ u ++ post)%string
       = Some (MainTs.getVlessUUID (pre ++ u ++ post)%string).
Proof.
  intros Hu. apply uuid_shaped_match in Hu.
  pose proof (match_here_app _ post _ Hu) as Hhere.
  destruct (first_match_leftmost _ u post pre Hhere)
    as (m & pre' & post' & Hf & Hs & Hl).
  exists pre', post'. unfold MainTs.getVlessUUID. rewrite Hf.
  repeat split; assumption.
Qed.

Lemma getVlessUUID_finds_leftmost_witness :
  MainTs.uuid_shaped "aaaaaaaa-bbbb-4ccc-8ddd-eeeeeeeeeeee" = true
  /\ MainTs.getVlessUUID
"/12345678-1234-1234-1234-123456789abc/aaaaaaaa-bbbb-4ccc-8ddd-eeeeeeeeeeee"
     = "12345678-1234-1234-1234-123456789abc"%string.
Proof.
  assert (Hu : MainTs.uuid_shaped "aaaaaaaa-bbbb-4ccc-8ddd-eeeeeeeeeeee"
               = true) by reflexivity.
  split; [exact Hu|].
  destruct (@getVlessUUID_finds_leftmost
              "/12345678-1234-1234-1234-123456789abc/"
              "aaaaaaaa-bbbb-4ccc-8ddd-eeeeeeeeeeee" EmptyString Hu)
    as (pre' & post' & _ & _ & Hf).
  vm_compute in Hf. vm_compute. reflexivity.
Defined.

(** ** Where a session dials *)

Lemma header_accepted_fields (h : vless_header) :
  header_rejected h = false ->
  hasError h = false
  /\ addressRemote h = Some (address_or_empty h)
  /\ address_or_empty h <> EmptyString
  /\ portRemote h = Some (port_of h)
  /\ port_of h <> 0
  /\ (exists i, rawDataIndex h = Some i /\ i <> 0)
  /\ vlessVersion h <> None.
Proof.
  unfold header_rejected, address_or_empty, port_of.
  intros H. repeat (apply orb_false_iff in H as [H ?]).
  destruct (portRemote h) as [p|]; [|discriminate].
  destruct (addressRemote h) as [a|]; [|discriminate].
  destruct (rawDataIndex h) as [i|]; [|discriminate].
  destruct (vlessVersion h) as [v|]; [|discriminate].
  cbn in *.
  repeat match goal with
         | H : negb (negb _) = false |- _ =>
             rewrite negb_involutive in H
         end.
  repeat split; try assumption; try discriminate.
  - intros ->. discriminate.
  - intros ->. discriminate.
  - exists i. split; [reflexivity|]. intros ->. discriminate.
Qed.

Lemma dials_app (l1 l2 : list action) :
  dials (l1 ++ l2) = dials l1 ++ dials l2.
Proof.
  induction l1 as [|a l1 IH]; [reflexivity|].
  destruct a; cbn; now rewrite ?IH.
Qed.

Lemma Part000_close_remote_dials (s : Part000.session) :
  dials (Part000.close_remote s) = [].
Proof.
  unfold Part000.close_remote. now destruct (Part000.remoteConnection s).
Qed.

(** What a step of the stream-pipe version dials, and that it keeps the
    identifier of the session. *)
Lemma Part000_step_dials {lib : VlessJs} (s : Part000.session)
  (e : Part000.event) (host : string) (port : N) :
  Part000.userID (fst (Part000.step s e)) = Part000.userID s
  /\ (In (host, port) (dials (snd (Part000.step s e))) ->
      exists frame wr,
        e = Part000.Frame frame wr
        /\ Part000.remoteConnection s = None
        /\ header_rejected (processVlessHeader frame (Part000.userID s))
           = false
        /\ isUDP (processVlessHeader frame (Part000.userID s)) = false
        /\ host = address_or_empty
                    (processVlessHeader frame (Part000.userID s))
        /\ port = port_of (processVlessHeader frame (Part000.userID s))).
Proof.
  destruct e; cbn [Part000.step].
  - destruct (Part000.pipe1 s), (Part000.dialing s);
      try (split; [reflexivity|intros []]).
    unfold Part000.sink_write, Part000.pipe1_catch.
    rewrite !Part000_log_and_close.
    destruct (Part000.remoteConnection s) as [c|] eqn:Hc.
    + destruct wr; cbn; (split; [reflexivity|]);
        [intros []|].
      unfold Part000.close_remote. cbn. rewrite Hc.
      destruct (Part000.wsOpen s); intros [].
    + destruct (header_rejected _) eqn:Hrej; [|destruct (isUDP _) eqn:Hudp];
        cbn; (split; [reflexivity|]).
      1, 2: destruct (Part000.wsOpen s); intros H; exact (False_ind _ H).
      intros [Heq | H]; [|exact (False_ind _ H)]. inversion Heq; subst.
      exists chunk, wr. repeat split; assumption.
  - destruct (Part000.dialing s) as [[chunk h]|];
      [|split; [reflexivity|intros []]].
    unfold Part000.sink_write_connected, Part000.start_relay.
    rewrite Part000_log_and_close.
    destruct (slice_from chunk (rawDataIndex h)); [|destruct wr]; cbn;
      destruct (Part000.wsOpen s); cbn; (split; [reflexivity|intros []]).
  - destruct (Part000.dialing s); [|split; [reflexivity|intros []]].
    rewrite Part000_log_and_close. cbn.
    destruct (Part000.wsOpen s); (split; [reflexivity|intros []]).
  - destruct (Part000.pipe1 s), (Part000.dialing s);
      try (split; [reflexivity|intros []]).
    cbn. rewrite Part000_close_remote_dials. split; [reflexivity|intros []].
  - destruct (Part000.pipe1 s), (Part000.dialing s);
      try (split; [reflexivity|intros []]).
    unfold Part000.pipe1_catch. rewrite Part000_log_and_close.
    unfold Part000.close_remote. cbn.
    destruct (Part000.remoteConnection s), (Part000.wsOpen s); cbn;
      (split; [reflexivity|intros []]).
  - destruct (Part000.pipe2 s); try (split; [reflexivity|intros []]).
    unfold Part000.remote_write, Part000.top_level_catch,
      Part000.send_throttled, Part000.close_remote.
    rewrite closeWebSocket_spec. cbn.
    destruct (Part000.wsOpen s); cbn.
    + destruct (_ <? 20); [split; [reflexivity|intros []]|].
      destruct (_ <? 120); [split; [reflexivity|intros []]|].
      destruct (_ <? 500); (split; [reflexivity|intros []]).
    + destruct (Part000.remoteConnection s); cbn;
        (split; [reflexivity|intros []]).
  - destruct (Part000.pipe2 s); try (split; [reflexivity|intros []]).
    rewrite Part000_log_and_close. cbn.
    destruct (Part000.wsOpen s); (split; [reflexivity|intros []]).
  - destruct (Part000.pipe2 s); try (split; [reflexivity|intros []]).
    rewrite Part000_log_and_close. unfold Part000.top_level_catch.
    rewrite closeWebSocket_spec. unfold Part000.close_remote. cbn.
    destruct (Part000.remoteConnection s), (Part000.wsOpen s); cbn;
      (split; [reflexivity|intros []]).
  - split; [reflexivity|intros []].
Qed.

Lemma MainTs_close_remote_dials (s : MainTs.session) :
  dials (MainTs.close_remote s) = [].
Proof.
  unfold MainTs.close_remote. now destruct (MainTs.remoteConnection s).
Qed.

Lemma MainTs_step_dials {lib : VlessJs} (s : MainTs.session)
  (e : MainTs.event) (host : string) (port : N) :
  MainTs.userID (fst (fst (MainTs.step s e))) = MainTs.userID s
  /\ (In (host, port) (dials (snd (fst (MainTs.step s e)))) ->
      exists frame wr,
        e = MainTs.Message frame wr
        /\ MainTs.remoteConnection s = None
        /\ MainTs.readableStreamCancel s = false
        /\ header_rejected (processVlessHeader frame (MainTs.userID s))
           = false
        /\ isUDP (processVlessHeader frame (MainTs.userID s)) = false
        /\ host = address_or_empty
                    (processVlessHeader frame (MainTs.userID s))
        /\ port = port_of (processVlessHeader frame (MainTs.userID s))).
Proof.
  destruct e; cbn [MainTs.step].
  - unfold MainTs.onmessage, MainTs.returned.
    rewrite !MainTs_log_and_close.
    destruct (MainTs.readableStreamCancel s) eqn:Hcancel;
      [split; [reflexivity|intros []]|].
    destruct (MainTs.remoteConnection s) as [c|] eqn:Hc;
      [split; [reflexivity|intros []]|].
    destruct (header_rejected _) eqn:Hrej; [|destruct (isUDP _) eqn:Hudp];
      cbn; (split; [reflexivity|]).
    1, 2: destruct (MainTs.wsOpen s); intros H; exact (False_ind _ H).
    intros [Heq | H]; [|exact (False_ind _ H)]. inversion Heq; subst.
    exists data, wr. repeat split; assumption.
  - destruct (MainTs.suspended s k) as [[data h]|];
      [|split; [reflexivity|intros []]].
    unfold MainTs.onmessage_connected. rewrite MainTs_log_and_close.
    destruct (slice_from data (rawDataIndex h)); [|destruct wr]; cbn;
      try destruct (MainTs.wsOpen s); cbn; (split; [reflexivity|intros []]).
  - destruct (MainTs.suspended s k); [|split; [reflexivity|intros []]].
    unfold MainTs.onmessage_connect_failed, MainTs.returned.
    rewrite MainTs_log_and_close. cbn.
    destruct (MainTs.wsOpen s); (split; [reflexivity|intros []]).
  - unfold MainTs.onerror. cbn. rewrite MainTs_close_remote_dials.
    split; [reflexivity|intros []].
  - unfold MainTs.onclose, MainTs.close_remote. cbn.
    destruct (MainTs.readableStreamCancel s), (MainTs.remoteConnection s);
      (split; [reflexivity|intros []]).
  - destruct (MainTs.is_piped s c); [|split; [reflexivity|intros []]].
    unfold MainTs.remote_write, MainTs.pipe_catch, MainTs.close_remote.
    rewrite MainTs_log_and_close. cbn.
    destruct (MainTs.wsOpen s), (MainTs.remoteConnection s); cbn;
      (split; [reflexivity|intros []]).
  - destruct (MainTs.is_piped s c); [|split; [reflexivity|intros []]].
    unfold MainTs.remote_close, MainTs.returned.
    rewrite MainTs_log_and_close. cbn.
    destruct (MainTs.wsOpen s); (split; [reflexivity|intros []]).
  - destruct (MainTs.is_piped s c); [|split; [reflexivity|intros []]].
    unfold MainTs.remote_abort, MainTs.pipe_catch.
    rewrite !MainTs_log_and_close. cbn.
    destruct (MainTs.wsOpen s); (split; [reflexivity|intros []]).
Qed.

Lemma Part000_run_dials {lib : VlessJs} (es : list Part000.event)
  (host : string) (port : N) :
  forall s : Part000.session,
    In (host, port) (dials (snd (Part000.run s es))) ->
    exists frame wr,
      In (Part000.Frame frame wr) es
      /\ header_rejected (processVlessHeader frame (Part000.userID s)) = false
      /\ isUDP (processVlessHeader frame (Part000.userID s)) = false
      /\ host = address_or_empty (processVlessHeader frame (Part000.userID s))
      /\ port = port_of (processVlessHeader frame (Part000.userID s)).
Proof.
  induction es as [|e es IH]; intros s Hin; [contradiction|].
  cbn [Part000.run] in Hin.
  destruct (Part000_step_dials s e host port) as [Hu Hstep].
  destruct (Part000.step s e) as [s1 acts]. cbn [fst snd] in *.
  specialize (IH s1). destruct (Part000.run s1 es) as [s2 acts'].
  cbn [snd] in *. rewrite dials_app in Hin.
  apply in_app_or in Hin as [Hin | Hin].
  - destruct (Hstep Hin) as (frame & wr & -> & _ & H).
    exists frame, wr. split; [now left|exact H].
  - destruct (IH Hin) as (frame & wr & Hev & H). rewrite Hu in H.
    exists frame, wr. split; [now right|exact H].
Qed.

Lemma MainTs_run_dials {lib : VlessJs} (es : list MainTs.event)
  (host : string) (port : N) :
  forall s : MainTs.session,
    In (host, port) (dials (snd (MainTs.run s es))) ->
    exists frame wr,
      In (MainTs.Message frame wr) es
      /\ header_rejected (processVlessHeader frame (MainTs.userID s)) = false
      /\ isUDP (processVlessHeader frame (MainTs.userID s)) = false
      /\ host = address_or_empty (processVlessHeader frame (MainTs.userID s))
      /\ port = port_of (processVlessHeader frame (MainTs.userID s)).
Proof.
  induction es as [|e es IH]; intros s Hin; [contradiction|].
  cbn [MainTs.run] in Hin.
  destruct (MainTs_step_dials s e host port) as [Hu Hstep].
  destruct (MainTs.step s e) as [[s1 acts] out]. cbn [fst snd] in *.
  specialize (IH s1). destruct (MainTs.run s1 es) as [s2 acts'].
  cbn [snd] in *. rewrite dials_app in Hin.
  apply in_app_or in Hin as [Hin | Hin].
  - destruct (Hstep Hin) as (frame & wr & -> & _ & _ & H).
    exists frame, wr. split; [now left|exact H].
  - destruct (IH Hin) as (frame & wr & Hev & H). rewrite Hu in H.
    exists frame, wr. split; [now right|exact H].
Qed.

(** X3.  Every dial of a session, of either version and whatever its
    events, goes to the address and the port that the header decoder
    returned for one of the frames the session received, decoded against
    the session's identifier; that header had no error, did not ask for
    UDP, and its address is not empty and its port is not 0: a session
    never dials port 0 or an empty host name. *)
Theorem dial_targets_come_from_accepted_headers {lib : VlessJs}
  (uid : string) (open : bool) (host : string) (port : N) :
  (forall es : list Part000.event,
      In (host, port) (dials (snd (Part000.run (Part000.init uid open) es))) ->
      exists frame wr,
        In (Part000.Frame frame wr) es
        /\ hasError (processVlessHeader frame uid) = false
        /\ isUDP (processVlessHeader frame uid) = false
        /\ addressRemote (processVlessHeader frame uid) = Some host
        /\ portRemote (processVlessHeader frame uid) = Some port
        /\ host <> EmptyString /\ port <> 0)
  /\ (forall es : list MainTs.event,
         In (host, port) (dials (snd (MainTs.run (MainTs.init uid open) es))) ->
         exists frame wr,
           In (MainTs.Message frame wr) es
           /\ hasError (processVlessHeader frame uid) = false
           /\ isUDP (processVlessHeader frame uid) = false
           /\ addressRemote (processVlessHeader frame uid) = Some host
           /\ portRemote (processVlessHeader frame uid) = Some port
           /\ host <> EmptyString /\ port <> 0).
Proof.
  split; intros es Hin.
  - destruct (Part000_run_dials es host port _ Hin)
      as (frame & wr & Hev & Hok & Hudp & -> & ->).
    cbn [Part000.userID Part000.init] in *.
    destruct (header_accepted_fields _ Hok) as (He & Ha & Hne & Hp & Hp0 & _).
    exists frame, wr. repeat split; assumption.
  - destruct (MainTs_run_dials es host port _ Hin)
      as (frame & wr & Hev & Hok & Hudp & -> & ->).
    cbn [MainTs.userID MainTs.init] in *.
    destruct (header_accepted_fields _ Hok) as (He & Ha & Hne & Hp & Hp0 & _).
    exists frame, wr. repeat split; assumption.
Qed.

Lemma dial_targets_witness :
  In ("example.com"%string, 80)
    (dials (snd (@MainTs.run Sample.library
                   (MainTs.init MainTs.default_uuid true)
                   Sample.relay_events_main)))
  /\ exists frame wr,
       In (MainTs.Message frame wr) Sample.relay_events_main
       /\ addressRemote
            (@processVlessHeader Sample.library frame MainTs.default_uuid)
          = Some "example.com"%string.
Proof.
  assert (Hin : In ("example.com"%string, 80)
                  (dials (snd (@MainTs.run Sample.library
                                 (MainTs.init MainTs.default_uuid true)
                                 Sample.relay_events_main))))
    by (vm_compute; now left).
  split; [exact Hin|].
  destruct (proj2 (@dial_targets_come_from_accepted_headers Sample.library
                     MainTs.default_uuid true "example.com" 80) _ Hin)
    as (frame & wr & Hev & _ & _ & Ha & _).
  exists frame, wr. split; assumption.
Defined.

(** ** Relaying, in both directions *)

Lemma total_delay_app (l1 l2 : list action) :
  total_delay (l1 ++ l2) = total_delay l1 + total_delay l2.
Proof.
  induction l1 as [|a l1 IH]; [reflexivity|].
  destruct a; cbn [app total_delay]; rewrite ?IH; lia.
Qed.

Lemma tcp_conns_app (l1 l2 : list action) :
  tcp_conns (l1 ++ l2) = tcp_conns l1 ++ tcp_conns l2.
Proof.
  induction l1 as [|a l1 IH]; [reflexivity|].
  destruct a; cbn; now rewrite ?IH.
Qed.

Lemma cumulative_delay_next (n : N) (chunk : bytes) :
  cumulative_delay (n + 1)
  = cumulative_delay n + total_delay (Part000.send_throttled (n + 1) chunk).
Proof.
  rewrite send_throttled_delay. unfold cumulative_delay.
  destruct (N.ltb_spec n 20), (N.ltb_spec n 120), (N.ltb_spec n 500),
    (N.ltb_spec (n + 1) 20), (N.ltb_spec (n + 1) 120),
    (N.ltb_spec (n + 1) 500); lia.
Qed.

Lemma send_throttled_tcp_conns (n : N) (chunk : bytes) :
  tcp_conns (Part000.send_throttled n chunk) = [].
Proof.
  unfold Part000.send_throttled.
  destruct (n <? 20); [reflexivity|].
  destruct (n <? 120); [reflexivity|].
  destruct (n <? 500); reflexivity.
Qed.

(** Chunks that the remote side delivers in a row while the socket is open,
    in the stream-pipe version. *)
Lemma Part000_forward_run {lib : VlessJs} (chunks : list bytes) :
  forall s : Part000.session,
    Part000.wsOpen s = true ->
    Part000.pipe2 s = Part000.Running ->
    let r := Part000.run s (map Part000.RemoteChunk chunks) in
    frames (snd r) = chunks
    /\ tcp_conns (snd r) = []
    /\ total_delay (snd r) + cumulative_delay (Part000.remoteChunkCount s)
       = cumulative_delay
           (Part000.remoteChunkCount s + N.of_nat (List.length chunks))
    /\ Part000.remoteChunkCount (fst r)
       = Part000.remoteChunkCount s + N.of_nat (List.length chunks)
    /\ Part000.wsOpen (fst r) = true
    /\ Part000.pipe2 (fst r) = Part000.Running
    /\ Part000.remoteConnection (fst r) = Part000.remoteConnection s.
Proof.
  induction chunks as [|chunk chunks IH]; intros s Hopen Hrun.
  - cbn. rewrite N.add_0_r. repeat split; assumption.
  - cbn zeta. cbn [map Part000.run Part000.step].
    rewrite Hrun, (remote_write_open _ _ Hopen).
    specialize (IH (Part000.set_count s (Part000.remoteChunkCount s + 1))
                  Hopen Hrun).
    cbn zeta in IH.
    destruct (Part000.run _ (map Part000.RemoteChunk chunks)) as [s2 acts'].
    cbn [fst snd] in *.
    cbn [Part000.remoteChunkCount Part000.set_count
         Part000.remoteConnection] in IH.
    destruct IH as (Hf & Hc & Hd & Hn & Ho & Hp & Hr).
    rewrite frames_app, tcp_conns_app, total_delay_app,
      send_throttled_frames, send_throttled_tcp_conns, Hf, Hc.
    repeat split; try assumption.
    + rewrite (cumulative_delay_next (Part000.remoteChunkCount s) chunk)
        in Hd.
      cbn [List.length].
      replace (Part000.remoteChunkCount s
               + N.of_nat (S (List.length chunks)))
        with (Part000.remoteChunkCount s + 1
              + N.of_nat (List.length chunks)) by lia.
      lia.
    + rewrite Hn. cbn [List.length]. lia.
Qed.

(** X4.  Once a connection exists, frames that arrive in a row and whose
    writes succeed are written to that connection one write per frame,
    unchanged and in the order of arrival (an empty frame included), and
    nothing else happens: the state of the session is as before.  This
    holds in the stream-pipe version while the first pipe runs and no dial
    is awaited, and in the callback version while the session is not
    cancelled. *)
Theorem frames_are_relayed_to_tcp_in_order {lib : VlessJs}
  (c : conn) (frames_in : list bytes) :
  (forall p : Part000.session,
      Part000.remoteConnection p = Some c ->
      Part000.pipe1 p = true ->
      Part000.dialing p = None ->
      Part000.run p (map (fun d => Part000.Frame d true) frames_in)
      = (p, map (TcpWrite c) frames_in))
  /\ (forall m : MainTs.session,
         MainTs.remoteConnection m = Some c ->
         MainTs.readableStreamCancel m = false ->
         MainTs.run m (map (fun d => MainTs.Message d true) frames_in)
         = (m, map (TcpWrite c) frames_in)).
Proof.
  split.
  - intros p Hc Hp Hd. induction frames_in as [|d ds IH]; [reflexivity|].
    cbn [map Part000.run Part000.step]. rewrite Hp, Hd.
    unfold Part000.sink_write. rewrite Hc, IH. reflexivity.
  - intros m Hc Hcancel. induction frames_in as [|d ds IH]; [reflexivity|].
    cbn [map MainTs.run MainTs.step]. unfold MainTs.onmessage.
    rewrite Hcancel, Hc, IH. reflexivity.
Qed.

Lemma frames_are_relayed_witness :
  let m := fst (@MainTs.run Sample.library
                  (MainTs.init MainTs.default_uuid true)
                  Sample.relay_events_main) in
  MainTs.remoteConnection m = Some Sample.remote
  /\ MainTs.readableStreamCancel m = false
  /\ snd (@MainTs.run Sample.library m
            [MainTs.Message Sample.reply true; MainTs.Message [] true;
             MainTs.Message Sample.payload true])
     = [TcpWrite Sample.remote Sample.reply; TcpWrite Sample.remote [];
        TcpWrite Sample.remote Sample.payload].
Proof.
  cbv zeta.
  assert (Hc : MainTs.remoteConnection
                 (fst (@MainTs.run Sample.library
                         (MainTs.init MainTs.default_uuid true)
                         Sample.relay_events_main)) = Some Sample.remote)
    by (vm_compute; reflexivity).
  assert (Hn : MainTs.readableStreamCancel
                 (fst (@MainTs.run Sample.library
                         (MainTs.init MainTs.default_uuid true)
                         Sample.relay_events_main)) = false)
    by (vm_compute; reflexivity).
  split; [exact Hc|]. split; [exact Hn|].
  pose proof (proj2 (@frames_are_relayed_to_tcp_in_order Sample.library
                       Sample.remote
                       [Sample.reply; []; Sample.payload]) _ Hc Hn) as H.
  cbn [map] in H. rewrite H. reflexivity.
Defined.

(** X5.  While the WebSocket is open, chunks that the TCP connection
    delivers in a row are sent to the client one frame per chunk, unchanged
    and in order; nothing is written to or closed on TCP.  The stream-pipe
    version counts each of them (a delay and the send that follows it being
    one step); the callback version sends them at once and its state is as
    before. *)
Theorem tcp_chunks_are_forwarded_in_order {lib : VlessJs}
  (c : conn) (chunks : list bytes) :
  (forall p : Part000.session,
      Part000.wsOpen p = true ->
      Part000.pipe2 p = Part000.Running ->
      frames (snd (Part000.run p (map Part000.RemoteChunk chunks))) = chunks
      /\ tcp_conns (snd (Part000.run p (map Part000.RemoteChunk chunks))) = []
      /\ Part000.remoteChunkCount
           (fst (Part000.run p (map Part000.RemoteChunk chunks)))
         = Part000.remoteChunkCount p + N.of_nat (List.length chunks)
      /\ Part000.wsOpen
           (fst (Part000.run p (map Part000.RemoteChunk chunks))) = true)
  /\ (forall m : MainTs.session,
         MainTs.wsOpen m = true ->
         MainTs.is_piped m c = true ->
         MainTs.run m (map (MainTs.RemoteChunk c) chunks)
         = (m, map WsSend chunks)).
Proof.
  split.
  - intros p Hopen Hrun.
    destruct (Part000_forward_run chunks p Hopen Hrun)
      as (Hf & Hc & _ & Hn & Ho & _).
    repeat split; assumption.
  - intros m Hopen Hpiped. induction chunks as [|d ds IH]; [reflexivity|].
    cbn [map MainTs.run MainTs.step]. rewrite Hpiped.
    unfold MainTs.remote_write. rewrite Hopen, IH. reflexivity.
Qed.

Lemma tcp_chunks_are_forwarded_witness :
  let p := fst (@Part000.run Sample.library
                  (Part000.init MainTs.default_uuid true)
                  Sample.relay_events_part000) in
  Part000.wsOpen p = true
  /\ Part000.pipe2 p = Part000.Running
  /\ frames
       (snd (@Part000.run Sample.library p
               (map Part000.RemoteChunk [Sample.reply; Sample.payload])))
     = [Sample.reply; Sample.payload].
Proof.
  cbv zeta.
  assert (Ho : Part000.wsOpen
                 (fst (@Part000.run Sample.library
                         (Part000.init MainTs.default_uuid true)
                         Sample.relay_events_part000)) = true)
    by (vm_compute; reflexivity).
  assert (Hr : Part000.pipe2
                 (fst (@Part000.run Sample.library
                         (Part000.init MainTs.default_uuid true)
                         Sample.relay_events_part000)) = Part000.Running)
    by (vm_compute; reflexivity).
  split; [exact Ho|]. split; [exact Hr|].
  exact (proj1 (proj1 (@tcp_chunks_are_forwarded_in_order Sample.library
                         Sample.remote [Sample.reply; Sample.payload])
                  _ Ho Hr)).
Defined.

(** X6.  In the stream-pipe version the delays that chunks delivered in a
    row add up to the difference of [cumulative_delay] between the counter
    after and before them.  A session whose counter is 0 has therefore
    waited [cumulative_delay n] ms in all after [n] chunks: nothing for the
    first 19, 1000 ms after 119, 8600 ms after 499, and 50 ms more for each
    further chunk. *)
Theorem throttle_delays_add_up {lib : VlessJs} (p : Part000.session)
  (chunks : list bytes) :
  Part000.wsOpen p = true ->
  Part000.pipe2 p = Part000.Running ->
  total_delay (snd (Part000.run p (map Part000.RemoteChunk chunks)))
  + cumulative_delay (Part000.remoteChunkCount p)
  = cumulative_delay
      (Part000.remoteChunkCount p + N.of_nat (List.length chunks))
  /\ (Part000.remoteChunkCount p = 0 ->
      total_delay (snd (Part000.run p (map Part000.RemoteChunk chunks)))
      = cumulative_delay (N.of_nat (List.length chunks)))
  /\ cumulative_delay 19 = 0
  /\ cumulative_delay 119 = 1000
  /\ cumulative_delay 499 = 8600
  /\ (forall k, cumulative_delay (500 + k) = 8650 + 50 * k).
Proof.
  intros Hopen Hrun.
  destruct (Part000_forward_run chunks p Hopen Hrun) as (_ & _ & Hd & _).
  split; [exact Hd|]. split.
  - intros H0. rewrite H0 in Hd. cbn in Hd. rewrite N.add_0_r in Hd.
    exact Hd.
  - repeat split. intros k. unfold cumulative_delay.
    destruct (N.ltb_spec (500 + k) 20), (N.ltb_spec (500 + k) 120),
      (N.ltb_spec (500 + k) 500); lia.
Qed.

Lemma throttle_delays_add_up_witness :
  let p := fst (@Part000.run Sample.library
                  (Part000.init MainTs.default_uuid true)
                  [Part000.Frame Sample.tcp_frame true;
                   Part000.Connected Sample.remote true]) in
  Part000.wsOpen p = true
  /\ Part000.pipe2 p = Part000.Running
  /\ total_delay
       (snd (@Part000.run Sample.library p
               (map Part000.RemoteChunk (repeat Sample.reply 25))))
     = 60.
Proof.
  cbv zeta.
  assert (Ho : Part000.wsOpen
                 (fst (@Part000.run Sample.library
                         (Part000.init MainTs.default_uuid true)
                         [Part000.Frame Sample.tcp_frame true;
                          Part000.Connected Sample.remote true])) = true)
    by (vm_compute; reflexivity).
  assert (Hr : Part000.pipe2
                 (fst (@Part000.run Sample.library
                         (Part000.init MainTs.default_uuid true)
                         [Part000.Frame Sample.tcp_frame true;
                          Part000.Connected Sample.remote true]))
               = Part000.Running)
    by (vm_compute; reflexivity).
  split; [exact Ho|]. split; [exact Hr|].
  destruct (@throttle_delays_add_up Sample.library _
              (repeat Sample.reply 25) Ho Hr) as (_ & H0 & _).
  rewrite H0; vm_compute; reflexivity.
Defined.

(** ** What the client receives in the stream-pipe version *)

Lemma Part000_connected_header {lib : VlessJs} (s : Part000.session)
  (frame : bytes) (h : vless_header) (c : conn) (w : bool) :
  Part000.dialing s = Some (frame, h) ->
  Part000.dialing (fst (Part000.step s (Part000.Connected c w))) = None
  /\ Part000.vlessResponseHeader
       (fst (Part000.step s (Part000.Connected c w)))
     = Some (response_header h).
Proof.
  intros Hd. cbn [Part000.step]. rewrite Hd.
  unfold Part000.sink_write_connected, Part000.start_relay.
  rewrite Part000_log_and_close.
  cbn [Part000.remoteConnection Part000.set_dialing Part000.set_remote].
  destruct (slice_from frame (rawDataIndex h)) as [|b raw]; [|destruct w];
    cbn; now split.
Qed.

(** X7.  In the stream-pipe version the client never receives data read
    from TCP before the response header.  At any point of any session
    either no frame was sent, or the first frame sent is [[v, 0]] where [v]
    is the first byte of the version of a decoded header (0 when the
    version is empty).  When the first frame of the session is accepted and
    its dial resolves, that header is the one of the first frame, whatever
    arrives during and after the dial. *)
Theorem stream_version_sends_response_header_first {lib : VlessJs}
  (uid : string) (open : bool) (frame : bytes) (wr w : bool) (c : conn)
  (mid es : list Part000.event) :
  header_rejected (processVlessHeader frame uid) = false ->
  isUDP (processVlessHeader frame uid) = false ->
  Part000.no_completion mid = true ->
  let sent :=
    frames
      (snd (Part000.run (Part000.init uid open)
              (Part000.Frame frame wr :: mid
               ++ Part000.Connected c w :: es))) in
  (sent = []
   \/ exists rest,
        sent = response_header (processVlessHeader frame uid) :: rest)
  /\ (exists v, response_header (processVlessHeader frame uid) = [v; x00])
  /\ (forall es',
         frames (snd (Part000.run (Part000.init uid open) es')) = []
         \/ exists h rest,
              frames (snd (Part000.run (Part000.init uid open) es'))
              = response_header h :: rest).
Proof.
  intros Hok Hudp Hnc sent.
  split; [|split; [apply response_header_shape
                  |intros es'; apply Part000_response_header_first]].
  set (all := Part000.Frame frame wr :: mid ++ Part000.Connected c w :: es).
  assert (Hfinal :
            Part000.vlessResponseHeader
              (fst (Part000.run (Part000.init uid open) all))
            = Some (response_header (processVlessHeader frame uid))).
  { subst all. cbn [Part000.run].
    destruct (Part000_accepted (Part000.init uid open) frame wr
                eq_refl eq_refl eq_refl Hok Hudp) as (_ & _ & Hn & Hd).
    change (Part000.userID (Part000.init uid open)) with uid in Hd.
    destruct (Part000.step (Part000.init uid open) (Part000.Frame frame wr))
      as [s1 a1]. cbn [fst snd] in *.
    assert (Hne : Part000.dialing s1 <> None) by congruence.
    destruct (Part000_run_unconnected mid s1 Hn Hnc) as (_ & _ & Hk).
    specialize (Hk Hne). rewrite Hd in Hk.
    rewrite Part000_run_app.
    destruct (Part000.run s1 mid) as [s2 a2]. cbn [fst snd] in *.
    cbn [Part000.run].
    destruct (Part000_connected s2 c w Hk) as (_ & Hc).
    destruct (Part000_connected_header s2 c w Hk) as (Hdn & Hh).
    destruct (Part000.step s2 (Part000.Connected c w)) as [s3 a3].
    cbn [fst snd] in *.
    destruct (Part000_connected_stable es s3 Hc Hdn Hh) as (_ & _ & Hh').
    destruct (Part000.run s3 es) as [s4 a4]. cbn [fst snd] in *.
    exact Hh'. }
  pose proof (header_first_run all (header_first_init uid open)) as Hinv.
  cbn [app] in Hinv. destruct Hinv as (_ & _ & _ & _ & I5).
  destruct I5 as [[Hnil _] | (hdr & rest & Hh & Hf)]; [now left|].
  right. exists rest. subst sent. fold all. rewrite Hf. congruence.
Qed.

Lemma stream_version_header_first_witness :
  header_rejected
    (@processVlessHeader Sample.library Sample.tcp_frame MainTs.default_uuid)
  = false
  /\ (frames
        (snd (@Part000.run Sample.library
                (Part000.init MainTs.default_uuid true)
                Sample.relay_events_part000)) = []
      \/ exists rest,
           frames
             (snd (@Part000.run Sample.library
                     (Part000.init MainTs.default_uuid true)
                     Sample.relay_events_part000))
           = [x00; x00] :: rest).
Proof.
  assert (Hok : header_rejected
            (@processVlessHeader Sample.library Sample.tcp_frame
               MainTs.default_uuid) = false) by reflexivity.
  split; [exact Hok|].
  exact (proj1 (@stream_version_sends_response_header_first Sample.library
                  MainTs.default_uuid true Sample.tcp_frame true true
                  Sample.remote [] [Part000.RemoteChunk Sample.reply]
                  Hok eq_refl eq_refl)).
Defined.

(** ** A socket that is not open *)

Lemma Part000_step_closed {lib : VlessJs} (s : Part000.session)
  (e : Part000.event) :
  Part000.wsOpen s = false ->
  frames (snd (Part000.step s e)) = []
  /\ Part000.wsOpen (fst (Part000.step s e)) = false.
Proof.
  destruct s as [uid addr port rc hdr cnt ws dl p1 p2]. cbn. intros ->.
  destruct e; cbn [Part000.step Part000.pipe1 Part000.dialing Part000.pipe2];
    try (destruct p1); try (destruct p2); try (destruct dl as [[? ?]|]);
    try (destruct wr);
    unfold Part000.sink_write, Part000.sink_write_connected,
      Part000.start_relay, Part000.pipe1_catch, Part000.remote_write,
      Part000.top_level_catch, Part000.close_remote;
    rewrite ?Part000_log_and_close, ?closeWebSocket_spec;
    cbn; try (destruct rc); cbn;
    try (destruct (header_rejected _); [|destruct (isUDP _)]); cbn;
    try (destruct (slice_from _ _)); cbn;
    rewrite ?Part000_log_and_close; cbn; now repeat split.
Qed.

Lemma MainTs_step_closed {lib : VlessJs} (s : MainTs.session)
  (e : MainTs.event) :
  MainTs.wsOpen s = false ->
  frames (snd (fst (MainTs.step s e))) = []
  /\ MainTs.wsOpen (fst (fst (MainTs.step s e))) = false.
Proof.
  destruct s as [uid addr port rc cancel ws pend pp]. cbn. intros ->.
  destruct e; cbn [MainTs.step];
    unfold MainTs.onmessage, MainTs.onmessage_connected,
      MainTs.onmessage_connect_failed, MainTs.onerror, MainTs.onclose,
      MainTs.remote_write, MainTs.remote_close, MainTs.remote_abort,
      MainTs.pipe_catch, MainTs.returned, MainTs.close_remote,
      MainTs.suspended, MainTs.is_piped;
    rewrite ?MainTs_log_and_close; cbn;
    try (destruct cancel); cbn; try (destruct rc); cbn;
    try (destruct (header_rejected _); [|destruct (isUDP _)]); cbn;
    try (destruct (nth k pend None) as [[? ?]|]); cbn;
    try (destruct (slice_from _ _)); cbn; try (destruct wr); cbn;
    try (destruct (existsb (Nat.eqb c) pp)); cbn;
    rewrite ?MainTs_log_and_close; cbn; now repeat split.
Qed.

Lemma Part000_run_closed {lib : VlessJs} (es : list Part000.event) :
  forall p : Part000.session,
    Part000.wsOpen p = false ->
    frames (snd (Part000.run p es)) = []
    /\ Part000.wsOpen (fst (Part000.run p es)) = false.
Proof.
  induction es as [|e es IH]; intros p Hclosed; [now repeat split|].
  cbn [Part000.run].
  destruct (Part000_step_closed p e Hclosed) as (Hf & Hw).
  destruct (Part000.step p e) as [s1 acts]. cbn [fst snd] in *.
  destruct (IH s1 Hw) as (Hf' & Hw').
  destruct (Part000.run s1 es) as [s2 acts']. cbn [fst snd] in *.
  now rewrite frames_app, Hf, Hf'.
Qed.

Lemma MainTs_run_closed {lib : VlessJs} (es : list MainTs.event) :
  forall m : MainTs.session,
    MainTs.wsOpen m = false ->
    frames (snd (MainTs.run m es)) = []
    /\ MainTs.wsOpen (fst (MainTs.run m es)) = false.
Proof.
  induction es as [|e es IH]; intros m Hclosed; [now repeat split|].
  cbn [MainTs.run].
  destruct (MainTs_step_closed m e Hclosed) as (Hf & Hw).
  destruct (MainTs.step m e) as [[s1 acts] out]. cbn [fst snd] in *.
  destruct (IH s1 Hw) as (Hf' & Hw').
  destruct (MainTs.run s1 es) as [s2 acts']. cbn [fst snd] in *.
  now rewrite frames_app, Hf, Hf'.
Qed.

(** X8.  A session of the callback version never sends a frame on a socket
    that it finds not open: the sink of its pipe tests [readyState] and
    sends in one turn (lines 170 to 172).  From a state in which the socket
    is not open, whatever the events, no frame is sent and the socket stays
    not open. *)
Theorem nothing_is_sent_on_a_socket_that_is_not_open {lib : VlessJs}
  (es : list MainTs.event) (m : MainTs.session) :
  MainTs.wsOpen m = false ->
  frames (snd (MainTs.run m es)) = []
  /\ MainTs.wsOpen (fst (MainTs.run m es)) = false.
Proof.
  intros Hclosed. now apply MainTs_run_closed.
Qed.

Lemma nothing_is_sent_witness :
  let m := fst (@MainTs.run Sample.library
                  (MainTs.init MainTs.default_uuid true)
                  [MainTs.Message Sample.tcp_frame true;
                   MainTs.Connected 0 Sample.remote true; MainTs.WsClosed]) in
  MainTs.wsOpen m = false
  /\ frames
       (snd (@MainTs.run Sample.library m
               [MainTs.RemoteChunk Sample.remote Sample.reply])) = [].
Proof.
  cbv zeta.
  assert (Hc : MainTs.wsOpen
                 (fst (@MainTs.run Sample.library
                         (MainTs.init MainTs.default_uuid true)
                         [MainTs.Message Sample.tcp_frame true;
                          MainTs.Connected 0 Sample.remote true;
                          MainTs.WsClosed])) = false)
    by (vm_compute; reflexivity).
  split; [exact Hc|].
  exact (proj1 (@nothing_is_sent_on_a_socket_that_is_not_open
                  Sample.library
                  [MainTs.RemoteChunk Sample.remote Sample.reply] _ Hc)).
Defined.

(** ** One connection *)

Lemma nil_of_no_member {A : Type} (l : list A) :
  (forall x, ~ In x l) -> l = [].
Proof.
  destruct l as [|a l]; [reflexivity|]. intros H. destruct (H a). now left.
Qed.

Lemma Part000_step_keeps_connection {lib : VlessJs} (s : Part000.session)
  (e : Part000.event) (c : conn) :
  Part000.remoteConnection s = Some c ->
  Part000.remoteConnection (fst (Part000.step s e)) <> None
  /\ (Part000.dialing s = None ->
      Part000.remoteConnection (fst (Part000.step s e)) = Some c
      /\ Part000.dialing (fst (Part000.step s e)) = None).
Proof.
  destruct s as [uid addr port rc hdr cnt ws dl p1 p2]. cbn. intros ->.
  destruct e; cbn [Part000.step Part000.pipe1 Part000.dialing Part000.pipe2];
    try (destruct p1); try (destruct p2); try (destruct dl as [[? ?]|]);
    try (destruct wr);
    unfold Part000.sink_write, Part000.sink_write_connected,
      Part000.start_relay, Part000.pipe1_catch, Part000.remote_write,
      Part000.top_level_catch, Part000.close_remote;
    rewrite ?Part000_log_and_close, ?closeWebSocket_spec;
    cbn; try (destruct (slice_from _ _)); cbn; try (destruct ws); cbn;
    rewrite ?Part000_log_and_close; cbn;
    (split; [discriminate|]); intros H; try discriminate; now split.
Qed.

Lemma MainTs_step_keeps_connection {lib : VlessJs} (s : MainTs.session)
  (e : MainTs.event) (c : conn) :
  MainTs.remoteConnection s = Some c ->
  MainTs.remoteConnection (fst (fst (MainTs.step s e))) <> None
  /\ ((forall k, MainTs.suspended s k = None) ->
      MainTs.remoteConnection (fst (fst (MainTs.step s e))) = Some c
      /\ MainTs.pending (fst (fst (MainTs.step s e))) = MainTs.pending s).
Proof.
  intros Hc. destruct e; cbn [MainTs.step].
  - unfold MainTs.onmessage. rewrite Hc.
    destruct (MainTs.readableStreamCancel s); cbn; rewrite Hc;
      (split; [discriminate|now split]).
  - destruct (MainTs.suspended s k) as [[data h]|] eqn:Hk.
    + unfold MainTs.onmessage_connected. rewrite MainTs_log_and_close.
      split.
      * destruct (slice_from data (rawDataIndex h)); [|destruct wr];
          cbn; discriminate.
      * intros Hall. rewrite Hall in Hk. discriminate.
    + cbn. rewrite Hc. split; [discriminate|now split].
  - destruct (MainTs.suspended s k) eqn:Hk.
    + unfold MainTs.onmessage_connect_failed, MainTs.returned.
      rewrite MainTs_log_and_close. cbn. rewrite Hc.
      split; [discriminate|]. intros Hall. rewrite Hall in Hk. discriminate.
    + cbn. rewrite Hc. split; [discriminate|now split].
  - unfold MainTs.onerror. cbn. rewrite Hc. split; [discriminate|now split].
  - unfold MainTs.onclose. cbn.
    destruct (MainTs.readableStreamCancel s); cbn; rewrite Hc;
      (split; [discriminate|now split]).
  - destruct (MainTs.is_piped s c0); cbn;
      [|rewrite Hc; split; [discriminate|now split]].
    unfold MainTs.remote_write, MainTs.pipe_catch.
    rewrite MainTs_log_and_close.
    destruct (MainTs.wsOpen s); cbn; rewrite Hc;
      (split; [discriminate|now split]).
  - destruct (MainTs.is_piped s c0); cbn;
      [|rewrite Hc; split; [discriminate|now split]].
    unfold MainTs.remote_close, MainTs.returned.
    rewrite MainTs_log_and_close. cbn. rewrite Hc.
    split; [discriminate|now split].
  - destruct (MainTs.is_piped s c0); cbn;
      [|rewrite Hc; split; [discriminate|now split]].
    unfold MainTs.remote_abort, MainTs.pipe_catch.
    rewrite !MainTs_log_and_close. cbn. rewrite Hc.
    split; [discriminate|now split].
Qed.

(** X9.  Once a session has a TCP connection it never dials again,
    whatever the events, and it never forgets its connection.  The
    connection is never replaced either, in the stream-pipe version when no
    dial is awaited and in the callback version when no call of [onmessage]
    is suspended at a dial. *)
Theorem a_connected_session_never_dials_again {lib : VlessJs} (c : conn) :
  (forall (es : list Part000.event) (p : Part000.session),
      Part000.remoteConnection p = Some c ->
      dials (snd (Part000.run p es)) = []
      /\ Part000.remoteConnection (fst (Part000.run p es)) <> None
      /\ (Part000.dialing p = None ->
          Part000.remoteConnection (fst (Part000.run p es)) = Some c))
  /\ (forall (es : list MainTs.event) (m : MainTs.session),
         MainTs.remoteConnection m = Some c ->
         dials (snd (MainTs.run m es)) = []
         /\ MainTs.remoteConnection (fst (MainTs.run m es)) <> None
         /\ ((forall k, MainTs.suspended m k = None) ->
             MainTs.remoteConnection (fst (MainTs.run m es)) = Some c)).
Proof.
  split.
  - intros es. revert c. induction es as [|e es IH]; intros c p Hc.
    { cbn. repeat split; congruence. }
    cbn [Part000.run].
    assert (Hnone : dials (snd (Part000.step p e)) = []).
    { apply nil_of_no_member. intros [host port] Hin.
      destruct (proj2 (Part000_step_dials p e host port) Hin)
        as (? & ? & _ & Hn & _). congruence. }
    destruct (Part000_step_keeps_connection p e Hc) as (Hk & Hsame).
    destruct (Part000.step p e) as [s1 acts]. cbn [fst snd] in *.
    destruct (Part000.remoteConnection s1) as [c1|] eqn:Hc1; [|congruence].
    destruct (IH c1 s1 Hc1) as (Hd & Hr & Hs).
    destruct (Part000.run s1 es) as [s2 acts']. cbn [fst snd] in *.
    rewrite dials_app, Hnone, Hd. repeat split; try assumption.
    intros Hdial. destruct (Hsame Hdial) as [Heq Hdial1].
    inversion Heq; subst. now apply Hs.
  - intros es. revert c. induction es as [|e es IH]; intros c m Hc.
    { cbn. repeat split; congruence. }
    cbn [MainTs.run].
    assert (Hnone : dials (snd (fst (MainTs.step m e))) = []).
    { apply nil_of_no_member. intros [host port] Hin.
      destruct (proj2 (MainTs_step_dials m e host port) Hin)
        as (? & ? & _ & Hn & _). congruence. }
    destruct (MainTs_step_keeps_connection m e Hc) as (Hk & Hsame).
    destruct (MainTs.step m e) as [[s1 acts] out]. cbn [fst snd] in *.
    destruct (MainTs.remoteConnection s1) as [c1|] eqn:Hc1; [|congruence].
    destruct (IH c1 s1 Hc1) as (Hd & Hr & Hs).
    destruct (MainTs.run s1 es) as [s2 acts']. cbn [fst snd] in *.
    rewrite dials_app, Hnone, Hd. repeat split; try assumption.
    intros Hall. destruct (Hsame Hall) as [Heq Hpend].
    inversion Heq; subst. apply Hs. intros k.
    unfold MainTs.suspended in *. rewrite Hpend. apply Hall.
Qed.

Lemma a_connected_session_witness :
  let p := fst (@Part000.run Sample.library
                  (Part000.init MainTs.default_uuid true)
                  Sample.relay_events_part000) in
  Part000.remoteConnection p = Some Sample.remote
  /\ dials
       (snd (@Part000.run Sample.library p
               [Part000.Frame Sample.tcp_frame true;
                Part000.Connected 9%nat true])) = [].
Proof.
  cbv zeta.
  assert (Hc : Part000.remoteConnection
                 (fst (@Part000.run Sample.library
                         (Part000.init MainTs.default_uuid true)
                         Sample.relay_events_part000)) = Some Sample.remote)
    by (vm_compute; reflexivity).
  split; [exact Hc|].
  exact (proj1 (proj1 (@a_connected_session_never_dials_again Sample.library
                         Sample.remote)
                  [Part000.Frame Sample.tcp_frame true;
                   Part000.Connected 9%nat true] _ Hc)).
Defined.

(** ** A dial that fails *)

Lemma resume_nth (l : list (option (bytes * vless_header))) :
  forall k, nth k (MainTs.resume l k) None = None.
Proof.
  induction l as [|x l IH]; intros [|k]; cbn; auto.
Qed.

(** X10.  When the awaited [Deno.connect] rejects, the session of either
    version logs and closes the WebSocket (if it is open), and that is all:
    nothing is written to TCP, no connection is stored, the call that
    awaited the dial is over and returns normally, and the session does not
    dial again on its own: not by any events among which no further chunk
    reaches the first sink (stream-pipe version), not by any events that
    the platform can deliver to a closed socket (callback version). *)
Theorem failed_dial_closes_the_socket {lib : VlessJs} :
  (forall (p : Part000.session) (frame : bytes) (h : vless_header)
          (es : list Part000.event),
      Part000.dialing p = Some (frame, h) ->
      Part000.remoteConnection p = None ->
      let r := Part000.step p Part000.ConnectFailed in
      effects (snd r) = (if Part000.wsOpen p then [WsClose] else [])
      /\ tcp_conns (snd r) = []
      /\ Part000.dialing (fst r) = None
      /\ Part000.remoteConnection (fst r) = None
      /\ Part000.wsOpen (fst r) = false
      /\ Part000.pipe2 (fst r) = Part000.pipe2 p
      /\ (Part000.quiet es = true ->
          existsb is_connect (snd (Part000.run (fst r) es)) = false))
  /\ (forall (m : MainTs.session) (k : nat) (frame : bytes)
             (h : vless_header) (es : list MainTs.event),
         MainTs.suspended m k = Some (frame, h) ->
         let r := MainTs.step m (MainTs.ConnectFailed k) in
         effects (snd (fst r)) = (if MainTs.wsOpen m then [WsClose] else [])
         /\ tcp_conns (snd (fst r)) = []
         /\ snd r = Returned
         /\ MainTs.suspended (fst (fst r)) k = None
         /\ MainTs.remoteConnection (fst (fst r)) = MainTs.remoteConnection m
         /\ MainTs.pipes (fst (fst r)) = MainTs.pipes m
         /\ MainTs.wsOpen (fst (fst r)) = false
         /\ (MainTs.deliverable (fst (fst r)) es = true ->
             existsb is_connect (snd (MainTs.run (fst (fst r)) es)) = false)).
Proof.
  split.
  - intros p frame h es Hd Hn r. subst r. cbn [Part000.step]. rewrite Hd.
    rewrite Part000_log_and_close. cbn [fst snd].
    cbn [Part000.wsOpen Part000.set_dialing Part000.dialing Part000.set_ws
         Part000.remoteConnection Part000.pipe2].
    repeat split; try assumption.
    + cbn. now destruct (Part000.wsOpen p).
    + cbn. now destruct (Part000.wsOpen p).
    + intros Hq. now apply Part000_run_quiet.
  - intros m k frame h es Hk r. subst r. cbn [MainTs.step]. rewrite Hk.
    unfold MainTs.onmessage_connect_failed, MainTs.returned.
    rewrite MainTs_log_and_close. cbn [fst snd].
    cbn [MainTs.wsOpen MainTs.set_pending MainTs.set_ws
         MainTs.remoteConnection MainTs.pipes].
    repeat split.
    + cbn. now destruct (MainTs.wsOpen m).
    + cbn. now destruct (MainTs.wsOpen m).
    + unfold MainTs.suspended. cbn. apply resume_nth.
    + intros Hdel. now apply MainTs_closed_never_dials.
Qed.

Lemma failed_dial_witness :
  let m := fst (@MainTs.run Sample.library
                  (MainTs.init MainTs.default_uuid true)
                  [MainTs.Message Sample.tcp_frame true]) in
  MainTs.suspended m 0
  = Some (Sample.tcp_frame, Sample.decoded false)
  /\ effects
       (snd (fst (@MainTs.step Sample.library m (MainTs.ConnectFailed 0))))
     = [WsClose].
Proof.
  cbv zeta.
  assert (Hk : MainTs.suspended
                 (fst (@MainTs.run Sample.library
                         (MainTs.init MainTs.default_uuid true)
                         [MainTs.Message Sample.tcp_frame true])) 0
               = Some (Sample.tcp_frame, Sample.decoded false))
    by (vm_compute; reflexivity).
  split; [exact Hk|].
  destruct (proj2 (@failed_dial_closes_the_socket Sample.library) _ 0%nat _ _
              [MainTs.WsClosed] Hk) as (H1 & _).
  rewrite H1. vm_compute. reflexivity.
Defined.

(** ** The connections a session touches *)

(** Closes a goal that a connection which occurs in the effects, or is
    stored, is known or is the one of the event. *)
Ltac known_conn :=
  let c := fresh "c" in
  let H := fresh "H" in
  intros c H; cbn in H; apply in_or_app; cbn;
  repeat match goal with
         | H : _ \/ _ |- _ => destruct H
         | H : False |- _ => contradiction
         | H : Some _ = Some _ |- _ => inversion H; subst; clear H
         | H : None = Some _ |- _ => discriminate H
         | H : In _ (_ ++ _) |- _ => apply in_app_or in H
         | H : In _ [] |- _ => contradiction
         | H : In _ (_ :: _) |- _ => destruct H
         end;
  subst; auto.

Lemma Part000_step_conns {lib : VlessJs} (s : Part000.session)
  (e : Part000.event) (known : list conn) :
  (forall c, Part000.remoteConnection s = Some c -> In c known) ->
  (forall c, In c (tcp_conns (snd (Part000.step s e))) ->
             In c (known ++ Part000_dialled [e]))
  /\ (forall c, Part000.remoteConnection (fst (Part000.step s e)) = Some c ->
                In c (known ++ Part000_dialled [e])).
Proof.
  destruct s as [uid addr port rc hdr cnt ws dl p1 p2]. cbn. intros Hk.
  assert (Hrc : forall c, rc = Some c -> In c known) by exact Hk.
  destruct e; cbn [Part000.step Part000.pipe1 Part000.dialing Part000.pipe2];
    try (destruct p1); try (destruct p2); try (destruct dl as [[? ?]|]);
    try (destruct wr);
    unfold Part000.sink_write, Part000.sink_write_connected,
      Part000.start_relay, Part000.pipe1_catch, Part000.remote_write,
      Part000.top_level_catch, Part000.close_remote,
      Part000.send_throttled;
    rewrite ?Part000_log_and_close, ?closeWebSocket_spec;
    cbn; try (destruct rc as [c0|]; [specialize (Hrc c0 eq_refl)|]); cbn;
    try (destruct (header_rejected _); [|destruct (isUDP _)]); cbn;
    try (destruct (slice_from _ _)); cbn; try (destruct ws); cbn;
    try (destruct (_ <? 20); [|destruct (_ <? 120); [|destruct (_ <? 500)]]);
    cbn; rewrite ?Part000_log_and_close; cbn;
    try (destruct ws); cbn; split; known_conn.
Qed.

Lemma MainTs_step_conns {lib : VlessJs} (s : MainTs.session)
  (e : MainTs.event) (known : list conn) :
  (forall c, MainTs.remoteConnection s = Some c -> In c known) ->
  (forall c, In c (tcp_conns (snd (fst (MainTs.step s e)))) ->
             In c (known ++ MainTs_dialled [e]))
  /\ (forall c,
         MainTs.remoteConnection (fst (fst (MainTs.step s e))) = Some c ->
         In c (known ++ MainTs_dialled [e])).
Proof.
  destruct s as [uid addr port rc cancel ws pend pp]. cbn. intros Hk.
  assert (Hrc : forall c, rc = Some c -> In c known) by exact Hk.
  destruct e; cbn [MainTs.step];
    unfold MainTs.onmessage, MainTs.onmessage_connected,
      MainTs.onmessage_connect_failed, MainTs.onerror, MainTs.onclose,
      MainTs.remote_write, MainTs.remote_close, MainTs.remote_abort,
      MainTs.pipe_catch, MainTs.returned, MainTs.close_remote,
      MainTs.suspended, MainTs.is_piped;
    rewrite ?MainTs_log_and_close; cbn;
    try (destruct cancel); cbn;
    try (destruct rc as [c0|]; [specialize (Hrc c0 eq_refl)|]); cbn;
    try (destruct (header_rejected _); [|destruct (isUDP _)]); cbn;
    try (destruct (nth k pend None) as [[? ?]|]); cbn;
    try (destruct (slice_from _ _)); cbn; try (destruct wr); cbn;
    try (destruct (existsb (Nat.eqb c) pp)); cbn;
    rewrite ?MainTs_log_and_close; cbn;
    try (destruct ws); cbn; split; known_conn.
Qed.

Lemma Part000_dialled_app (es1 es2 : list Part000.event) :
  Part000_dialled (es1 ++ es2) = Part000_dialled es1 ++ Part000_dialled es2.
Proof.
  induction es1 as [|e es1 IH]; [reflexivity|].
  destruct e; cbn; now rewrite ?IH.
Qed.

Lemma MainTs_dialled_app (es1 es2 : list MainTs.event) :
  MainTs_dialled (es1 ++ es2) = MainTs_dialled es1 ++ MainTs_dialled es2.
Proof.
  induction es1 as [|e es1 IH]; [reflexivity|].
  destruct e; cbn; now rewrite ?IH.
Qed.

Lemma Part000_run_conns {lib : VlessJs} (es : list Part000.event) :
  forall (s : Part000.session) (known : list conn),
    (forall c, Part000.remoteConnection s = Some c -> In c known) ->
    forall c, In c (tcp_conns (snd (Part000.run s es))) ->
              In c (known ++ Part000_dialled es).
Proof.
  induction es as [|e es IH]; intros s known Hk c Hin; [contradiction|].
  cbn [Part000.run] in Hin.
  destruct (Part000_step_conns s e known Hk) as (Ha & Hs).
  destruct (Part000.step s e) as [s1 acts]. cbn [fst snd] in *.
  specialize (IH s1 (known ++ Part000_dialled [e]) Hs c).
  destruct (Part000.run s1 es) as [s2 acts']. cbn [snd] in *.
  change (e :: es) with ([e] ++ es).
  rewrite Part000_dialled_app, app_assoc.
  rewrite tcp_conns_app in Hin. apply in_app_or in Hin as [Hin | Hin].
  - apply in_or_app. left. now apply Ha.
  - now apply IH.
Qed.

Lemma MainTs_run_conns {lib : VlessJs} (es : list MainTs.event) :
  forall (s : MainTs.session) (known : list conn),
    (forall c, MainTs.remoteConnection s = Some c -> In c known) ->
    forall c, In c (tcp_conns (snd (MainTs.run s es))) ->
              In c (known ++ MainTs_dialled es).
Proof.
  induction es as [|e es IH]; intros s known Hk c Hin; [contradiction|].
  cbn [MainTs.run] in Hin.
  destruct (MainTs_step_conns s e known Hk) as (Ha & Hs).
  destruct (MainTs.step s e) as [[s1 acts] out]. cbn [fst snd] in *.
  specialize (IH s1 (known ++ MainTs_dialled [e]) Hs c).
  destruct (MainTs.run s1 es) as [s2 acts']. cbn [snd] in *.
  change (e :: es) with ([e] ++ es).
  rewrite MainTs_dialled_app, app_assoc.
  rewrite tcp_conns_app in Hin. apply in_app_or in Hin as [Hin | Hin].
  - apply in_or_app. left. now apply Ha.
  - now apply IH.
Qed.

(** X11.  A session only touches TCP connections that its own dials
    yielded: in any session of either version, every connection that is
    written to or closed is one that a completed [Deno.connect] of that
    session returned.  In particular, as long as no dial has completed,
    nothing is written to or closed on TCP. *)
Theorem only_dialled_connections_are_touched {lib : VlessJs}
  (uid : string) (open : bool) (c : conn) :
  (forall es : list Part000.event,
      In c (tcp_conns (snd (Part000.run (Part000.init uid open) es))) ->
      In c (Part000_dialled es))
  /\ (forall es : list MainTs.event,
         In c (tcp_conns (snd (MainTs.run (MainTs.init uid open) es))) ->
         In c (MainTs_dialled es)).
Proof.
  split; intros es Hin.
  - apply (Part000_run_conns es (Part000.init uid open) []);
      [cbn; discriminate|exact Hin].
  - apply (MainTs_run_conns es (MainTs.init uid open) []);
      [cbn; discriminate|exact Hin].
Qed.

Lemma only_dialled_connections_witness :
  In Sample.remote
    (tcp_conns (snd (@MainTs.run Sample.library
                       (MainTs.init MainTs.default_uuid true)
                       Sample.error_events_main)))
  /\ In Sample.remote (MainTs_dialled Sample.error_events_main).
Proof.
  assert (Hin : In Sample.remote
                  (tcp_conns (snd (@MainTs.run Sample.library
                                     (MainTs.init MainTs.default_uuid true)
                                     Sample.error_events_main))))
    by (vm_compute; now left).
  split; [exact Hin|].
  exact (proj2 (@only_dialled_connections_are_touched Sample.library
                  MainTs.default_uuid true Sample.remote) _ Hin).
Defined.

(** ** Error and close of the socket in the callback version *)

(** X12.  In the callback version, when the socket reports an error while a
    connection exists, the connection is closed once, and whatever frames
    and close events follow, it is not closed again and nothing is written
    to it: the only effect of the whole sequence, log lines apart, is that
    one close.  A close event without a preceding error closes the
    connection once as well. *)
Theorem socket_error_closes_the_connection_once {lib : VlessJs}
  (m : MainTs.session) (c : conn) (es : list MainTs.event) :
  MainTs.remoteConnection m = Some c ->
  MainTs.readableStreamCancel m = false ->
  MainTs.frames_and_close es = true ->
  effects (snd (MainTs.run m (MainTs.WsError :: es))) = [TcpClose c]
  /\ MainTs.readableStreamCancel
       (fst (MainTs.run m (MainTs.WsError :: es))) = true
  /\ effects (snd (MainTs.run m [MainTs.WsClosed])) = [TcpClose c].
Proof.
  intros Hc Hcancel Hes. split; [|split].
  - cbn [MainTs.run MainTs.step]. unfold MainTs.onerror, MainTs.close_remote.
    cbn [MainTs.remoteConnection MainTs.set_cancel]. rewrite Hc.
    destruct (MainTs_cancelled_frames_and_close es
                (MainTs.set_cancel m true) eq_refl Hes) as (He & _).
    destruct (MainTs.run (MainTs.set_cancel m true) es) as [s2 acts'].
    cbn [snd] in *. unfold effects in *. cbn. now rewrite He.
  - cbn [MainTs.run MainTs.step]. unfold MainTs.onerror.
    destruct (MainTs_cancelled_frames_and_close es
                (MainTs.set_cancel m true) eq_refl Hes) as (_ & Hf & _).
    now destruct (MainTs.run (MainTs.set_cancel m true) es) as [s2 acts'].
  - cbn [MainTs.run MainTs.step]. unfold MainTs.onclose, MainTs.close_remote.
    cbn [MainTs.readableStreamCancel MainTs.set_ws MainTs.remoteConnection].
    now rewrite Hcancel, Hc.
Qed.

Lemma socket_error_witness :
  let m := fst (@MainTs.run Sample.library
                  (MainTs.init MainTs.default_uuid true)
                  Sample.relay_events_main) in
  MainTs.remoteConnection m = Some Sample.remote
  /\ effects
       (snd (@MainTs.run Sample.library m
               [MainTs.WsError; MainTs.Message Sample.payload true;
                MainTs.WsClosed]))
     = [TcpClose Sample.remote].
Proof.
  cbv zeta.
  assert (Hc : MainTs.remoteConnection
                 (fst (@MainTs.run Sample.library
                         (MainTs.init MainTs.default_uuid true)
                         Sample.relay_events_main)) = Some Sample.remote)
    by (vm_compute; reflexivity).
  split; [exact Hc|].
  exact (proj1 (@socket_error_closes_the_connection_once Sample.library _
                  Sample.remote
                  [MainTs.Message Sample.payload true; MainTs.WsClosed]
                  Hc eq_refl eq_refl)).
Defined.

(** ** Frames that arrive during a dial, in the callback version *)

(** X13.  The callback version does not hold frames back while a dial is
    pending.  As long as no connection exists (and the session is not
    cancelled), every frame is decoded as a header: [k] frames with an
    accepted header that arrive before any dial completes start [k] dials
    to the decoded address and port and leave [k] calls of [onmessage]
    suspended; nothing is written to or closed on TCP. *)
Theorem each_frame_before_the_connection_dials {lib : VlessJs}
  (frame : bytes) (wr : bool) (k : nat) :
  forall m : MainTs.session,
    MainTs.remoteConnection m = None ->
    MainTs.readableStreamCancel m = false ->
    header_rejected (processVlessHeader frame (MainTs.userID m)) = false ->
    isUDP (processVlessHeader frame (MainTs.userID m)) = false ->
    let h := processVlessHeader frame (MainTs.userID m) in
    let r := MainTs.run m (repeat (MainTs.Message frame wr) k) in
    dials (snd r) = repeat (address_or_empty h, port_of h) k
    /\ tcp_conns (snd r) = []
    /\ MainTs.pending (fst r) = MainTs.pending m ++ repeat (Some (frame, h)) k
    /\ MainTs.remoteConnection (fst r) = None.
Proof.
  induction k as [|k IH]; intros m Hn Hc Hok Hudp.
  - cbn. rewrite app_nil_r. now repeat split.
  - cbn zeta. cbn [repeat MainTs.run MainTs.step]. unfold MainTs.onmessage.
    rewrite Hc, Hn, Hok, Hudp.
    set (h := processVlessHeader frame (MainTs.userID m)).
    set (m1 := MainTs.set_pending _ _).
    specialize (IH m1 Hn Hc Hok Hudp). cbn zeta in IH.
    change (MainTs.userID m1) with (MainTs.userID m) in IH. fold h in IH.
    destruct (MainTs.run m1 (repeat (MainTs.Message frame wr) k))
      as [s2 acts'].
    cbn [fst snd] in *. destruct IH as (Hd & Ht & Hp & Hr).
    repeat split.
    + cbn. now rewrite Hd.
    + cbn. exact Ht.
    + rewrite Hp. subst m1. cbn [MainTs.pending MainTs.set_pending
                                  MainTs.set_context].
      now rewrite <- app_assoc.
    + exact Hr.
Qed.

Lemma each_frame_dials_witness :
  MainTs.remoteConnection (MainTs.init MainTs.default_uuid true) = None
  /\ dials
       (snd (@MainTs.run Sample.library
               (MainTs.init MainTs.default_uuid true)
               (repeat (MainTs.Message Sample.tcp_frame true) 3)))
     = repeat ("example.com"%string, 80) 3.
Proof.
  split; [reflexivity|].
  exact (proj1 (@each_frame_before_the_connection_dials Sample.library
                  Sample.tcp_frame true 3
                  (MainTs.init MainTs.default_uuid true)
                  eq_refl eq_refl eq_refl eq_refl)).
Defined.

(** ** When the second pipe is built, in the stream-pipe version *)

Lemma Part000_step_not_started {lib : VlessJs} (s : Part000.session)
  (e : Part000.event) (c : conn) :
  Part000.remoteConnection s = Some c ->
  Part000.dialing s = None ->
  Part000.pipe2 s = Part000.NotStarted ->
  frames (snd (Part000.step s e)) = []
  /\ Part000.remoteConnection (fst (Part000.step s e)) = Some c
  /\ Part000.dialing (fst (Part000.step s e)) = None
  /\ Part000.pipe2 (fst (Part000.step s e)) = Part000.NotStarted.
Proof.
  destruct s as [uid addr port rc hdr cnt ws dl p1 p2]. cbn.
  intros -> -> ->.
  destruct e; cbn [Part000.step Part000.pipe1 Part000.dialing Part000.pipe2];
    try (destruct p1); try (destruct wr);
    unfold Part000.sink_write, Part000.pipe1_catch, Part000.close_remote;
    rewrite ?Part000_log_and_close; cbn; try (destruct ws); cbn;
    now repeat split.
Qed.

(** X14.  In the stream-pipe version the pipe from TCP to the WebSocket is
    only built after the raw bytes of the first frame were written.  When
    the dial resolves and that write is rejected, the session logs and
    closes the WebSocket, keeps the connection without closing it, and
    never sends anything to the client, whatever events follow: the
    response header is not sent and no chunk is forwarded. *)
Theorem failed_raw_write_never_starts_the_relay {lib : VlessJs}
  (p : Part000.session) (frame : bytes) (h : vless_header) (c : conn)
  (es : list Part000.event) :
  Part000.dialing p = Some (frame, h) ->
  Part000.pipe2 p = Part000.NotStarted ->
  slice_from frame (rawDataIndex h) <> [] ->
  let r := Part000.step p (Part000.Connected c false) in
  effects (snd r)
  = TcpWrite c (slice_from frame (rawDataIndex h))
    :: (if Part000.wsOpen p then [WsClose] else [])
  /\ Part000.remoteConnection (fst r) = Some c
  /\ Part000.wsOpen (fst r) = false
  /\ frames (snd (Part000.run p (Part000.Connected c false :: es))) = []
  /\ Part000.pipe2 (fst (Part000.run p (Part000.Connected c false :: es)))
     = Part000.NotStarted.
Proof.
  intros Hd Hp Hraw r.
  assert (Hstep : Part000.step p (Part000.Connected c false)
                  = (Part000.set_ws
                       (Part000.set_dialing
                          (Part000.set_remote p c (response_header h)) None)
                       false,
                     TcpWrite c (slice_from frame (rawDataIndex h))
                     :: Part000.log
                          (Part000.set_dialing
                             (Part000.set_remote p c (response_header h))
                             None)
                          "Failed to connect to remote"
                     :: (if Part000.wsOpen p then [WsClose] else []))).
  { cbn [Part000.step]. rewrite Hd. unfold Part000.sink_write_connected.
    rewrite Part000_log_and_close.
    destruct (slice_from frame (rawDataIndex h)) as [|b raw];
      [contradiction|reflexivity]. }
  subst r. cbn [Part000.run]. rewrite Hstep. cbn [fst snd].
  set (s1 := Part000.set_ws _ false).
  assert (Hinv : forall es' s,
             Part000.remoteConnection s = Some c ->
             Part000.dialing s = None ->
             Part000.pipe2 s = Part000.NotStarted ->
             frames (snd (Part000.run s es')) = []
             /\ Part000.pipe2 (fst (Part000.run s es'))
                = Part000.NotStarted).
  { induction es' as [|e es' IH]; intros s Hc Hdl Hp2; [now split|].
    cbn [Part000.run].
    destruct (Part000_step_not_started s e Hc Hdl Hp2)
      as (Hf & Hc' & Hd' & Hp').
    destruct (Part000.step s e) as [s2 a2]. cbn [fst snd] in *.
    destruct (IH s2 Hc' Hd' Hp') as (Hf' & Hp'').
    destruct (Part000.run s2 es') as [s3 a3]. cbn [fst snd] in *.
    now rewrite frames_app, Hf, Hf'. }
  destruct (Hinv es s1 eq_refl eq_refl Hp) as (Hf & Hp').
  destruct (Part000.run s1 es) as [s2 a2]. cbn [fst snd] in *.
  repeat split; try assumption.
  - cbn. now destruct (Part000.wsOpen p).
  - rewrite frames_app, Hf. cbn. now destruct (Part000.wsOpen p).
Qed.

Lemma failed_raw_write_witness :
  let p := fst (@Part000.run Sample.library
                  (Part000.init MainTs.default_uuid true)
                  [Part000.Frame Sample.tcp_frame true]) in
  Part000.dialing p = Some (Sample.tcp_frame, Sample.decoded false)
  /\ frames
       (snd (@Part000.run Sample.library p
               [Part000.Connected Sample.remote false;
                Part000.RemoteChunk Sample.reply])) = [].
Proof.
  cbv zeta.
  assert (Hd : Part000.dialing
                 (fst (@Part000.run Sample.library
                         (Part000.init MainTs.default_uuid true)
                         [Part000.Frame Sample.tcp_frame true]))
               = Some (Sample.tcp_frame, Sample.decoded false))
    by (vm_compute; reflexivity).
  split; [exact Hd|].
  assert (Hraw : slice_from Sample.tcp_frame
                   (rawDataIndex (Sample.decoded false)) <> [])
    by (vm_compute; discriminate).
  destruct (@failed_raw_write_never_starts_the_relay Sample.library _ _ _
              Sample.remote [Part000.RemoteChunk Sample.reply]
              Hd eq_refl Hraw) as (_ & _ & _ & Hf & _).
  exact Hf.
Defined.

(** ** The counter of the stream-pipe version *)

Lemma Sink2_step_counts (c : conn) (s s' : Sink2.sink) (e : Sink2.event)
  (acts : list action) :
  Sink2.step c s e = Some (s', acts) ->
  Sink2.remoteChunkCount s' + Sink2.in_delay s
  = Sink2.remoteChunkCount s + Sink2.in_delay s'
    + N.of_nat (List.length (frames acts)).
Proof.
  destruct s as [ws cnt w err]. unfold Sink2.in_delay.
  destruct e as [chunk|sent|]; cbn.
  - destruct w; [discriminate|]. destruct err; [discriminate|].
    unfold Sink2.write. cbn.
    destruct ws; cbn.
    + destruct (cnt + 1 <? 20); [|destruct (cnt + 1 <? 120);
        [|destruct (cnt + 1 <? 500)]];
        intros H; inversion H; subst; cbn; lia.
    + intros H; inversion H; subst; cbn; lia.
  - destruct w; [|discriminate]. unfold Sink2.resumed.
    destruct sent; intros H; inversion H; subst; cbn; lia.
  - intros H; inversion H; subst; cbn; lia.
Qed.

Lemma Sink2_run_counts (c : conn) (es : list Sink2.event) :
  forall (s s' : Sink2.sink) (acts : list action),
    Sink2.run c s es = Some (s', acts) ->
    Sink2.remoteChunkCount s' + Sink2.in_delay s
    = Sink2.remoteChunkCount s + Sink2.in_delay s'
      + N.of_nat (List.length (frames acts)).
Proof.
  induction es as [|e es IH]; intros s s' acts H; cbn [Sink2.run] in H.
  - inversion H; subst. cbn. lia.
  - destruct (Sink2.step c s e) as [[s1 a1]|] eqn:Hs; [|discriminate].
    destruct (Sink2.run c s1 es) as [[s2 a2]|] eqn:Hr; [|discriminate].
    inversion H; subst.
    pose proof (Sink2_step_counts _ _ _ Hs) as H1.
    pose proof (IH _ _ _ Hr) as H2.
    rewrite frames_app, length_app, Nat2N.inj_add. lia.
Qed.

(** Taken together, the turns of a call of [write] that finds the socket
    open do what [Part000.remote_write] does in one step: the counter goes
    up by one and the effects are those of [Part000.send_throttled]. *)
Lemma Sink2_write_then_send (c : conn) (s : Sink2.sink) (chunk : bytes) :
  Sink2.readyOpen s = true ->
  Sink2.waiting s = None ->
  let r := Sink2.write c s chunk in
  Sink2.remoteChunkCount (fst r) = Sink2.remoteChunkCount s + 1
  /\ match Sink2.waiting (fst r) with
     | None =>
         snd r
         = Part000.send_throttled (Sink2.remoteChunkCount s + 1) chunk
         /\ Sink2.remoteChunkCount s + 1 < 20
     | Some held =>
         held = chunk
         /\ snd r ++ snd (Sink2.resumed (fst r) held true)
            = Part000.send_throttled (Sink2.remoteChunkCount s + 1) chunk
         /\ 20 <= Sink2.remoteChunkCount s + 1
     end.
Proof.
  destruct s as [ws cnt w err]. cbn -[N.add N.ltb]. intros -> ->.
  unfold Sink2.write, Part000.send_throttled. cbn -[N.add N.ltb].
  destruct (N.ltb_spec (cnt + 1) 20); [|destruct (cnt + 1 <? 120);
    [|destruct (cnt + 1 <? 500)]]; cbn -[N.add N.ltb];
    repeat split; assumption.
Qed.

(** X15.  In the stream-pipe version the counter of the throttle is, at
    every turn, the number of chunks that the second sink has handed to
    [webSocket.send], plus one while a call of [write] waits in its delay:
    the counter goes up when the call starts, the send comes when the delay
    is over.  A chunk that finds the socket not open is not counted: the
    sink is put in error and the connection closed. *)
Theorem counter_is_sends_plus_the_waiting_chunk (c : conn) (open : bool)
  (es : list Sink2.event) (s : Sink2.sink) (acts : list action) :
  Sink2.run c (Sink2.init open) es = Some (s, acts) ->
  Sink2.remoteChunkCount s
  = N.of_nat (List.length (frames acts)) + Sink2.in_delay s
  /\ (Sink2.waiting s = None ->
      Sink2.remoteChunkCount s = N.of_nat (List.length (frames acts)))
  /\ (forall chunk : bytes,
         Sink2.waiting s = None ->
         Sink2.errored s = false ->
         Sink2.readyOpen s = false ->
         Sink2.step c s (Sink2.Write chunk)
         = Some (Sink2.set_errored s, [ControllerError; TcpClose c])).
Proof.
  intros Hrun. pose proof (@Sink2_run_counts _ _ _ _ _ Hrun) as H.
  cbn [Sink2.init Sink2.remoteChunkCount Sink2.in_delay Sink2.waiting] in H.
  split; [lia|]. split.
  - intros Hw. unfold Sink2.in_delay in H. rewrite Hw in H. lia.
  - intros chunk Hw He Ho. cbn [Sink2.step]. rewrite Hw, He.
    unfold Sink2.write. now rewrite Ho.
Qed.

Lemma counter_is_sends_plus_the_waiting_chunk_witness :
  Sink2.run Sample.remote (Sink2.init true)
    (repeat (Sink2.Write Sample.reply) 20)
  = Some ({| Sink2.readyOpen := true; Sink2.remoteChunkCount := 20;
             Sink2.waiting := Some Sample.reply; Sink2.errored := false |},
          repeat (WsSend Sample.reply) 19 ++ [Delay 10])
  /\ N.of_nat
       (List.length (frames (repeat (WsSend Sample.reply) 19 ++ [Delay 10])))
     + 1 = 20.
Proof.
  assert (Hrun : Sink2.run Sample.remote (Sink2.init true)
                   (repeat (Sink2.Write Sample.reply) 20)
                 = Some ({| Sink2.readyOpen := true;
                            Sink2.remoteChunkCount := 20;
                            Sink2.waiting := Some Sample.reply;
                            Sink2.errored := false |},
                         repeat (WsSend Sample.reply) 19 ++ [Delay 10]))
    by (vm_compute; reflexivity).
  split; [exact Hrun|].
  destruct (@counter_is_sends_plus_the_waiting_chunk _ _ _ _ _ Hrun)
    as (H & _).
  symmetry. exact H.
Defined.

(** The socket may close while a call waits in its delay: the chunk is sent
    all the same when the delay is over, the socket's state is not tested a
    second time. *)
Example delayed_chunk_is_sent_without_a_second_test :
  option_map (fun r => (Sink2.readyOpen (fst r), snd r))
    (Sink2.run Sample.remote
       {| Sink2.readyOpen := true; Sink2.remoteChunkCount := 19;
          Sink2.waiting := None; Sink2.errored := false |}
       [Sink2.Write Sample.reply; Sink2.SocketNotOpen; Sink2.Elapsed true])
  = Some (false, [Delay 10; WsSend Sample.reply]).
Proof. vm_compute. reflexivity. Qed.

(** ** Tearing a session down *)

Lemma Part000_step_pipe1_ended {lib : VlessJs} (s : Part000.session)
  (e : Part000.event) :
  Part000.pipe1 s = false ->
  Part000.dialing s = None ->
  tcp_writes (snd (Part000.step s e)) = []
  /\ Part000.pipe1 (fst (Part000.step s e)) = false
  /\ Part000.dialing (fst (Part000.step s e)) = None.
Proof.
  destruct s as [uid addr port rc hdr cnt ws dl p1 p2]. cbn. intros -> ->.
  destruct e; cbn [Part000.step Part000.pipe1 Part000.dialing Part000.pipe2];
    try (destruct p2);
    unfold Part000.remote_write, Part000.top_level_catch,
      Part000.close_remote, Part000.send_throttled;
    rewrite ?Part000_log_and_close, ?closeWebSocket_spec;
    cbn; try (destruct ws); cbn; try (destruct rc); cbn;
    try (destruct (_ <? 20); [|destruct (_ <? 120); [|destruct (_ <? 500)]]);
    cbn; now repeat split.
Qed.

Lemma Part000_run_pipe1_ended {lib : VlessJs} (es : list Part000.event) :
  forall s : Part000.session,
    Part000.pipe1 s = false ->
    Part000.dialing s = None ->
    tcp_writes (snd (Part000.run s es)) = [].
Proof.
  induction es as [|e es IH]; intros s Hp Hd; [reflexivity|].
  cbn [Part000.run].
  destruct (Part000_step_pipe1_ended s e Hp Hd) as (Hw & Hp' & Hd').
  destruct (Part000.step s e) as [s1 acts]. cbn [fst snd] in *.
  specialize (IH s1 Hp' Hd').
  destruct (Part000.run s1 es) as [s2 acts']. cbn [snd] in *.
  now rewrite tcp_writes_app, Hw, IH.
Qed.

Lemma MainTs_step_closed_idle {lib : VlessJs} (s : MainTs.session)
  (e : MainTs.event) :
  MainTs.wsOpen s = false ->
  (forall k, MainTs.suspended s k = None) ->
  match e with MainTs.Message _ _ => False | _ => True end ->
  tcp_writes (snd (fst (MainTs.step s e))) = []
  /\ MainTs.wsOpen (fst (fst (MainTs.step s e))) = false
  /\ MainTs.pending (fst (fst (MainTs.step s e))) = MainTs.pending s.
Proof.
  intros Hclosed Hidle He.
  destruct e; try contradiction; clear He; cbn [MainTs.step];
    rewrite ?Hidle; try (cbn; now repeat split);
    unfold MainTs.onerror, MainTs.onclose, MainTs.remote_write,
      MainTs.remote_close, MainTs.remote_abort, MainTs.pipe_catch,
      MainTs.returned, MainTs.close_remote;
    rewrite ?MainTs_log_and_close; cbn; rewrite ?Hclosed;
    try (destruct (MainTs.is_piped s c)); cbn; rewrite ?Hclosed;
    try (destruct (MainTs.readableStreamCancel s)); cbn;
    try (destruct (MainTs.remoteConnection s)); cbn;
    rewrite ?MainTs_log_and_close; cbn; rewrite ?Hclosed;
    now repeat split.
Qed.

Lemma MainTs_run_closed_idle {lib : VlessJs} (es : list MainTs.event) :
  forall s : MainTs.session,
    MainTs.wsOpen s = false ->
    (forall k, MainTs.suspended s k = None) ->
    MainTs.deliverable s es = true ->
    tcp_writes (snd (MainTs.run s es)) = [].
Proof.
  induction es as [|e es IH]; intros s Hclosed Hidle Hd; [reflexivity|].
  cbn [MainTs.deliverable] in Hd. apply andb_true_iff in Hd as [He Hes].
  assert (Hother : match e with MainTs.Message _ _ => False | _ => True end).
  { destruct e; auto. rewrite Hclosed in He. discriminate. }
  destruct (MainTs_step_closed_idle s e Hclosed Hidle Hother)
    as (Hw & Hc & Hp).
  cbn [MainTs.run]. destruct (MainTs.step s e) as [[s1 acts] out].
  cbn [fst snd] in *.
  assert (Hidle1 : forall k, MainTs.suspended s1 k = None).
  { intros k. unfold MainTs.suspended in *. rewrite Hp. apply Hidle. }
  specialize (IH s1 Hc Hidle1 Hes).
  destruct (MainTs.run s1 es) as [s2 acts']. cbn [snd] in *.
  now rewrite tcp_writes_app, Hw, IH.
Qed.

(** X16.  Either leg that ends takes the other one down, in both versions.
    When the TCP connection reports its end (the sink's [close] of a second
    pipe that runs, of a connection that is piped), the session closes the
    WebSocket (if it is open) without touching TCP, and sends nothing to
    the client from then on, whatever the events.  When the inbound
    direction ends, the session closes its TCP connection and writes nothing
    to TCP from then on: in the stream-pipe version when the close of the
    stream reaches the first sink while a connection exists and no dial is
    awaited, whatever the events that follow; in the callback version when
    the close event fires in a session that is not cancelled, has a
    connection and has no call suspended at a dial, for the events that the
    platform can deliver to a closed socket. *)
Theorem either_leg_ending_closes_the_other {lib : VlessJs} (c : conn) :
  (forall (p : Part000.session) (es : list Part000.event),
      Part000.pipe2 p = Part000.Running ->
      let r := Part000.step p Part000.RemoteClose in
      effects (snd r) = (if Part000.wsOpen p then [WsClose] else [])
      /\ frames (snd (Part000.run (fst r) es)) = [])
  /\ (forall (p : Part000.session) (es : list Part000.event),
         Part000.pipe1 p = true ->
         Part000.dialing p = None ->
         Part000.remoteConnection p = Some c ->
         let r := Part000.step p Part000.StreamClose in
         effects (snd r) = [TcpClose c]
         /\ tcp_writes (snd (Part000.run (fst r) es)) = [])
  /\ (forall (m : MainTs.session) (es : list MainTs.event),
         MainTs.is_piped m c = true ->
         let r := MainTs.step m (MainTs.RemoteClose c) in
         effects (snd (fst r)) = (if MainTs.wsOpen m then [WsClose] else [])
         /\ frames (snd (MainTs.run (fst (fst r)) es)) = [])
  /\ (forall (m : MainTs.session) (es : list MainTs.event),
         MainTs.remoteConnection m = Some c ->
         MainTs.readableStreamCancel m = false ->
         (forall k, MainTs.suspended m k = None) ->
         let r := MainTs.step m MainTs.WsClosed in
         effects (snd (fst r)) = [TcpClose c]
         /\ (MainTs.deliverable (fst (fst r)) es = true ->
             tcp_writes (snd (MainTs.run (fst (fst r)) es)) = [])).
Proof.
  split; [|split; [|split]].
  - intros p es Hrun r. subst r. cbn [Part000.step]. rewrite Hrun.
    rewrite Part000_log_and_close. cbn [fst snd]. split.
    + cbn. now destruct (Part000.wsOpen p).
    + now apply Part000_run_closed.
  - intros p es Hp Hd Hc r. subst r. cbn [Part000.step]. rewrite Hp, Hd.
    cbn [fst snd]. unfold Part000.close_remote. rewrite Hc. split.
    + reflexivity.
    + now apply Part000_run_pipe1_ended.
  - intros m es Hpiped r. subst r. cbn [MainTs.step]. rewrite Hpiped.
    unfold MainTs.remote_close, MainTs.returned.
    rewrite MainTs_log_and_close. cbn [fst snd]. split.
    + cbn. now destruct (MainTs.wsOpen m).
    + now apply MainTs_run_closed.
  - intros m es Hc Hcancel Hidle r. subst r. cbn [MainTs.step].
    unfold MainTs.onclose, MainTs.close_remote.
    cbn [MainTs.readableStreamCancel MainTs.set_ws MainTs.remoteConnection].
    rewrite Hcancel, Hc. cbn [fst snd]. split; [reflexivity|].
    intros Hdel. now apply MainTs_run_closed_idle.
Qed.

Lemma either_leg_ending_witness :
  let m := fst (@MainTs.run Sample.library
                  (MainTs.init MainTs.default_uuid true)
                  Sample.relay_events_main) in
  MainTs.is_piped m Sample.remote = true
  /\ effects
       (snd (fst (@MainTs.step Sample.library m
                    (MainTs.RemoteClose Sample.remote)))) = [WsClose].
Proof.
  cbv zeta.
  assert (Hp : MainTs.is_piped
                 (fst (@MainTs.run Sample.library
                         (MainTs.init MainTs.default_uuid true)
                         Sample.relay_events_main)) Sample.remote = true)
    by (vm_compute; reflexivity).
  split; [exact Hp|].
  destruct (proj1 (proj2 (proj2 (@either_leg_ending_closes_the_other
                                   Sample.library Sample.remote)))
              _ [MainTs.RemoteChunk Sample.remote Sample.reply] Hp)
    as (H1 & _).
  rewrite H1. vm_compute. reflexivity.
Defined.

(** ** A chunk for a socket that is not open *)

Lemma is_piped_unpipe (s : MainTs.session) (c : conn) :
  MainTs.is_piped (MainTs.unpipe s c) c = false.
Proof.
  unfold MainTs.is_piped, MainTs.unpipe. cbn.
  induction (MainTs.pipes s) as [|c' l IH]; [reflexivity|].
  cbn. destruct (Nat.eqb c c') eqn:E; cbn; [exact IH|].
  now rewrite E.
Qed.

(** X17.  A chunk that TCP delivers when the WebSocket is not open is
    dropped and the pipe that delivered it ends: nothing is sent, further
    chunks of that pipe are ignored, and the session closes the connection
    it currently holds.  The stream-pipe version does not count the chunk,
    reports the failure on the console and closes its connection in the
    sink and again in the enclosing [catch].  The callback version closes
    the connection stored in the session at that moment, whichever
    connection delivered the chunk. *)
Theorem chunk_for_a_closed_socket_ends_the_pipe {lib : VlessJs}
  (chunk chunk' : bytes) (c : conn) :
  (forall p : Part000.session,
      Part000.pipe2 p = Part000.Running ->
      Part000.wsOpen p = false ->
      let r := Part000.step p (Part000.RemoteChunk chunk) in
      frames (snd r) = []
      /\ tcp_conns (snd r)
         = match Part000.remoteConnection p with
           | Some c' => [c'; c']
           | None => []
           end
      /\ In (ConsoleError (Part000.address p) (Part000.portWithRandomLog p))
           (snd r)
      /\ Part000.remoteChunkCount (fst r) = Part000.remoteChunkCount p
      /\ Part000.pipe2 (fst r) = Part000.Finished
      /\ Part000.step (fst r) (Part000.RemoteChunk chunk') = (fst r, []))
  /\ (forall m : MainTs.session,
         MainTs.is_piped m c = true ->
         MainTs.wsOpen m = false ->
         let r := MainTs.step m (MainTs.RemoteChunk c chunk) in
         frames (snd (fst r)) = []
         /\ tcp_conns (snd (fst r))
            = match MainTs.remoteConnection m with
              | Some c' => [c']
              | None => []
              end
         /\ MainTs.is_piped (fst (fst r)) c = false
         /\ MainTs.step (fst (fst r)) (MainTs.RemoteChunk c chunk')
            = (fst (fst r), [], Returned)).
Proof.
  split.
  - intros p Hrun Hclosed r. subst r. cbn [Part000.step]. rewrite Hrun.
    unfold Part000.remote_write, Part000.top_level_catch.
    rewrite Hclosed, closeWebSocket_spec. cbn [negb fst snd].
    unfold Part000.close_remote.
    cbn [Part000.remoteConnection Part000.set_ws Part000.set_pipe2
         Part000.pipe2 Part000.remoteChunkCount Part000.step].
    destruct (Part000.remoteConnection p); cbn; repeat split; auto.
  - intros m Hpiped Hclosed r. subst r. cbn [MainTs.step]. rewrite Hpiped.
    unfold MainTs.remote_write, MainTs.pipe_catch.
    rewrite Hclosed, MainTs_log_and_close. cbn [fst snd].
    unfold MainTs.close_remote.
    cbn [MainTs.step MainTs.wsOpen MainTs.unpipe MainTs.set_pipes].
    repeat split.
    + destruct (MainTs.remoteConnection m); cbn; now rewrite Hclosed.
    + destruct (MainTs.remoteConnection m); cbn; now rewrite Hclosed.
    + apply (is_piped_unpipe m c).
    + change (MainTs.is_piped
                (MainTs.set_ws (MainTs.unpipe m c) false) c)
        with (MainTs.is_piped (MainTs.unpipe m c) c).
      now rewrite is_piped_unpipe.
Qed.

Lemma chunk_for_a_closed_socket_witness :
  let p := fst (@Part000.run Sample.library
                  (Part000.init MainTs.default_uuid true)
                  [Part000.Frame Sample.tcp_frame true;
                   Part000.Connected Sample.remote true;
                   Part000.ClientGone]) in
  Part000.pipe2 p = Part000.Running
  /\ Part000.wsOpen p = false
  /\ tcp_conns
       (snd (@Part000.step Sample.library p
               (Part000.RemoteChunk Sample.reply)))
     = [Sample.remote; Sample.remote].
Proof.
  cbv zeta.
  assert (Hr : Part000.pipe2
                 (fst (@Part000.run Sample.library
                         (Part000.init MainTs.default_uuid true)
                         [Part000.Frame Sample.tcp_frame true;
                          Part000.Connected Sample.remote true;
                          Part000.ClientGone])) = Part000.Running)
    by (vm_compute; reflexivity).
  assert (Hc : Part000.wsOpen
                 (fst (@Part000.run Sample.library
                         (Part000.init MainTs.default_uuid true)
                         [Part000.Frame Sample.tcp_frame true;
                          Part000.Connected Sample.remote true;
                          Part000.ClientGone])) = false)
    by (vm_compute; reflexivity).
  split; [exact Hr|]. split; [exact Hc|].
  destruct (proj1 (@chunk_for_a_closed_socket_ends_the_pipe Sample.library
                     Sample.reply Sample.reply Sample.remote) _ Hr Hc)
    as (_ & H2 & _).
  rewrite H2. vm_compute. reflexivity.
Defined.
